(** * GreenGuard blockchain verification: ledger and smart-contract engine

    A shallow embedding of [blockchain_verification.py]: the hash-chained
    ledger ([_simple_blockchain_data], proof-of-work append, integrity
    validation) and the smart-contract engine ([GreenGuardSmartContract],
    [SmartContractBlockchain]), with the properties of the specification
    stated over it. *)

From Stdlib Require Import ZArith QArith List String Ascii Bool Lia Floats.
From Stdlib Require Import DecimalString DecimalZ DecimalPos Sorted.
From stdpp Require Import gmap strings.

Import ListNotations.
Set Warnings "-register-all,-inexact-float".
Local Open Scope string_scope.
Local Open Scope Z_scope.

(** ** SHA-256 ([hashlib.sha256(...).hexdigest()])

    FIPS 180-4 over 32-bit words carried in [Z], wrap-around written out.
    The message is the list of bytes of a [str.encode()]. *)
Module SHA256.

Definition w32 (x : Z) : Z := Z.land x 4294967295.
Definition add32 (x y : Z) : Z := w32 (x + y).
Definition rotr (n x : Z) : Z := Z.lor (Z.shiftr x n) (w32 (Z.shiftl x (32 - n))).
Definition shr (n x : Z) : Z := Z.shiftr x n.
Definition not32 (x : Z) : Z := Z.lxor x 4294967295.

Definition Ch (x y z : Z) : Z := Z.lxor (Z.land x y) (Z.land (not32 x) z).
Definition Maj (x y z : Z) : Z :=
  Z.lxor (Z.lxor (Z.land x y) (Z.land x z)) (Z.land y z).
Definition Sigma0 (x : Z) : Z := Z.lxor (Z.lxor (rotr 2 x) (rotr 13 x)) (rotr 22 x).
Definition Sigma1 (x : Z) : Z := Z.lxor (Z.lxor (rotr 6 x) (rotr 11 x)) (rotr 25 x).
Definition sigma0 (x : Z) : Z := Z.lxor (Z.lxor (rotr 7 x) (rotr 18 x)) (shr 3 x).
Definition sigma1 (x : Z) : Z := Z.lxor (Z.lxor (rotr 17 x) (rotr 19 x)) (shr 10 x).

(** The round constants are the first 32 bits of the fractional parts of
    the cube roots of the first 64 primes, the initial hash value those of
    the square roots of the first 8 (FIPS 180-4, 4.2.2 and 5.3.3). *)
Definition is_prime (n : Z) : bool :=
  (1 <? n) && List.forallb (fun d => negb (n mod d =? 0))
                           (List.map Z.of_nat (List.seq 2 (Z.to_nat n - 2))).

Definition primes64 : list Z :=
  List.filter is_prime (List.map Z.of_nat (List.seq 2 310)).

(** The integer cube root of [n] by bisection of [lo, hi). *)
Fixpoint icbrt_between (fuel : nat) (lo hi n : Z) : Z :=
  match fuel with
  | O => lo
  | S fuel' =>
      let mid := (lo + hi) / 2 in
      if mid * mid * mid <=? n then icbrt_between fuel' mid hi n
      else icbrt_between fuel' lo mid n
  end.

Definition icbrt (n : Z) : Z := icbrt_between 48 0 (2 ^ 40) n.

Definition K : list Z :=
  Eval vm_compute in List.map (fun p => w32 (icbrt (p * 2 ^ 96))) primes64.

Definition H0 : list Z :=
  Eval vm_compute in
    List.map (fun p => w32 (Z.sqrt (p * 2 ^ 64))) (List.firstn 8 primes64).

(** Big-endian encoding of [x] on [n] bytes. *)
Fixpoint be_bytes (n : nat) (x : Z) : list Z :=
  match n with
  | O => []
  | S n' => Z.land (Z.shiftr x (8 * Z.of_nat n')) 255 :: be_bytes n' x
  end.

(** Padding: the byte 0x80, zeros up to 56 modulo 64, the bit length on 8 bytes. *)
Definition pad (msg : list Z) : list Z :=
  let len := Z.of_nat (List.length msg) in
  let zeros := Z.to_nat ((55 - len) mod 64) in
  msg ++ [128] ++ List.repeat 0 zeros ++ be_bytes 8 (8 * len).

(** Four bytes to one big-endian word, sixteen words per 64-byte block. *)
Fixpoint words_of_bytes (bs : list Z) : list Z :=
  match bs with
  | b0 :: b1 :: b2 :: b3 :: rest =>
      (Z.lor (Z.shiftl b0 24) (Z.lor (Z.shiftl b1 16) (Z.lor (Z.shiftl b2 8) b3)))
      :: words_of_bytes rest
  | _ => []
  end.

Fixpoint blocks_of (fuel : nat) (ws : list Z) : list (list Z) :=
  match fuel, ws with
  | S fuel', _ :: _ => firstn 16 ws :: blocks_of fuel' (skipn 16 ws)
  | _, _ => []
  end.

(** Message schedule, most recent word first: [rw] holds W[t-1], W[t-2], ... *)
Fixpoint schedule (n : nat) (rw : list Z) : list Z :=
  match n with
  | O => rw
  | S n' =>
      let w2 := nth 1 rw 0 in
      let w7 := nth 6 rw 0 in
      let w15 := nth 14 rw 0 in
      let w16 := nth 15 rw 0 in
      schedule n' (add32 (add32 (sigma1 w2) w7) (add32 (sigma0 w15) w16) :: rw)
  end.

Record regs := Regs { ra : Z; rb : Z; rc : Z; rd : Z; re : Z; rf : Z; rg : Z; rh : Z }.

Definition round (s : regs) (kw : Z * Z) : regs :=
  let t1 := add32 (add32 (add32 (rh s) (Sigma1 (re s))) (Ch (re s) (rf s) (rg s)))
                  (add32 (fst kw) (snd kw)) in
  let t2 := add32 (Sigma0 (ra s)) (Maj (ra s) (rb s) (rc s)) in
  Regs (add32 t1 t2) (ra s) (rb s) (rc s) (add32 (rd s) t1) (re s) (rf s) (rg s).

Definition regs_of (h : list Z) : regs :=
  Regs (nth 0 h 0) (nth 1 h 0) (nth 2 h 0) (nth 3 h 0)
       (nth 4 h 0) (nth 5 h 0) (nth 6 h 0) (nth 7 h 0).

Definition compress (h : list Z) (block : list Z) : list Z :=
  let w := List.rev (schedule 48 (List.rev block)) in
  let s := List.fold_left round (List.combine K w) (regs_of h) in
  [ add32 (nth 0 h 0) (ra s); add32 (nth 1 h 0) (rb s);
    add32 (nth 2 h 0) (rc s); add32 (nth 3 h 0) (rd s);
    add32 (nth 4 h 0) (re s); add32 (nth 5 h 0) (rf s);
    add32 (nth 6 h 0) (rg s); add32 (nth 7 h 0) (rh s) ].

Definition digest_words (msg : list Z) : list Z :=
  let ws := words_of_bytes (pad msg) in
  List.fold_left compress (blocks_of (List.length ws) ws) H0.

Definition hex_digit (d : Z) : ascii :=
  if d <? 10 then ascii_of_N (Z.to_N (48 + d)) else ascii_of_N (Z.to_N (87 + d)).

Fixpoint hex_of (n : nat) (x : Z) : string :=
  match n with
  | O => EmptyString
  | S n' => String (hex_digit (Z.land (Z.shiftr x (4 * Z.of_nat n')) 15)) (hex_of n' x)
  end.

Definition bytes_of_string (s : string) : list Z :=
  List.map (fun c => Z.of_N (N_of_ascii c)) (list_ascii_of_string s).

(** [hashlib.sha256(s.encode()).hexdigest()] for a string of ASCII characters. *)
Definition hexdigest (s : string) : string :=
  String.concat "" (List.map (hex_of 8) (digest_words (bytes_of_string s))).

(** The eight words of a digest as one number, least significant first. *)
Definition words_value (ws : list Z) : Z :=
  List.fold_right (fun w acc => w + 4294967296 * acc) 0 ws.

End SHA256.

(** ** Python floats ([binary64])

    Arithmetic is that of the primitive floats; the conversions below go
    through the exact value [m * 2^e] of a float. *)
Module PyFloat.

(** [float(z)] on an int: round to nearest even; [None] when it overflows. *)
Definition of_Z (z : Z) : option float :=
  let f := SF2Prim (binary_normalize prec emax z 0 false) in
  if PrimFloat.is_infinity f then None else Some f.

(** The correctly rounded quotient of two ints ([a / b], [b <> 0]). *)
Definition div_Z (a b : Z) : option float :=
  let sf z := match z with
              | Z0 => S754_zero false
              | Zpos p => S754_finite false p 0
              | Zneg p => S754_finite true p 0
              end in
  let f := SF2Prim (SFdiv prec emax (sf a) (sf b)) in
  if PrimFloat.is_infinity f then None else Some f.

(** The exact order of a float and an int; [None] for a NaN. *)
Definition compare_Z (f : float) (z : Z) : option comparison :=
  match Prim2SF f with
  | S754_nan => None
  | S754_infinity s => Some (if s then Lt else Gt)
  | S754_zero _ => Some (0 ?= z)
  | S754_finite s m e =>
      let v := if s then Zneg m else Zpos m in
      if 0 <=? e then Some (v * 2 ^ e ?= z) else Some (v ?= z * 2 ^ (- e))
  end.

(** [int(f)]: truncation toward zero; [math.floor(f)]. *)
Definition trunc (f : float) : option Z :=
  match Prim2SF f with
  | S754_nan | S754_infinity _ => None
  | S754_zero _ => Some 0
  | S754_finite s m e =>
      let a := if 0 <=? e then Zpos m * 2 ^ e else Zpos m / 2 ^ (- e) in
      Some (if s then - a else a)
  end.

Definition floor (f : float) : option Z :=
  match Prim2SF f with
  | S754_nan | S754_infinity _ => None
  | S754_zero _ => Some 0
  | S754_finite s m e =>
      let v := if s then Zneg m else Zpos m in
      Some (if 0 <=? e then v * 2 ^ e else v / 2 ^ (- e))
  end.

Definition digits_of (z : Z) : string := NilZero.string_of_int (Z.to_int z).

Fixpoint zeros (n : nat) : string :=
  match n with O => "" | S n' => String "0" (zeros n') end.

(** [vn / den] is the float, [ln / den] and [hn / den] the ends of the
    interval of the reals that round to it. *)
Record interval := Interval { vn : Z; ln : Z; hn : Z; den : Z; closed : bool }.

Definition interval_of (m : positive) (e : Z) : interval :=
  let m' := Zpos m in
  let narrow := (m' =? 2 ^ 52) && (-1074 <? e) in
  let low := if narrow then 4 * m' - 1 else 4 * m' - 2 in
  let high := 4 * m' + 2 in
  if 2 <=? e
  then Interval (4 * m' * 2 ^ (e - 2)) (low * 2 ^ (e - 2)) (high * 2 ^ (e - 2)) 1
                (Z.even m')
  else Interval (4 * m') low high (2 ^ (2 - e)) (Z.even m').

(** [x * 10^p] as a fraction. *)
Definition scale10 (n d p : Z) : Z * Z :=
  if 0 <=? p then (n * 10 ^ p, d) else (n, d * 10 ^ (- p)).

(** The decimal point position [p]: [10^(p-1) <= v < 10^p]. *)
Fixpoint adjust_up (fuel : nat) (i : interval) (p : Z) : Z :=
  match fuel with
  | O => p
  | S fuel' =>
      let '(n, d) := scale10 (vn i) (den i) (- p) in
      if d <=? n then adjust_up fuel' i (p + 1) else p
  end.

Fixpoint adjust_down (fuel : nat) (i : interval) (p : Z) : Z :=
  match fuel with
  | O => p
  | S fuel' =>
      let '(n, d) := scale10 (vn i) (den i) (- (p - 1)) in
      if n <? d then adjust_down fuel' i (p - 1) else p
  end.

Definition decpt (i : interval) : Z :=
  let l2 := Z.log2 (vn i) - Z.log2 (den i) in
  let est := (l2 * 30103) / 100000 in
  adjust_down 4 i (adjust_up 4 i est).

Definition inside (i : interval) (n d : Z) : bool :=
  if closed i then (ln i * d <=? n * den i) && (n * den i <=? hn i * d)
  else (ln i * d <? n * den i) && (n * den i <? hn i * d).

(** The [k]-digit decimals next to the float, when one rounds to it. *)
Definition candidate (i : interval) (p : Z) (k : Z) : option Z :=
  let '(n, d) := scale10 (vn i) (den i) (k - p) in
  let q := n / d in
  let r := n mod d in
  let '(qn, qd) := scale10 q 1 (p - k) in
  let '(un, ud) := scale10 (q + 1) 1 (p - k) in
  let down := inside i qn qd in
  let up := inside i un ud in
  let nearer_up := (d <? 2 * r) || ((d =? 2 * r) && Z.odd q) in
  if down && up then Some (if nearer_up then q + 1 else q)
  else if down then Some q
  else if up then Some (q + 1)
  else None.

Fixpoint shortest (fuel : nat) (i : interval) (p : Z) (k : Z) : Z * Z :=
  match fuel with
  | O => (0, k)
  | S fuel' =>
      match candidate i p k with
      | Some c => (c, k)
      | None => shortest fuel' i p (k + 1)
      end
  end.

Fixpoint strip_zeros (fuel : nat) (c : Z) : Z :=
  match fuel with
  | O => c
  | S fuel' => if (c mod 10 =? 0) && negb (c =? 0) then strip_zeros fuel' (c / 10) else c
  end.

(** [float_repr_style = 'short'] formatting of the digits [ds] with the
    decimal point after [p] of them. *)
Definition format_short (ds : string) (p : Z) : string :=
  let k := Z.of_nat (String.length ds) in
  if (p <=? -4) || (16 <? p) then
    let ex := p - 1 in
    let mant := match ds with
                | String c EmptyString => ds
                | String c rest => String c ("." ++ rest)
                | EmptyString => ds
                end in
    let ed := digits_of (Z.abs ex) in
    mant ++ "e" ++ (if ex <? 0 then "-" else "+")
         ++ (if Z.abs ex <? 10 then "0" ++ ed else ed)
  else if p <=? 0 then "0." ++ zeros (Z.to_nat (- p)) ++ ds
  else if k <=? p then ds ++ zeros (Z.to_nat (p - k)) ++ ".0"
  else substring 0 (Z.to_nat p) ds ++ "." ++ substring (Z.to_nat p) (Z.to_nat (k - p)) ds.

(** [repr(f)] *)
Definition repr (f : float) : string :=
  match Prim2SF f with
  | S754_nan => "nan"
  | S754_infinity s => if s then "-inf" else "inf"
  | S754_zero s => if s then "-0.0" else "0.0"
  | S754_finite s m e =>
      let i := interval_of m e in
      let p := decpt i in
      let '(c, k) := shortest 17 i p 1 in
      let p' := if c =? 10 ^ k then p + 1 else p in
      let ds := digits_of (strip_zeros 20 c) in
      (if s then "-" else "") ++ format_short ds p'
  end.

(** [round(f, 2)]: the decimal with two places nearest to [f] (ties to
    even), read back as the nearest float. *)
Definition round2 (f : float) : float :=
  match Prim2SF f with
  | S754_finite s m e =>
      let n :=
        if 0 <=? e then Zpos m * 100 * 2 ^ e
        else
          let num := Zpos m * 100 in
          let d := 2 ^ (- e) in
          let q := num / d in
          let r := num mod d in
          if (d <? 2 * r) || ((d =? 2 * r) && Z.odd q) then q + 1 else q in
      match n with
      | Zpos pn => SF2Prim (SFdiv prec emax (S754_finite s pn 0) (S754_finite false 100 0))
      | _ => if s then PrimFloat.neg_zero else PrimFloat.zero
      end
  | _ => f
  end.

End PyFloat.

(** ** Python values

    The JSON-shaped values that reach the module: [None], bools, ints,
    floats, strings (sequences of code points below 256), lists, and dicts
    with string keys (the list of their items in insertion order). *)
Inductive pyval : Type :=
| VNone
| VBool (b : bool)
| VInt (z : Z)
| VFloat (f : float)
| VStr (s : string)
| VList (l : list pyval)
| VDict (d : list (string * pyval)).

(** The exception classes the evaluators can raise. *)
Inductive exn : Type :=
| TypeError | AttributeError | ValueError | OverflowError | ZeroDivisionError | KeyError.

(** A computation that returns or raises. *)
Inductive res (A : Type) : Type :=
| Ok (a : A)
| Raise (e : exn).
Arguments Ok {A} a.
Arguments Raise {A} e.

Definition res_bind {A B : Type} (m : res A) (k : A -> res B) : res B :=
  match m with
  | Ok a => k a
  | Raise e => Raise e
  end.

Notation "'let*' x ':=' m 'in' k" := (res_bind m (fun x => k))
  (at level 10, x name, m at level 100, k at level 200).

Module Py.

Definition dquote : string := String (ascii_of_N 34) EmptyString.
Definition squote : string := String (ascii_of_N 39) EmptyString.
Definition backslash : string := String (ascii_of_N 92) EmptyString.

(** The decimal text of an int. *)
Definition decimal (z : Z) : string := PyFloat.digits_of z.

(** CPython writes an int as decimal text only up to
    [sys.int_info.default_max_str_digits = 4300] digits, the sign apart:
    beyond, [str], [repr], an f-string and [json.dumps] raise [ValueError].
    An int has more than 4300 digits exactly from [10 ** 4300] on. *)
Definition max_str_digits : Z := 4300.

Definition int_limit : Z := Eval vm_compute in 10 ^ max_str_digits.

Definition int_fits (z : Z) : bool := Z.abs z <? int_limit.

(** [str(z)] on an int. *)
Definition str_of_int (z : Z) : res string :=
  if int_fits z then Ok (decimal z) else Raise ValueError.

(** [needle in hay] on strings. *)
Fixpoint contains (needle hay : string) : bool :=
  String.prefix needle hay ||
  match hay with
  | EmptyString => false
  | String _ hay' => contains needle hay'
  end.

(** [s * n] *)
Definition str_repeat (s : string) (n : Z) : string :=
  String.concat "" (List.repeat s (Z.to_nat n)).

Definition list_repeat (l : list pyval) (n : Z) : list pyval :=
  List.concat (List.repeat l (Z.to_nat n)).

(** [str.lower] on code points below 256. *)
Definition lower_char (c : ascii) : ascii :=
  let n := Z.of_N (N_of_ascii c) in
  if ((65 <=? n) && (n <=? 90)) || ((192 <=? n) && (n <=? 222) && negb (n =? 215))
  then ascii_of_N (Z.to_N (n + 32)) else c.

Fixpoint lower (s : string) : string :=
  match s with
  | EmptyString => EmptyString
  | String c s' => String (lower_char c) (lower s')
  end.

Definition chars (s : string) : list pyval :=
  List.map (fun c => VStr (String c EmptyString)) (list_ascii_of_string s).

(** The last [n] items: [l[-n:]]. *)
Definition last_n {A : Type} (n : nat) (l : list A) : list A :=
  List.skipn (List.length l - n) l.

(** [repr] of a string. *)
Definition repr_char (q : ascii) (c : ascii) : string :=
  let n := Z.of_N (N_of_ascii c) in
  if Ascii.eqb c q || (n =? 92) then backslash ++ String c EmptyString
  else if n =? 9 then backslash ++ "t"
  else if n =? 10 then backslash ++ "n"
  else if n =? 13 then backslash ++ "r"
  else if (n <? 32) || (n =? 127) || ((128 <=? n) && (n <=? 160)) || (n =? 173)
       then backslash ++ "x" ++ SHA256.hex_of 2 n
  else String c EmptyString.

Definition str_repr (s : string) : string :=
  let q := if contains squote s && negb (contains dquote s)
           then ascii_of_N 34 else ascii_of_N 39 in
  String q (String.concat "" (List.map (repr_char q) (list_ascii_of_string s)))
  ++ String q EmptyString.

(** Every int held by [v], at any depth, can be written as text. *)
Fixpoint fits (v : pyval) : bool :=
  match v with
  | VInt z => int_fits z
  | VList l => List.forallb fits l
  | VDict d => List.forallb (fun kv => fits (snd kv)) d
  | _ => true
  end.

(** The text [repr] writes when every int of [v] can be written. *)
Fixpoint repr_text (v : pyval) : string :=
  match v with
  | VNone => "None"
  | VBool true => "True"
  | VBool false => "False"
  | VInt z => decimal z
  | VFloat f => PyFloat.repr f
  | VStr s => str_repr s
  | VList l => "[" ++ String.concat ", " (List.map repr_text l) ++ "]"
  | VDict d =>
      "{" ++ String.concat ", "
               (List.map (fun kv => str_repr (fst kv) ++ ": " ++ repr_text (snd kv)) d)
          ++ "}"
  end.

(** [repr(v)]: a [ValueError] when [v] holds an int beyond the limit. *)
Definition repr (v : pyval) : res string :=
  if fits v then Ok (repr_text v) else Raise ValueError.

(** [str(v)], also what an f-string writes for [{v}]. *)
Definition str (v : pyval) : res string :=
  match v with
  | VStr s => Ok s
  | _ => repr v
  end.

(** [[f(x) for x in items]] *)
Fixpoint map_res {A B : Type} (f : A -> res B) (items : list A) : res (list B) :=
  match items with
  | [] => Ok []
  | x :: rest =>
      let* y := f x in
      let* tl := map_res f rest in
      Ok (y :: tl)
  end.

(** *** Numbers: ints (bools among them) and floats *)
Inductive num : Type :=
| NInt (z : Z)
| NFloat (f : float).

Definition as_num (v : pyval) : option num :=
  match v with
  | VBool b => Some (NInt (if b then 1 else 0))
  | VInt z => Some (NInt z)
  | VFloat f => Some (NFloat f)
  | _ => None
  end.

Definition of_num (n : num) : pyval :=
  match n with
  | NInt z => VInt z
  | NFloat f => VFloat f
  end.

Definition to_float (n : num) : res float :=
  match n with
  | NInt z => match PyFloat.of_Z z with
              | Some f => Ok f
              | None => Raise OverflowError
              end
  | NFloat f => Ok f
  end.

(** The order of a number and an int literal, exact; [None] for a NaN. *)
Definition compare_int (a : num) (n : Z) : option comparison :=
  match a with
  | NInt z => Some (z ?= n)
  | NFloat f => PyFloat.compare_Z f n
  end.

Definition num_lt_int (a : num) (n : Z) : bool :=
  match compare_int a n with Some Lt => true | _ => false end.
Definition num_gt_int (a : num) (n : Z) : bool :=
  match compare_int a n with Some Gt => true | _ => false end.
Definition num_ge_int (a : num) (n : Z) : bool :=
  match compare_int a n with Some Gt | Some Eq => true | _ => false end.

(** [v < n], [v > n], [v >= n] for an int literal [n]: a [TypeError] unless
    [v] is a number. *)
Definition lt_int (v : pyval) (n : Z) : res bool :=
  match as_num v with Some a => Ok (num_lt_int a n) | None => Raise TypeError end.
Definition gt_int (v : pyval) (n : Z) : res bool :=
  match as_num v with Some a => Ok (num_gt_int a n) | None => Raise TypeError end.
Definition ge_int (v : pyval) (n : Z) : res bool :=
  match as_num v with Some a => Ok (num_ge_int a n) | None => Raise TypeError end.

Definition num_arith (zop : Z -> Z -> Z) (fop : float -> float -> float)
           (a b : num) : res num :=
  match a, b with
  | NInt x, NInt y => Ok (NInt (zop x y))
  | _, _ =>
      let* fa := to_float a in
      let* fb := to_float b in
      Ok (NFloat (fop fa fb))
  end.

Definition num_add : num -> num -> res num := num_arith Z.add PrimFloat.add.
Definition num_sub : num -> num -> res num := num_arith Z.sub PrimFloat.sub.
Definition num_mul : num -> num -> res num := num_arith Z.mul PrimFloat.mul.

(** [a / b]: true division. *)
Definition num_truediv (a b : num) : res float :=
  match a, b with
  | NInt x, NInt y =>
      if y =? 0 then Raise ZeroDivisionError
      else match PyFloat.div_Z x y with
           | Some f => Ok f
           | None => Raise OverflowError
           end
  | _, _ =>
      let* fa := to_float a in
      let* fb := to_float b in
      if PrimFloat.eqb fb PrimFloat.zero then Raise ZeroDivisionError
      else Ok (PrimFloat.div fa fb)
  end.

(** [a + b] *)
Definition add (a b : pyval) : res pyval :=
  match as_num a, as_num b with
  | Some x, Some y => let* r := num_add x y in Ok (of_num r)
  | _, _ =>
      match a, b with
      | VStr s, VStr t => Ok (VStr (s ++ t))
      | VList l, VList m => Ok (VList (l ++ m))
      | _, _ => Raise TypeError
      end
  end.

(** [v * n] for an int literal [n]. *)
Definition mul_int (v : pyval) (n : Z) : res pyval :=
  match as_num v with
  | Some x => let* r := num_mul x (NInt n) in Ok (of_num r)
  | None =>
      match v with
      | VStr s => Ok (VStr (str_repeat s n))
      | VList l => Ok (VList (list_repeat l n))
      | _ => Raise TypeError
      end
  end.

(** [n - v] for an int literal [n]. *)
Definition rsub_int (n : Z) (v : pyval) : res num :=
  match as_num v with
  | Some x => num_sub (NInt n) x
  | None => Raise TypeError
  end.

(** [v / n] for an int literal [n]. *)
Definition truediv_int (v : pyval) (n : Z) : res float :=
  match as_num v with
  | Some x => num_truediv x (NInt n)
  | None => Raise TypeError
  end.

(** [int(f)] on a float. *)
Definition int_of_float (f : float) : res Z :=
  match PyFloat.trunc f with
  | Some z => Ok z
  | None => if PrimFloat.is_nan f then Raise ValueError else Raise OverflowError
  end.

(** [round(x, 2)] on a number. *)
Definition round2 (x : num) : pyval :=
  match x with
  | NInt z => VInt z
  | NFloat f => VFloat (PyFloat.round2 f)
  end.

(** [bool(v)] *)
Definition truth (v : pyval) : bool :=
  match v with
  | VNone => false
  | VBool b => b
  | VInt z => negb (z =? 0)
  | VFloat f => negb (PrimFloat.eqb f PrimFloat.zero)
  | VStr s => negb (String.eqb s "")
  | VList l => match l with [] => false | _ => true end
  | VDict d => match d with [] => false | _ => true end
  end.

(** [len(v)] *)
Definition len (v : pyval) : res Z :=
  match v with
  | VStr s => Ok (Z.of_nat (String.length s))
  | VList l => Ok (Z.of_nat (List.length l))
  | VDict d => Ok (Z.of_nat (List.length d))
  | _ => Raise TypeError
  end.

Definition lookup (d : list (string * pyval)) (k : string) : option pyval :=
  match List.find (fun kv => String.eqb (fst kv) k) d with
  | Some kv => Some (snd kv)
  | None => None
  end.

(** [v.get(k, default)] *)
Definition get (v : pyval) (k : string) (default : pyval) : res pyval :=
  match v with
  | VDict d => Ok (match lookup d k with Some x => x | None => default end)
  | _ => Raise AttributeError
  end.

(** [table.get(key, default)] on a dict literal with string keys: an
    unhashable key raises. *)
Definition table_get {A : Type} (table : list (string * A)) (key : pyval) (default : A)
  : res A :=
  match key with
  | VList _ | VDict _ => Raise TypeError
  | VStr s =>
      Ok (match List.find (fun kv => String.eqb (fst kv) s) table with
          | Some kv => snd kv
          | None => default
          end)
  | _ => Ok default
  end.

(** [v.lower()] *)
Definition lower_of (v : pyval) : res string :=
  match v with
  | VStr s => Ok (lower s)
  | _ => Raise AttributeError
  end.

(** The items a [for] loop takes from [v[-n:]].  (Slicing a dict raises:
    a [TypeError] up to CPython 3.11.) *)
Definition slice_last (n : nat) (v : pyval) : res (list pyval) :=
  match v with
  | VList l => Ok (last_n n l)
  | VStr s => Ok (last_n n (chars s))
  | _ => Raise TypeError
  end.

(** The items a [for] loop takes from [v]. *)
Definition iter (v : pyval) : res (list pyval) :=
  match v with
  | VList l => Ok l
  | VStr s => Ok (chars s)
  | VDict d => Ok (List.map (fun kv => VStr (fst kv)) d)
  | _ => Raise TypeError
  end.

(** [list(v.keys())] *)
Definition keys (v : pyval) : res pyval :=
  match v with
  | VDict d => Ok (VList (List.map (fun kv => VStr (fst kv)) d))
  | _ => Raise AttributeError
  end.

(** [[h for h in items if cond(h)]] *)
Fixpoint filter_res (cond : pyval -> res bool) (items : list pyval) : res (list pyval) :=
  match items with
  | [] => Ok []
  | h :: rest =>
      let* keep := cond h in
      let* tl := filter_res cond rest in
      Ok (if keep then h :: tl else tl)
  end.

(** [sum(f(h) for h in items)], from [acc]: repeated addition, left to right
    (CPython up to 3.11; later versions compensate the rounding of a sum of
    floats). *)
Fixpoint sum_from (f : pyval -> res pyval) (acc : pyval) (items : list pyval) : res pyval :=
  match items with
  | [] => Ok acc
  | h :: rest =>
      let* x := f h in
      let* acc' := add acc x in
      sum_from f acc' rest
  end.

Definition as_number (v : pyval) : res num :=
  match as_num v with
  | Some x => Ok x
  | None => Raise TypeError
  end.

End Py.

(** ** [json.dumps(..., sort_keys=True)] *)
Module Json.

(** [json.encoder.py_encode_basestring_ascii] on one code point. *)
Definition escape_char (c : ascii) : string :=
  let n := Z.of_N (N_of_ascii c) in
  if n =? 34 then Py.backslash ++ Py.dquote
  else if n =? 92 then Py.backslash ++ Py.backslash
  else if n =? 10 then Py.backslash ++ "n"
  else if n =? 13 then Py.backslash ++ "r"
  else if n =? 9 then Py.backslash ++ "t"
  else if n =? 12 then Py.backslash ++ "f"
  else if n =? 8 then Py.backslash ++ "b"
  else if (32 <=? n) && (n <=? 126) then String c EmptyString
  else Py.backslash ++ "u" ++ SHA256.hex_of 4 n.

Fixpoint escape (s : string) : string :=
  match s with
  | EmptyString => EmptyString
  | String c s' => escape_char c ++ escape s'
  end.

Definition quote (s : string) : string := Py.dquote ++ escape s ++ Py.dquote.

(** [float.__repr__], with the names JSON gives to the non-finite floats. *)
Definition float_text (f : float) : string :=
  if PrimFloat.is_nan f then "NaN"
  else if PrimFloat.eqb f PrimFloat.infinity then "Infinity"
  else if PrimFloat.eqb f PrimFloat.neg_infinity then "-Infinity"
  else PyFloat.repr f.

(** [sorted(items)] on rendered items: a stable insertion sort by key. *)
Fixpoint insert_item (kv : string * string) (l : list (string * string))
  : list (string * string) :=
  match l with
  | [] => [kv]
  | kv' :: l' =>
      if String.ltb (fst kv) (fst kv') then kv :: l
      else kv' :: insert_item kv l'
  end.

Definition sort_items (l : list (string * string)) : list (string * string) :=
  List.fold_left (fun acc kv => insert_item kv acc) l [].

(** The text the encoder writes when every int of [v] can be written. *)
Fixpoint encode (v : pyval) : string :=
  match v with
  | VNone => "null"
  | VBool true => "true"
  | VBool false => "false"
  | VInt z => Py.decimal z
  | VFloat f => float_text f
  | VStr s => quote s
  | VList l =>
      "[" ++ String.concat ", " (List.map encode l) ++ "]"
  | VDict d =>
      let items := List.map (fun kv => (fst kv, encode (snd kv))) d in
      "{" ++ String.concat ", "
               (List.map (fun kv => quote (fst kv) ++ ": " ++ snd kv)
                         (sort_items items))
          ++ "}"
  end.

(** [json.dumps(v, sort_keys=True)]: ints go through [int.__repr__], so a
    value that holds an int beyond the limit raises [ValueError]. *)
Definition dumps (v : pyval) : res string :=
  if Py.fits v then Ok (encode v) else Raise ValueError.

End Json.

(** ** The ledger: [_simple_blockchain_data] and its operations *)

(** [int(t)] of a reading [t] of [time.time()].  The clock returns finite
    floats, on which [int] does not raise; the int has at most 309 digits,
    so the ids below write it with [Py.decimal]. *)
Definition int_of_clock (t : float) : Z :=
  match PyFloat.trunc t with
  | Some z => z
  | None => 0
  end.

(** A block dict.  The genesis block has no ["nonce"] key. *)
Record Block := mkBlock {
  index : Z;
  timestamp : float;
  data : pyval;
  previous_hash : string;
  nonce : option Z;
  hash : string
}.

Module Ledger.

Definition difficulty : Z := 2.

(** [target = "0" * difficulty] *)
Definition target : string := Py.str_repeat "0" difficulty.

(** The dict without its ["hash"] key ([block_copy.pop("hash", "")]; the
    candidate [block_data] before the key is set), keys in insertion order. *)
Definition block_items (b : Block) : list (string * pyval) :=
  ([ ("index", VInt (index b));
    ("timestamp", VFloat (timestamp b));
    ("data", data b);
    ("previous_hash", VStr (previous_hash b)) ]
  ++ match nonce b with
     | Some n => [ ("nonce", VInt n) ]
     | None => []
     end)%list.

(** [json.dumps(block_copy, sort_keys=True)] *)
Definition block_string (b : Block) : res string := Json.dumps (VDict (block_items b)).

(** [hashlib.sha256(block_string.encode()).hexdigest()] *)
Definition block_digest (b : Block) : res string :=
  let* block_string := block_string b in
  Ok (SHA256.hexdigest block_string).

Definition genesis_hash : string :=
  Eval vm_compute in SHA256.hexdigest "greenguard_genesis_block".

Definition genesis_block (now : float) (utcnow : string) : Block :=
  {| index := 0;
     timestamp := now;
     data := VDict [ ("type", VStr "genesis");
                    ("message", VStr "GreenGuard Blockchain Genesis Block");
                    ("timestamp", VStr utcnow);
                    ("version", VStr "2.0_with_smart_contracts") ];
     previous_hash := "0";
     nonce := None;
     hash := genesis_hash |}.

(** [_initialize_simple_blockchain]: seeds the chain when it is empty. *)
Definition _initialize_simple_blockchain
           (chain : list Block) (now : float) (utcnow : string) : list Block :=
  match chain with
  | [] => [ genesis_block now utcnow ]
  | _ => chain
  end.

Definition with_nonce (b : Block) (n : Z) : Block :=
  {| index := index b; timestamp := timestamp b; data := data b;
     previous_hash := previous_hash b; nonce := Some n; hash := hash b |}.

Definition with_hash (b : Block) (h : string) : Block :=
  {| index := index b; timestamp := timestamp b; data := data b;
     previous_hash := previous_hash b; nonce := nonce b; hash := h |}.

(** The [while True] nonce search, from nonce [n], cut after [fuel] digests:
    [None] stands for a loop still running after [fuel] iterations,
    [Some (Raise e)] for the exception of [json.dumps] leaving the loop. *)
Fixpoint mine (fuel : nat) (b : Block) (n : Z) : option (res Block) :=
  match fuel with
  | O => None
  | S fuel' =>
      let cand := with_nonce b n in
      match block_digest cand with
      | Raise e => Some (Raise e)
      | Ok block_hash =>
          if String.prefix target block_hash then Some (Ok (with_hash cand block_hash))
          else mine fuel' b (n + 1)
      end
  end.

(** [f"BLOCK_{new_index}_{int(timestamp)}"]: by then [new_index] went
    through [json.dumps] with the block. *)
Definition block_id (new_index : Z) (t : float) : string :=
  "BLOCK_" ++ Py.decimal new_index ++ "_" ++ Py.decimal (int_of_clock t).

(** The clock readings one call of [_add_block_to_simple_chain] may take:
    those of the genesis seeding (used only on an empty chain), then the
    block's own [time.time()]. *)
Record add_env := AddEnv {
  env_genesis_now : float;
  env_genesis_utcnow : string;
  env_now : float
}.

(** [_add_block_to_simple_chain(data)]: the chain after the call, and the
    block id returned or the exception raised.  An exception leaves the
    chain as the seeding left it. *)
Definition _add_block_to_simple_chain
           (fuel : nat) (chain : list Block) (payload : pyval) (env : add_env)
  : option (list Block * res string) :=
  let chain1 :=
    _initialize_simple_blockchain chain (env_genesis_now env) (env_genesis_utcnow env) in
  match last chain1 with
  | None => None
  | Some previous_block =>
      let new_index := Z.of_nat (List.length chain1) in
      let block_data :=
        {| index := new_index; timestamp := env_now env; data := payload;
           previous_hash := hash previous_block; nonce := Some 0; hash := "" |} in
      match mine fuel block_data 0 with
      | None => None
      | Some (Raise e) => Some (chain1, Raise e)
      | Some (Ok sealed) =>
          Some ((chain1 ++ [sealed])%list, Ok (block_id new_index (env_now env)))
      end
  end.

(** One index of the loop of [_validate_blockchain_integrity]; an
    exception of [json.dumps] ends the function in its [except] branch,
    which returns [False]. *)
Definition block_ok (chain : list Block) (i : nat) : bool :=
  match chain !! i, chain !! (i - 1)%nat with
  | Some current_block, Some previous_block =>
      if negb (String.eqb (previous_hash current_block) (hash previous_block))
      then false
      else
        let stored_hash := hash current_block in
        match block_digest current_block with
        | Ok calculated_hash =>
            if negb (String.eqb stored_hash calculated_hash) then false else true
        | Raise _ => false
        end
  | _, _ => false
  end.

(** [_validate_blockchain_integrity] (and the public
    [validate_blockchain_integrity]). *)
Definition _validate_blockchain_integrity (chain : list Block) : bool :=
  if (List.length chain <=? 1)%nat then true
  else List.forallb (block_ok chain) (List.seq 1 (List.length chain - 1)).

(** [reset_blockchain_for_testing] on the ledger. *)
Definition reset_blockchain_for_testing (now : float) (utcnow : string) : list Block :=
  _initialize_simple_blockchain [] now utcnow.

(** The operations that change [_simple_blockchain_data]. *)
Inductive ledger_step : list Block -> list Block -> Prop :=
| step_initialize chain now utcnow :
    ledger_step chain (_initialize_simple_blockchain chain now utcnow)
| step_add chain payload env fuel chain' outcome :
    _add_block_to_simple_chain fuel chain payload env = Some (chain', outcome) ->
    ledger_step chain chain'
| step_reset chain now utcnow :
    ledger_step chain (reset_blockchain_for_testing now utcnow).

(** The ledgers the module can hold, from [_simple_blockchain_data = []]. *)
Inductive reachable : list Block -> Prop :=
| reach_empty : reachable []
| reach_step chain chain' :
    reachable chain -> ledger_step chain chain' -> reachable chain'.

(** A change of exactly one field of a block. *)
Inductive mutates_field (b : Block) : Block -> Prop :=
| mutate_index v :
    v <> index b ->
    mutates_field b (mkBlock v (timestamp b) (data b) (previous_hash b) (nonce b) (hash b))
| mutate_timestamp v :
    v <> timestamp b ->
    mutates_field b (mkBlock (index b) v (data b) (previous_hash b) (nonce b) (hash b))
| mutate_data v :
    v <> data b ->
    mutates_field b (mkBlock (index b) (timestamp b) v (previous_hash b) (nonce b) (hash b))
| mutate_previous_hash v :
    v <> previous_hash b ->
    mutates_field b (mkBlock (index b) (timestamp b) (data b) v (nonce b) (hash b))
| mutate_nonce v :
    v <> nonce b ->
    mutates_field b (mkBlock (index b) (timestamp b) (data b) (previous_hash b) v (hash b))
| mutate_hash v :
    v <> hash b ->
    mutates_field b (mkBlock (index b) (timestamp b) (data b) (previous_hash b) (nonce b) v).

(** The change shows in what is hashed: a new [data] or [timestamp] is
    written by [json.dumps] otherwise than the old one.  (Two dicts that
    differ in the order of their keys alone are written alike.) *)
Definition shows (b b' : Block) : Prop :=
  (Json.dumps (data b') = Json.dumps (data b) -> data b' = data b) /\
  (Json.float_text (timestamp b') = Json.float_text (timestamp b) ->
   timestamp b' = timestamp b).

(** Two blocks with different serializations and one SHA-256 digest. *)
Definition collide (b b' : Block) : Prop :=
  exists s s', block_string b = Ok s /\ block_string b' = Ok s' /\
               s <> s' /\ SHA256.hexdigest s = SHA256.hexdigest s'.

(** What the proof-of-work append establishes for a block at [chain !! i]. *)
Definition sealed_at (chain : list Block) (i : nat) (b : Block) : Prop :=
  block_digest b = Ok (hash b) /\
  String.prefix target (hash b) = true /\
  exists prev, chain !! (i - 1)%nat = Some prev /\ previous_hash b = hash prev.

(** The candidate [block_data] of an append to a non-empty chain. *)
Definition candidate (chain : list Block) (payload : pyval) (now : float)
           (previous_block : Block) : Block :=
  {| index := Z.of_nat (List.length chain); timestamp := now; data := payload;
     previous_hash := hash previous_block; nonce := Some 0; hash := "" |}.

(** The invariant of the ledger: a genesis block first, every later block
    numbered by its position, sealed and linked. *)
Definition ledger_inv (chain : list Block) : Prop :=
  (forall g, chain !! 0%nat = Some g -> exists now utcnow, g = genesis_block now utcnow) /\
  (forall i b, (0 < i)%nat -> chain !! i = Some b ->
               index b = Z.of_nat i /\ sealed_at chain i b).

End Ledger.

(** *** A concrete ledger: genesis, one verification, one claim analysis *)
Module LedgerExample.

Definition t0 : float := 1700000000.5%float.
Definition t1 : float := 1700000002.75%float.
Definition t2 : float := 1700000041%float.
Definition utc0 : string := "2023-11-14T22:13:20.500000".

Definition verification_payload : pyval :=
  VDict [ ("type", VStr "verification");
         ("company_name", VStr "TestCorp");
         ("claim", VStr "100% renewable energy");
         ("verification_score", VInt 85);
         ("status", VStr "verified") ].

Definition claim_payload : pyval :=
  VDict [ ("type", VStr "claim_analysis");
         ("content", VStr "We are committed to sustainability");
         ("claims_count", VInt 1) ].

Definition genesis : Block := Ledger.genesis_block t0 utc0.

Definition block1 : Block :=
  {| index := 1; timestamp := t1; data := verification_payload;
     previous_hash := Ledger.genesis_hash; nonce := Some 2;
     hash := "004838b490123f9ad452b717bd4c446050df5fe8953f342ab73ee1985ea24827" |}.

Definition block2 : Block :=
  {| index := 2; timestamp := t2; data := claim_payload;
     previous_hash := hash block1; nonce := Some 0;
     hash := "00d0bd4b539c6e4b7da318f420a7c6339a6ed049b3d6616dc1395b90e811f975" |}.

Definition chain1 : list Block := [ genesis ].
Definition chain2 : list Block := [ genesis; block1 ].
Definition chain3 : list Block := [ genesis; block1; block2 ].

Definition env1 : Ledger.add_env := Ledger.AddEnv t0 utc0 t1.
Definition env2 : Ledger.add_env := Ledger.AddEnv t0 utc0 t2.

(** The genesis block with its [data] replaced after sealing. *)
Definition forged_genesis : Block :=
  mkBlock (index genesis) (timestamp genesis)
          (VDict [ ("type", VStr "genesis"); ("message", VStr "rewritten") ])
          (previous_hash genesis) (nonce genesis) (hash genesis).

(** [block1] with its score rewritten after sealing. *)
Definition forged_block1 : Block :=
  mkBlock (index block1) (timestamp block1)
          (VDict [ ("type", VStr "verification");
                  ("company_name", VStr "TestCorp");
                  ("claim", VStr "100% renewable energy");
                  ("verification_score", VInt 10);
                  ("status", VStr "verified") ])
          (previous_hash block1) (nonce block1) (hash block1).

(** [block1] with the keys of its payload in another order. *)
Definition reordered_block1 : Block :=
  mkBlock (index block1) (timestamp block1)
          (VDict [ ("status", VStr "verified");
                  ("verification_score", VInt 85);
                  ("claim", VStr "100% renewable energy");
                  ("company_name", VStr "TestCorp");
                  ("type", VStr "verification") ])
          (previous_hash block1) (nonce block1) (hash block1).

End LedgerExample.

(** ** The smart-contract engine: [GreenGuardSmartContract] *)

Inductive ContractState : Type :=
| PENDING | ACTIVE | EXECUTED | FAILED | SUSPENDED.

Inductive ContractType : Type :=
| GREENWASHING_DETECTOR
| SUSTAINABILITY_REWARDS
| AUTOMATIC_FLAGGING
| PENALTY_SYSTEM
| VERIFICATION_BOUNTY
| TRANSPARENCY_TRACKER.

(** An entry of [execution_history]. *)
Record ExecutionRecord := mkExecutionRecord {
  rec_execution_id : string;
  rec_inputs : pyval;
  rec_result : pyval;
  rec_gas_used : Z;
  rec_execution_time : float;
  rec_timestamp : string
}.

Record GreenGuardSmartContract := mkContract {
  contract_id : string;
  contract_type : ContractType;
  creator : string;
  parameters : pyval;
  state : ContractState;
  created_at : float;
  executed_count : Z;
  total_gas_used : Z;
  execution_history : list ExecutionRecord
}.

(** The dict [execute] returns. *)
Inductive Response : Type :=
| Success (contract_id execution_id : string) (result : pyval)
          (gas_used : Z) (execution_time : float)
| Failure (contract_id : string) (error : exn) (gas_used : Z).

(** What one call of [execute] reads from the clock: [time.time()] before
    and after the evaluator and for the execution id, [utcnow().isoformat()]
    for the record, and, inside the penalty evaluator,
    [(utcnow() + timedelta(days=30)).isoformat()]. *)
Record exec_env := ExecEnv {
  execution_start : float;
  execution_end : float;
  record_time : float;
  record_utcnow : string;
  review_date : string
}.

Module Engine.

Definition value (t : ContractType) : string :=
  match t with
  | GREENWASHING_DETECTOR => "greenwashing_detector"
  | SUSTAINABILITY_REWARDS => "sustainability_rewards"
  | AUTOMATIC_FLAGGING => "automatic_flagging"
  | PENALTY_SYSTEM => "penalty_system"
  | VERIFICATION_BOUNTY => "verification_bounty"
  | TRANSPARENCY_TRACKER => "transparency_tracker"
  end.

(** [GreenGuardSmartContract.__init__] *)
Definition new_contract (contract_id : string) (contract_type : ContractType)
           (creator : string) (parameters : pyval) (now : float)
  : GreenGuardSmartContract :=
  mkContract contract_id contract_type creator parameters PENDING now 0 0 [].

Definition strs (l : list string) : pyval := VList (List.map VStr l).

(** [a and b] on conditions that may raise: [b] is not evaluated when [a]
    is false. *)
Definition and_then (a b : res bool) : res bool :=
  let* x := a in if x then b else Ok false.

(** *** GreenwashingDetector *)
Definition _greenwashing_detector_contract
           (self : GreenGuardSmartContract) (inputs context : pyval) : res pyval :=
  let* company_name := Py.get inputs "company_name" (VStr "Unknown") in
  let* verification_score := Py.get inputs "verification_score" (VInt 0) in
  let* confidence := Py.get inputs "confidence" (VInt 0) in
  let* branch :=
    let* c1 := and_then (Py.lt_int verification_score 20) (Py.gt_int confidence 80) in
    if c1 then
      let* name := Py.str company_name in
      Ok ([ "IMMEDIATE_FLAG"; "COMMUNITY_ALERT"; "REGULATORY_NOTIFICATION" ],
          [ "CRITICAL: " ++ name ++ " making potentially false environmental claims" ],
          100)
    else
      let* c2 := and_then (Py.lt_int verification_score 40) (Py.gt_int confidence 60) in
      if c2 then
        let* name := Py.str company_name in
        Ok ([ "HIGH_RISK_FLAG"; "REQUIRE_EVIDENCE" ],
            [ "HIGH RISK: " ++ name ++ " claims require verification" ],
            50)
      else
        let* c3 := Py.lt_int verification_score 60 in
        if c3 then
          let* name := Py.str company_name in
          Ok ([ "MODERATE_RISK_FLAG"; "REQUEST_CLARIFICATION" ],
              [ "MODERATE RISK: " ++ name ++ " claims need clarification" ],
              25)
        else
          let* name := Py.str company_name in
          Ok ([ "APPROVED" ],
              [ "VERIFIED: " ++ name ++ " claims appear authentic" ],
              0) in
  let '(actions, alerts, penalties) := branch in
  let* company_history := Py.get context "company_history" (VList []) in
  let* n := Py.len company_history in
  let* repeat :=
    if 2 <? n then
      let* last5 := Py.slice_last 5 company_history in
      let* recent_violations :=
        Py.filter_res
          (fun h => let* s := Py.get h "verification_score" (VInt 100) in Py.lt_int s 40)
          last5 in
      Ok (2 <=? Z.of_nat (List.length recent_violations))
    else Ok false in
  let actions := if repeat then List.app actions [ "REPEAT_OFFENDER_FLAG" ] else actions in
  let penalties := if repeat then penalties + 200 else penalties in
  let* alerts :=
    if repeat
    then
      let* name := Py.str company_name in
      Ok (List.app alerts [ "REPEAT OFFENDER: " ++ name ++ " has multiple violations" ])
    else Ok alerts in
  let* lt20 := Py.lt_int verification_score 20 in
  let* lt40 := Py.lt_int verification_score 40 in
  let* lt60 := Py.lt_int verification_score 60 in
  let* lt30 := Py.lt_int verification_score 30 in
  Ok (VDict
        [ ("contract_type", VStr "greenwashing_detector");
          ("company_name", company_name);
          ("risk_assessment",
           VStr (if lt20 then "CRITICAL" else if lt40 then "HIGH"
                 else if lt60 then "MODERATE" else "LOW"));
          ("actions_triggered", strs actions);
          ("alerts_generated", strs alerts);
          ("penalty_points", VInt penalties);
          ("requires_human_review", VBool lt30);
          ("automated_response", VBool true) ]).

(** *** SustainabilityRewards *)
Definition _sustainability_rewards_contract
           (self : GreenGuardSmartContract) (inputs context : pyval) : res pyval :=
  let* company_name := Py.get inputs "company_name" (VStr "Unknown") in
  let* verification_score := Py.get inputs "verification_score" (VInt 0) in
  let* transparency_level := Py.get inputs "transparency_level" (VInt 0) in
  let* certifications := Py.get inputs "certifications" (VList []) in
  let base_points := verification_score in
  let* transparency_bonus := Py.mul_int transparency_level 20 in
  let* n_certifications := Py.len certifications in
  let certification_bonus := n_certifications * 50 in
  let* partial := Py.add base_points transparency_bonus in
  let* total_points := Py.add partial (VInt certification_bonus) in
  let* ge900 := Py.ge_int total_points 900 in
  let* ge700 := Py.ge_int total_points 700 in
  let* ge500 := Py.ge_int total_points 500 in
  let* ge300 := Py.ge_int total_points 300 in
  let '(badge, tier) :=
    if ge900 then ("SUSTAINABILITY_CHAMPION", "PLATINUM")
    else if ge700 then ("SUSTAINABILITY_LEADER", "GOLD")
    else if ge500 then ("SUSTAINABILITY_ADVOCATE", "SILVER")
    else if ge300 then ("SUSTAINABILITY_BEGINNER", "BRONZE")
    else ("NO_BADGE", "NONE") in
  let* score_ge95 := Py.ge_int verification_score 95 in
  let* level_ge90 := Py.ge_int transparency_level 90 in
  let special_rewards :=
    ((if score_ge95 then [ "TRANSPARENCY_EXCELLENCE" ] else [])
     ++ (if 5 <=? n_certifications then [ "CERTIFICATION_MASTER" ] else [])
     ++ (if level_ge90 then [ "OPENNESS_CHAMPION" ] else []))%list in
  Ok (VDict
        [ ("contract_type", VStr "sustainability_rewards");
          ("company_name", company_name);
          ("points_awarded", total_points);
          ("badge_earned", VStr badge);
          ("tier", VStr tier);
          ("special_rewards", strs special_rewards);
          ("eligible_for_promotion", VBool ge500);
          ("next_tier_requirement",
           if String.eqb tier "NONE" then VInt 300
           else if String.eqb tier "BRONZE" then VInt 500
           else if String.eqb tier "SILVER" then VInt 700
           else if String.eqb tier "GOLD" then VInt 900
           else VStr "MAX_TIER") ]).

(** *** AutomaticFlagging *)
Definition red_flag_keywords : list string :=
  [ "100% natural"; "completely eco-friendly"; "totally green";
    "environmentally safe"; "non-toxic"; "chemical-free";
    "saves the planet"; "carbon neutral*"; "net zero*" ].

Definition vague_terms : list string :=
  [ "eco-friendly"; "green"; "natural"; "sustainable";
    "environmentally responsible"; "clean"; "pure" ].

Definition absolute_terms : list string :=
  [ "100%"; "completely"; "totally"; "never"; "always" ].

Definition count_in (terms : list string) (text : string) : Z :=
  Z.of_nat (List.length (List.filter (fun term => Py.contains term text) terms)).

Definition _automatic_flagging_contract
           (self : GreenGuardSmartContract) (inputs context : pyval) : res pyval :=
  let* claim := Py.get inputs "claim" (VStr "") in
  let* claim_text := Py.lower_of claim in
  let* company_name := Py.get inputs "company_name" (VStr "Unknown") in
  let hits := List.filter (fun keyword => Py.contains keyword claim_text) red_flag_keywords in
  let flags_triggered := List.map (fun keyword => "RED_FLAG_KEYWORD: " ++ keyword) hits in
  let risk_score := 30 * Z.of_nat (List.length hits) in
  let vague_count := count_in vague_terms claim_text in
  let flags_triggered :=
    if 3 <=? vague_count then List.app flags_triggered [ "EXCESSIVE_VAGUE_LANGUAGE" ]
    else flags_triggered in
  let risk_score := if 3 <=? vague_count then risk_score + 40 else risk_score in
  let absolute_count := count_in absolute_terms claim_text in
  let flags_triggered :=
    if 2 <=? absolute_count
    then List.app flags_triggered [ "ABSOLUTE_CLAIMS_WITHOUT_PROOF" ]
    else flags_triggered in
  let risk_score := if 2 <=? absolute_count then risk_score + 50 else risk_score in
  let '(action, priority) :=
    if 100 <=? risk_score then ("IMMEDIATE_SUSPENSION", "CRITICAL")
    else if 70 <=? risk_score then ("REQUIRE_IMMEDIATE_VERIFICATION", "HIGH")
    else if 40 <=? risk_score then ("REQUEST_EVIDENCE", "MEDIUM")
    else ("MONITOR", "LOW") in
  Ok (VDict
        [ ("contract_type", VStr "automatic_flagging");
          ("company_name", company_name);
          ("flags_triggered", strs flags_triggered);
          ("risk_score", VInt risk_score);
          ("recommended_action", VStr action);
          ("priority", VStr priority);
          ("requires_manual_review", VBool (70 <=? risk_score));
          ("auto_flagged", VBool (0 <? Z.of_nat (List.length flags_triggered))) ]).

(** *** PenaltySystem *)
Definition base_penalties : list (string * Z) :=
  [ ("LOW", 10); ("MEDIUM", 50); ("HIGH", 200); ("CRITICAL", 500) ].

Definition scale_multipliers : list (string * float) :=
  [ ("LOCAL", 1.0%float); ("REGIONAL", 1.5%float);
    ("NATIONAL", 2.0%float); ("GLOBAL", 3.0%float) ].

Definition _penalty_system_contract
           (self : GreenGuardSmartContract) (inputs context : pyval) (review_date : string)
  : res pyval :=
  let* company_name := Py.get inputs "company_name" (VStr "Unknown") in
  let* violation_severity := Py.get inputs "violation_severity" (VStr "LOW") in
  let* repeat_offender := Py.get inputs "repeat_offender" (VBool false) in
  let* impact_scale := Py.get inputs "impact_scale" (VStr "LOCAL") in
  let* penalty_points := Py.table_get base_penalties violation_severity 10 in
  let penalty_points := if Py.truth repeat_offender then penalty_points * 2 else penalty_points in
  let* multiplier := Py.table_get scale_multipliers impact_scale 1.0%float in
  let* scaled := Py.num_mul (Py.NInt penalty_points) (Py.NFloat multiplier) in
  let* scaled := Py.to_float scaled in
  let* penalty_points := Py.int_of_float scaled in
  let consequences :=
    if 1000 <=? penalty_points then
      [ "PLATFORM_BAN"; "REGULATORY_REFERRAL"; "PUBLIC_WARNING_ISSUED" ]
    else if 500 <=? penalty_points then
      [ "VERIFICATION_REQUIRED_FOR_ALL_CLAIMS"; "MONTHLY_MONITORING"; "PUBLIC_NOTICE" ]
    else if 200 <=? penalty_points then
      [ "ENHANCED_SCRUTINY"; "QUARTERLY_REVIEW"; "WARNING_ISSUED" ]
    else if 50 <=? penalty_points then
      [ "FORMAL_WARNING"; "REQUIRED_TRAINING" ]
    else [] in
  Ok (VDict
        [ ("contract_type", VStr "penalty_system");
          ("company_name", company_name);
          ("penalty_points", VInt penalty_points);
          ("consequences", strs consequences);
          ("rehabilitation_required", VBool (200 <=? penalty_points));
          ("appeal_allowed", VBool (penalty_points <? 1000));
          ("review_date", VStr review_date) ]).

(** *** VerificationBounty *)
Definition _verification_bounty_contract
           (self : GreenGuardSmartContract) (inputs context : pyval) : res pyval :=
  let* verifier_email := Py.get inputs "verifier_email" (VStr "unknown") in
  let* verification_quality := Py.get inputs "verification_quality" (VInt 0) in
  let* claim_complexity := Py.get inputs "claim_complexity" (VStr "SIMPLE") in
  let* verification_speed := Py.get inputs "verification_speed" (VStr "NORMAL") in
  let* base_bounty :=
    Py.table_get [ ("SIMPLE", 10); ("MODERATE", 25); ("COMPLEX", 50); ("EXPERT", 100) ]
                 claim_complexity 10 in
  let* quality_multiplier := Py.truediv_int verification_quality 100 in
  let* speed_bonus :=
    Py.table_get [ ("INSTANT", 1.5%float); ("FAST", 1.2%float);
                   ("NORMAL", 1.0%float); ("SLOW", 0.8%float) ]
                 verification_speed 1.0%float in
  let* weighted := Py.num_mul (Py.NInt base_bounty) (Py.NFloat quality_multiplier) in
  let* weighted := Py.num_mul weighted (Py.NFloat speed_bonus) in
  let* weighted := Py.to_float weighted in
  let* final_bounty := Py.int_of_float weighted in
  let* verifier_history := Py.get context "verifier_history" (VList []) in
  let* total_verifications := Py.len verifier_history in
  let '(verifier_level, level_bonus) :=
    if 100 <=? total_verifications then ("EXPERT", 50)
    else if 50 <=? total_verifications then ("ADVANCED", 25)
    else if 10 <=? total_verifications then ("INTERMEDIATE", 10)
    else ("BEGINNER", 0) in
  let final_bounty := final_bounty + level_bonus in
  let* entries := Py.iter verifier_history in
  let* earned := Py.sum_from (fun h => Py.get h "bounty" (VInt 0)) (VInt 0) entries in
  let* total_earned := Py.add earned (VInt final_bounty) in
  Ok (VDict
        [ ("contract_type", VStr "verification_bounty");
          ("verifier_email", verifier_email);
          ("bounty_awarded", VInt final_bounty);
          ("verifier_level", VStr verifier_level);
          ("quality_score", verification_quality);
          ("total_earned", total_earned);
          ("next_level_requirement",
           if String.eqb verifier_level "BEGINNER" then VInt 10
           else if String.eqb verifier_level "INTERMEDIATE" then VInt 50
           else if String.eqb verifier_level "ADVANCED" then VInt 100
           else VStr "MAX_LEVEL") ]).

(** *** TransparencyTracker *)
Definition _get_transparency_recommendations
           (self : GreenGuardSmartContract) (score : float) : list string :=
  let below n := Py.num_lt_int (Py.NFloat score) n in
  ((if below 90 then [ "Publish detailed sustainability reports" ] else [])
   ++ (if below 75 then [ "Provide supply chain transparency" ] else [])
   ++ (if below 60 then [ "Share environmental impact data" ] else [])
   ++ (if below 40 then [ "Respond to verification requests promptly" ] else [])
   ++ (if below 25 then [ "Establish basic environmental disclosure practices" ] else []))%list.

Definition _transparency_tracker_contract
           (self : GreenGuardSmartContract) (inputs context : pyval) : res pyval :=
  let* company_name := Py.get inputs "company_name" (VStr "Unknown") in
  let* disclosed_data := Py.get inputs "disclosed_data" (VDict []) in
  let* response_time := Py.get inputs "response_time_hours" (VInt 999) in
  let* data_completeness := Py.get inputs "data_completeness" (VInt 0) in
  let* n_disclosed := Py.len disclosed_data in
  let disclosure_score := n_disclosed * 10 in
  let* remaining := Py.rsub_int 100 response_time in
  let timeliness_score := if Py.num_gt_int remaining 0 then remaining else Py.NInt 0 in
  let completeness_score := data_completeness in
  let* partial := Py.num_add (Py.NInt disclosure_score) timeliness_score in
  let* total := Py.add (Py.of_num partial) completeness_score in
  let* transparency_score := Py.truediv_int total 3 in
  let* history := Py.get context "transparency_history" (VList []) in
  let* n_history := Py.len history in
  let* improvement :=
    if 2 <=? n_history then
      let* last3 := Py.slice_last 3 history in
      let* recent_sum :=
        Py.sum_from (fun h => Py.get h "transparency_score" (VInt 0)) (VInt 0) last3 in
      let* recent_average := Py.truediv_int recent_sum (Z.min 3 n_history) in
      Ok (Py.NFloat (PrimFloat.sub transparency_score recent_average))
    else Ok (Py.NInt 0) in
  let at_least n := Py.num_ge_int (Py.NFloat transparency_score) n in
  let recognition :=
    if at_least 90 then "TRANSPARENCY_CHAMPION"
    else if at_least 75 then "TRANSPARENCY_LEADER"
    else if at_least 60 then "TRANSPARENCY_PRACTITIONER"
    else if at_least 40 then "TRANSPARENCY_BEGINNER"
    else "TRANSPARENCY_NEEDED" in
  let* areas_disclosed := Py.keys disclosed_data in
  let* lt24 := Py.lt_int response_time 24 in
  let* lt72 := Py.lt_int response_time 72 in
  let* lt168 := Py.lt_int response_time 168 in
  Ok (VDict
        [ ("contract_type", VStr "transparency_tracker");
          ("company_name", company_name);
          ("transparency_score", Py.round2 (Py.NFloat transparency_score));
          ("improvement", Py.round2 improvement);
          ("recognition_level", VStr recognition);
          ("areas_disclosed", areas_disclosed);
          ("response_time_rating",
           VStr (if lt24 then "EXCELLENT" else if lt72 then "GOOD"
                 else if lt168 then "AVERAGE" else "POOR"));
          ("recommended_improvements",
           strs (_get_transparency_recommendations self transparency_score)) ]).

(** *** Gas *)
Definition _calculate_gas_usage
           (self : GreenGuardSmartContract) (result : pyval) (execution_time : float)
  : res Z :=
  let base_gas := 100 in
  let* text := Py.str result in
  let result_complexity := Z.of_nat (String.length text) in
  let complexity_gas := result_complexity / 10 in
  let* time_gas := Py.int_of_float (PrimFloat.mul execution_time 50%float) in
  Ok (base_gas + complexity_gas + time_gas).

(** *** [execute]

    The body of the [try] runs in a monad that threads [self] and may
    raise; what it did to [self] before raising stays done. *)
Definition M (A : Type) : Type :=
  GreenGuardSmartContract -> GreenGuardSmartContract * res A.

Definition m_ret {A : Type} (a : A) : M A := fun self => (self, Ok a).

Definition m_bind {A B : Type} (m : M A) (k : A -> M B) : M B :=
  fun self =>
    match m self with
    | (self', Ok a) => k a self'
    | (self', Raise e) => (self', Raise e)
    end.

Definition m_lift {A : Type} (r : res A) : M A := fun self => (self, r).
Definition m_self : M GreenGuardSmartContract := fun self => (self, Ok self).
Definition m_update (f : GreenGuardSmartContract -> GreenGuardSmartContract) : M unit :=
  fun self => (f self, Ok tt).

Notation "'do*' x ':=' m 'in' k" := (m_bind m (fun x => k))
  (at level 10, x name, m at level 100, k at level 200).
Notation "m ';;' k" := (m_bind m (fun _ => k))
  (at level 100, k at level 200, right associativity).

Definition set_state (s : ContractState) (c : GreenGuardSmartContract)
  : GreenGuardSmartContract :=
  mkContract (contract_id c) (contract_type c) (creator c) (parameters c) s
             (created_at c) (executed_count c) (total_gas_used c) (execution_history c).

Definition set_executed_count (n : Z) (c : GreenGuardSmartContract)
  : GreenGuardSmartContract :=
  mkContract (contract_id c) (contract_type c) (creator c) (parameters c) (state c)
             (created_at c) n (total_gas_used c) (execution_history c).

Definition set_total_gas_used (g : Z) (c : GreenGuardSmartContract)
  : GreenGuardSmartContract :=
  mkContract (contract_id c) (contract_type c) (creator c) (parameters c) (state c)
             (created_at c) (executed_count c) g (execution_history c).

Definition set_execution_history (h : list ExecutionRecord) (c : GreenGuardSmartContract)
  : GreenGuardSmartContract :=
  mkContract (contract_id c) (contract_type c) (creator c) (parameters c) (state c)
             (created_at c) (executed_count c) (total_gas_used c) h.

(** The [if]/[elif] chain on [self.contract_type].  Its [else] branch, which
    raises [ValueError], is not reached for a member of [ContractType]. *)
Definition dispatch (self : GreenGuardSmartContract) (inputs context : pyval)
           (env : exec_env) : res pyval :=
  match contract_type self with
  | GREENWASHING_DETECTOR => _greenwashing_detector_contract self inputs context
  | SUSTAINABILITY_REWARDS => _sustainability_rewards_contract self inputs context
  | AUTOMATIC_FLAGGING => _automatic_flagging_contract self inputs context
  | PENALTY_SYSTEM => _penalty_system_contract self inputs context (review_date env)
  | VERIFICATION_BOUNTY => _verification_bounty_contract self inputs context
  | TRANSPARENCY_TRACKER => _transparency_tracker_contract self inputs context
  end.

(** [f"EXEC_{int(time.time())}_{self.executed_count}"]: a clock reading
    and the count of the executions so far, which grows by one per
    execution from 0, written with [Py.decimal]. *)
Definition execution_id_of (env : exec_env) (count : Z) : string :=
  "EXEC_" ++ Py.decimal (int_of_clock (record_time env)) ++ "_" ++ Py.decimal count.

(** The body of the [try] block. *)
Definition execute_body (inputs context : pyval) (env : exec_env) : M Response :=
  m_update (set_state ACTIVE) ;;
  do* self := m_self in
  do* result := m_lift (dispatch self inputs context env) in
  let execution_time := PrimFloat.sub (execution_end env) (execution_start env) in
  do* gas_used := m_lift (_calculate_gas_usage self result execution_time) in
  m_update (set_state EXECUTED) ;;
  m_update (fun c => set_executed_count (executed_count c + 1) c) ;;
  m_update (fun c => set_total_gas_used (total_gas_used c + gas_used) c) ;;
  do* self := m_self in
  let execution_record :=
    mkExecutionRecord (execution_id_of env (executed_count self))
                      inputs result gas_used execution_time (record_utcnow env) in
  m_update (fun c => set_execution_history
                       (List.app (execution_history c) [ execution_record ]) c) ;;
  do* self := m_self in
  m_ret (Success (contract_id self) (rec_execution_id execution_record)
                 result gas_used execution_time).

(** [execute]: the [try] block and its [except Exception] handler. *)
Definition execute (self : GreenGuardSmartContract) (inputs context : pyval)
           (env : exec_env) : GreenGuardSmartContract * Response :=
  match execute_body inputs context env self with
  | (self', Ok response) => (self', response)
  | (self', Raise e) =>
      let self'' := set_state FAILED self' in
      (self'', Failure (contract_id self'') e 50)
  end.

Definition response_result (r : Response) : option pyval :=
  match r with
  | Success _ _ result _ _ => Some result
  | Failure _ _ _ => None
  end.

(** The contract after a successful execution. *)
Definition executed (self : GreenGuardSmartContract) (inputs result : pyval)
           (gas_used : Z) (env : exec_env) : GreenGuardSmartContract :=
  mkContract (contract_id self) (contract_type self) (creator self) (parameters self)
             EXECUTED (created_at self) (executed_count self + 1)
             (total_gas_used self + gas_used)
             (List.app (execution_history self)
                       [ mkExecutionRecord
                           (execution_id_of env (executed_count self + 1))
                           inputs result gas_used
                           (PrimFloat.sub (execution_end env) (execution_start env))
                           (record_utcnow env) ]).

End Engine.

(** ** The registry: [SmartContractBlockchain] *)

#[global] Instance ContractType_eq_dec : EqDecision ContractType.
Proof. solve_decision. Defined.

Definition ContractType_to_nat (t : ContractType) : nat :=
  match t with
  | GREENWASHING_DETECTOR => 0
  | SUSTAINABILITY_REWARDS => 1
  | AUTOMATIC_FLAGGING => 2
  | PENALTY_SYSTEM => 3
  | VERIFICATION_BOUNTY => 4
  | TRANSPARENCY_TRACKER => 5
  end.

Definition ContractType_of_nat (n : nat) : option ContractType :=
  match n with
  | 0%nat => Some GREENWASHING_DETECTOR
  | 1%nat => Some SUSTAINABILITY_REWARDS
  | 2%nat => Some AUTOMATIC_FLAGGING
  | 3%nat => Some PENALTY_SYSTEM
  | 4%nat => Some VERIFICATION_BOUNTY
  | 5%nat => Some TRANSPARENCY_TRACKER
  | _ => None
  end.

#[global] Instance ContractType_countable : Countable ContractType.
Proof.
  apply (inj_countable ContractType_to_nat ContractType_of_nat).
  intros []; reflexivity.
Defined.

(** [contracts] maps a contract id to its contract, [contract_registry] a
    type to the id deployed last for it. *)
Record SmartContractBlockchain := mkRegistry {
  contracts : gmap string GreenGuardSmartContract;
  contract_registry : gmap ContractType string
}.

(** The dict [get_contract_statistics] returns. *)
Record ContractStatistics := mkStatistics {
  total_contracts : Z;
  total_executions : Z;
  stat_total_gas_used : Z;
  average_gas_per_execution : pyval;
  contract_types : list string;
  active_contracts : Z
}.

Module Registry.

Definition contract_id_of (contract_type : ContractType) (now : float) : string :=
  "SC_" ++ Engine.value contract_type ++ "_" ++ Py.decimal (int_of_clock now).

(** [deploy_contract]: [now] is the clock read for the id, [created] the
    one read by the constructor of the contract. *)
Definition deploy_contract (self : SmartContractBlockchain) (contract_type : ContractType)
           (creator : string) (parameters : pyval) (now created : float)
  : SmartContractBlockchain * string :=
  let contract_id := contract_id_of contract_type now in
  let contract := Engine.new_contract contract_id contract_type creator parameters created in
  (mkRegistry (<[contract_id := contract]> (contracts self))
              (<[contract_type := contract_id]> (contract_registry self)),
   contract_id).

Definition default_contracts : list (ContractType * pyval) :=
  [ (GREENWASHING_DETECTOR, VDict [ ("sensitivity", VFloat 0.7%float) ]);
    (SUSTAINABILITY_REWARDS, VDict [ ("max_points", VInt 1000) ]);
    (AUTOMATIC_FLAGGING, VDict [ ("threshold", VInt 50) ]);
    (PENALTY_SYSTEM, VDict [ ("max_penalty", VInt 1000) ]);
    (VERIFICATION_BOUNTY, VDict [ ("max_bounty", VInt 200) ]);
    (TRANSPARENCY_TRACKER, VDict [ ("update_frequency", VStr "weekly") ]) ].

(** [_deploy_default_contracts]; [clock t] holds the two clock readings of
    the deployment of the default contract of type [t]. *)
Definition _deploy_default_contracts (self : SmartContractBlockchain)
           (clock : ContractType -> float * float) : SmartContractBlockchain :=
  List.fold_left
    (fun reg tp =>
       fst (deploy_contract reg (fst tp) "system@greenguard.com" (snd tp)
                            (fst (clock (fst tp))) (snd (clock (fst tp)))))
    default_contracts self.

(** [SmartContractBlockchain.__init__] *)
Definition new_blockchain (clock : ContractType -> float * float) : SmartContractBlockchain :=
  _deploy_default_contracts (mkRegistry ∅ ∅) clock.

(** [self.contracts[contract_id].execute(inputs, context)]: the contract is
    changed in place; a missing id raises [KeyError]. *)
Definition execute_contract (self : SmartContractBlockchain) (contract_id : string)
           (inputs context : pyval) (env : exec_env)
  : SmartContractBlockchain * res Response :=
  match contracts self !! contract_id with
  | None => (self, Raise KeyError)
  | Some contract =>
      let '(contract', response) := Engine.execute contract inputs context env in
      (mkRegistry (<[contract_id := contract']> (contracts self)) (contract_registry self),
       Ok response)
  end.

(** One [if ... in self.contract_registry] block of
    [execute_verification_contracts]. *)
Definition run_registered (contract_type : ContractType) (key : string)
           (verification_data : pyval) (env : exec_env)
           (acc : SmartContractBlockchain * res (list (string * Response)))
  : SmartContractBlockchain * res (list (string * Response)) :=
  match acc with
  | (self, Raise e) => (self, Raise e)
  | (self, Ok results) =>
      match contract_registry self !! contract_type with
      | None => (self, Ok results)
      | Some contract_id =>
          match execute_contract self contract_id verification_data (VDict []) env with
          | (self', Ok result) => (self', Ok (List.app results [ (key, result) ]))
          | (self', Raise e) => (self', Raise e)
          end
      end
  end.

Definition execute_verification_contracts (self : SmartContractBlockchain)
           (verification_data : pyval) (env1 env2 env3 : exec_env)
  : SmartContractBlockchain * res (list (string * Response)) :=
  run_registered SUSTAINABILITY_REWARDS "sustainability_rewards" verification_data env3
    (run_registered AUTOMATIC_FLAGGING "automatic_flagging" verification_data env2
       (run_registered GREENWASHING_DETECTOR "greenwashing_detection" verification_data env1
          (self, Ok []))).

(** [sum(f(c) for c in self.contracts.values())] *)
Definition sum_over (f : GreenGuardSmartContract -> Z)
           (m : gmap string GreenGuardSmartContract) : Z :=
  map_fold (fun _ c acc => f c + acc) 0 m.

Definition is_active (c : GreenGuardSmartContract) : Z :=
  match state c with
  | ACTIVE => 1
  | _ => 0
  end.

(** [get_contract_statistics] *)
Definition get_contract_statistics (self : SmartContractBlockchain) : res ContractStatistics :=
  let total_executions := sum_over executed_count (contracts self) in
  let total_gas_used := sum_over total_gas_used (contracts self) in
  let* average :=
    if 0 <? total_executions then
      let* q := Py.num_truediv (Py.NInt total_gas_used) (Py.NInt total_executions) in
      Ok (VFloat q)
    else Ok (VInt 0) in
  Ok (mkStatistics (Z.of_nat (size (contracts self))) total_executions total_gas_used
                   average
                   (List.map Engine.value
                             [ GREENWASHING_DETECTOR; SUSTAINABILITY_REWARDS;
                               AUTOMATIC_FLAGGING; PENALTY_SYSTEM;
                               VERIFICATION_BOUNTY; TRANSPARENCY_TRACKER ])
                   (sum_over is_active (contracts self))).

(** The operations on a registry, a reset apart. *)
Inductive registry_op : Type :=
| OpDeploy (contract_type : ContractType) (creator : string) (parameters : pyval)
           (now created : float)
| OpExecute (contract_id : string) (inputs context : pyval) (env : exec_env)
| OpExecuteVerification (verification_data : pyval) (env1 env2 env3 : exec_env).

Definition apply_op (self : SmartContractBlockchain) (op : registry_op)
  : SmartContractBlockchain :=
  match op with
  | OpDeploy t creator parameters now created =>
      fst (deploy_contract self t creator parameters now created)
  | OpExecute contract_id inputs context env =>
      fst (execute_contract self contract_id inputs context env)
  | OpExecuteVerification data env1 env2 env3 =>
      fst (execute_verification_contracts self data env1 env2 env3)
  end.

Definition run (ops : list registry_op) (self : SmartContractBlockchain)
  : SmartContractBlockchain :=
  List.fold_left apply_op ops self.

(** No deployment of the sequence lands on a contract id already in use. *)
Fixpoint fresh_deployments (self : SmartContractBlockchain) (ops : list registry_op) : Prop :=
  match ops with
  | [] => True
  | op :: ops' =>
      match op with
      | OpDeploy t _ _ now _ => contracts self !! contract_id_of t now = None
      | _ => True
      end /\ fresh_deployments (apply_op self op) ops'
  end.

(** The [executed_count] of the contract deployed under an id. *)
Definition executions_of (self : SmartContractBlockchain) (contract_id : string) : Z :=
  match contracts self !! contract_id with
  | Some c => executed_count c
  | None => 0
  end.

(** The sum of [executed_count] over the deployed contracts, by contract id. *)
Definition executions_by_id (self : SmartContractBlockchain) : Z :=
  List.fold_right (fun cid acc => executions_of self cid + acc) 0
                  (elements (dom (contracts self))).

End Registry.

(** *** The GreenwashingDetector rules, as the specification words them *)
Module GreenwashingSpec.

Inductive tier : Type := Critical | High | Moderate | Approved.

Definition tier_of (score confidence : Py.num) : tier :=
  if Py.num_lt_int score 20 && Py.num_gt_int confidence 80 then Critical
  else if Py.num_lt_int score 40 && Py.num_gt_int confidence 60 then High
  else if Py.num_lt_int score 60 then Moderate
  else Approved.

Definition tier_actions (t : tier) : list string :=
  match t with
  | Critical => [ "IMMEDIATE_FLAG"; "COMMUNITY_ALERT"; "REGULATORY_NOTIFICATION" ]
  | High => [ "HIGH_RISK_FLAG"; "REQUIRE_EVIDENCE" ]
  | Moderate => [ "MODERATE_RISK_FLAG"; "REQUEST_CLARIFICATION" ]
  | Approved => [ "APPROVED" ]
  end.

Definition tier_penalty (t : tier) : Z :=
  match t with
  | Critical => 100
  | High => 50
  | Moderate => 25
  | Approved => 0
  end.

(** The alert of a tier, for a company whose name reads [name]. *)
Definition tier_alert (t : tier) (name : string) : string :=
  match t with
  | Critical => "CRITICAL: " ++ name ++ " making potentially false environmental claims"
  | High => "HIGH RISK: " ++ name ++ " claims require verification"
  | Moderate => "MODERATE RISK: " ++ name ++ " claims need clarification"
  | Approved => "VERIFIED: " ++ name ++ " claims appear authentic"
  end.

Definition risk_label (score : Py.num) : string :=
  if Py.num_lt_int score 20 then "CRITICAL"
  else if Py.num_lt_int score 40 then "HIGH"
  else if Py.num_lt_int score 60 then "MODERATE"
  else "LOW".

(** The score of a history entry: a dict whose ["verification_score"], 100
    when the key is absent, is a number. *)
Definition entry_score (h : pyval) : option Py.num :=
  match h with
  | VDict d =>
      match Py.lookup d "verification_score" with
      | Some v => Py.as_num v
      | None => Some (Py.NInt 100)
      end
  | _ => None
  end.

Definition is_violation (h : pyval) : bool :=
  match entry_score h with
  | Some s => Py.num_lt_int s 40
  | None => false
  end.

Definition well_formed (history : list pyval) : Prop :=
  List.Forall (fun h => entry_score h <> None) history.

(** At least 2 of the last 5 entries have a score below 40. *)
Definition two_recent_violations (history : list pyval) : bool :=
  2 <=? Z.of_nat (List.length (List.filter is_violation (Py.last_n 5 history))).

(** The rule of the code: the history must also hold more than 2 entries. *)
Definition repeat_offender (history : list pyval) : bool :=
  (2 <? Z.of_nat (List.length history)) && two_recent_violations history.

Definition expected_result (company_name : pyval) (name : string)
           (score confidence : Py.num) (history : list pyval) : pyval :=
  let t := tier_of score confidence in
  let repeat := repeat_offender history in
  VDict
    [ ("contract_type", VStr "greenwashing_detector");
      ("company_name", company_name);
      ("risk_assessment", VStr (risk_label score));
      ("actions_triggered",
       Engine.strs (List.app (tier_actions t)
                             (if repeat then [ "REPEAT_OFFENDER_FLAG" ] else [])));
      ("alerts_generated",
       Engine.strs (List.app [ tier_alert t name ]
                             (if repeat
                              then [ "REPEAT OFFENDER: " ++ name
                                     ++ " has multiple violations" ]
                              else [])));
      ("penalty_points", VInt (tier_penalty t + (if repeat then 200 else 0)));
      ("requires_human_review", VBool (Py.num_lt_int score 30));
      ("automated_response", VBool true) ].

(** A field of a result dict. *)
Definition field (result : pyval) (key : string) : option pyval :=
  match result with
  | VDict d => Py.lookup d key
  | _ => None
  end.

End GreenwashingSpec.

(** *** The PenaltySystem rules, as the specification words them *)
Module PenaltySpec.

Inductive severity : Type := LOW | MEDIUM | HIGH | CRITICAL.
Inductive scale : Type := LOCAL | REGIONAL | NATIONAL | GLOBAL.

Definition severity_name (s : severity) : string :=
  match s with
  | LOW => "LOW" | MEDIUM => "MEDIUM" | HIGH => "HIGH" | CRITICAL => "CRITICAL"
  end.

Definition scale_name (s : scale) : string :=
  match s with
  | LOCAL => "LOCAL" | REGIONAL => "REGIONAL" | NATIONAL => "NATIONAL" | GLOBAL => "GLOBAL"
  end.

Definition base (s : severity) : Z :=
  match s with
  | LOW => 10 | MEDIUM => 50 | HIGH => 200 | CRITICAL => 500
  end.

(** The impact-scale multipliers 1.0, 1.5, 2.0 and 3.0, as fractions. *)
Definition multiplier (s : scale) : Q :=
  match s with
  | LOCAL => Qmake 1 1 | REGIONAL => Qmake 3 2 | NATIONAL => Qmake 2 1 | GLOBAL => Qmake 3 1
  end.

(** Truncation toward zero. *)
Definition truncate (q : Q) : Z := Z.quot (Qnum q) (Zpos (Qden q)).

Definition penalty_points (s : severity) (repeat_offender : bool) (sc : scale) : Z :=
  truncate (Qmult (inject_Z (base s * (if repeat_offender then 2 else 1))) (multiplier sc)).

Inductive consequence_tier : Type := Ban | Monitoring | Scrutiny | Warning.

Definition tier_list (t : consequence_tier) : list string :=
  match t with
  | Ban => [ "PLATFORM_BAN"; "REGULATORY_REFERRAL"; "PUBLIC_WARNING_ISSUED" ]
  | Monitoring =>
      [ "VERIFICATION_REQUIRED_FOR_ALL_CLAIMS"; "MONTHLY_MONITORING"; "PUBLIC_NOTICE" ]
  | Scrutiny => [ "ENHANCED_SCRUTINY"; "QUARTERLY_REVIEW"; "WARNING_ISSUED" ]
  | Warning => [ "FORMAL_WARNING"; "REQUIRED_TRAINING" ]
  end.

(** The highest threshold the points reach, if any. *)
Definition tier_reached (points : Z) : option consequence_tier :=
  if 1000 <=? points then Some Ban
  else if 500 <=? points then Some Monitoring
  else if 200 <=? points then Some Scrutiny
  else if 50 <=? points then Some Warning
  else None.

Definition consequences (points : Z) : list string :=
  match tier_reached points with
  | Some t => tier_list t
  | None => []
  end.

End PenaltySpec.

(** *** Concrete contracts and inputs *)
Module EngineExample.

Definition env : exec_env :=
  ExecEnv 1700000100.25%float 1700000100.5%float 1700000100.75%float
          "2023-11-14T22:15:00.750000" "2023-12-14T22:15:00.250000".

(** The clock set back by a hundredth of a second during the evaluation. *)
Definition backward_env : exec_env :=
  ExecEnv 1700000100.25%float 1700000100.24%float 1700000100.75%float
          "2023-11-14T22:15:00.750000" "2023-12-14T22:15:00.250000".

Definition detector : GreenGuardSmartContract :=
  Engine.new_contract "SC_greenwashing_detector_1700000000" GREENWASHING_DETECTOR
                      "system@greenguard.com" (VDict [ ("sensitivity", VFloat 0.7%float) ])
                      1700000000.5%float.

Definition penalty : GreenGuardSmartContract :=
  Engine.new_contract "SC_penalty_system_1700000000" PENALTY_SYSTEM
                      "system@greenguard.com" (VDict [ ("max_penalty", VInt 1000) ])
                      1700000000.5%float.

Definition penalty_capped : GreenGuardSmartContract :=
  Engine.new_contract "SC_penalty_system_1700000001" PENALTY_SYSTEM
                      "system@greenguard.com" (VDict [ ("max_penalty", VInt 5) ])
                      1700000001.5%float.

(** score 15, confidence 85 *)
Definition critical_inputs : pyval :=
  VDict [ ("company_name", VStr "Acme");
          ("verification_score", VInt 15);
          ("confidence", VInt 85) ].

Definition empty_history : pyval := VDict [ ("company_history", VList []) ].

(** What the detector returns on them with an empty history. *)
Definition critical_result : pyval :=
  VDict
    [ ("contract_type", VStr "greenwashing_detector");
      ("company_name", VStr "Acme");
      ("risk_assessment", VStr "CRITICAL");
      ("actions_triggered",
       VList [ VStr "IMMEDIATE_FLAG"; VStr "COMMUNITY_ALERT";
               VStr "REGULATORY_NOTIFICATION" ]);
      ("alerts_generated",
       VList [ VStr "CRITICAL: Acme making potentially false environmental claims" ]);
      ("penalty_points", VInt 100);
      ("requires_human_review", VBool true);
      ("automated_response", VBool true) ].

Definition low_entry : pyval := VDict [ ("verification_score", VInt 10) ].

(** Two entries, both below 40. *)
Definition short_history : pyval :=
  VDict [ ("company_history", VList [ low_entry; low_entry ]) ].

(** Three entries, two of them below 40. *)
Definition offender_history : pyval :=
  VDict [ ("company_history",
           VList [ low_entry; VDict [ ("verification_score", VInt 90) ]; low_entry ]) ].

(** A score that is not a number. *)
Definition bad_inputs : pyval := VDict [ ("verification_score", VStr "high") ].

Definition penalty_inputs : pyval :=
  VDict [ ("violation_severity", VStr "HIGH");
          ("repeat_offender", VBool true);
          ("impact_scale", VStr "GLOBAL") ].

Definition minor_inputs : pyval :=
  VDict [ ("violation_severity", VStr "LOW");
          ("repeat_offender", VBool false);
          ("impact_scale", VStr "LOCAL") ].

End EngineExample.

(** *** A concrete registry *)
Module RegistryExample.

(** Every default contract is deployed within the same second. *)
Definition clock (t : ContractType) : float * float :=
  (1700000000.25%float, 1700000000.5%float).

Definition registry : SmartContractBlockchain := Registry.new_blockchain clock.

Definition run_detector : list Registry.registry_op :=
  [ Registry.OpExecute "SC_greenwashing_detector_1700000000"
                       EngineExample.critical_inputs EngineExample.empty_history
                       EngineExample.env ].

(** A second detector, deployed in the second of the first one. *)
Definition redeploy_detector : list Registry.registry_op :=
  [ Registry.OpDeploy GREENWASHING_DETECTOR "system@greenguard.com"
                      (VDict [ ("sensitivity", VFloat 0.9%float) ])
                      1700000000.75%float 1700000000.8%float ].

(** A second detector, deployed a second later. *)
Definition deploy_later : list Registry.registry_op :=
  [ Registry.OpDeploy GREENWASHING_DETECTOR "system@greenguard.com"
                      (VDict [ ("sensitivity", VFloat 0.9%float) ])
                      1700000001.75%float 1700000001.8%float ].

End RegistryExample.

(** ** More of Python's built-ins: slices from the front, [str.strip] *)
Module Builtins.

(** [v[:n]]: a string or a list keeps its first [n] items; nothing else can
    be sliced.  (A dict raises too: a [TypeError] up to CPython 3.11.) *)
Definition slice_first (n : nat) (v : pyval) : res pyval :=
  match v with
  | VStr s => Ok (VStr (String.substring 0 n s))
  | VList l => Ok (VList (List.firstn n l))
  | _ => Raise TypeError
  end.

(** [str.isspace] on one code point below 256. *)
Definition is_space (c : ascii) : bool :=
  let n := Z.of_N (N_of_ascii c) in
  ((9 <=? n) && (n <=? 13)) || ((28 <=? n) && (n <=? 32)) || (n =? 133) || (n =? 160).

Fixpoint lstrip (s : string) : string :=
  match s with
  | EmptyString => EmptyString
  | String c s' => if is_space c then lstrip s' else s
  end.

Fixpoint rstrip (s : string) : string :=
  match s with
  | EmptyString => EmptyString
  | String c s' =>
      let r := rstrip s' in
      if is_space c && String.eqb r "" then EmptyString else String c r
  end.

(** [s.strip()] *)
Definition strip (s : string) : string := rstrip (lstrip s).

(** [v.strip().lower()] *)
Definition strip_lower_of (v : pyval) : res string :=
  match v with
  | VStr s => Ok (Py.lower (strip s))
  | _ => Raise AttributeError
  end.

(** [v == s] for a string literal [s]. *)
Definition eq_str (v : pyval) (s : string) : bool :=
  match v with
  | VStr t => String.eqb t s
  | _ => false
  end.

End Builtins.

(** ** The module-level functions of the ledger *)

(** The two globals of the module. *)
Record Globals := mkGlobals {
  _simple_blockchain_data : list Block;
  _smart_contract_blockchain : option SmartContractBlockchain
}.

(** The dict [get_blockchain_statistics] returns when nothing raised.  Its
    constant entries ([network_status = "operational"], [blockchain_type],
    [consensus_mechanism], [hash_algorithm], [difficulty] and the four
    [True] flags of [chain_integrity]) are left out; [smart_contracts] is
    [None] for the ["not_available"] fallback. *)
Record BlockchainStatistics := mkBlockchainStatistics {
  total_blocks : Z;
  verification_blocks : Z;
  claim_analysis_blocks : Z;
  companies_on_blockchain : Z;
  chain_integrity_valid : bool;
  smart_contracts : option ContractStatistics;
  last_block_time : pyval;
  genesis_block_hash : string;
  latest_block_hash : string
}.

(** What [get_blockchain_statistics] returns: the statistics, or the dict
    of its [except] branch (zero counts, [network_status = "error"]). *)
Inductive StatisticsReply : Type :=
| Operational (statistics : BlockchainStatistics)
| StatisticsError (error : exn).

(** An item of the list [get_company_verification_history] returns. *)
Record HistoryEntry := mkHistoryEntry {
  entry_timestamp : pyval;
  entry_verification_score : pyval;
  entry_status : pyval;
  entry_risk_level : pyval;
  entry_claim : pyval;
  entry_block_index : Z;
  entry_block_hash : string;
  entry_automated_actions : pyval
}.

Module Api.

(** The [block_data] dict of [add_verification_to_blockchain]. *)
Definition verification_block_data (verification_data : pyval) (utcnow : string)
  : res pyval :=
  let* company_name := Py.get verification_data "company_name" (VStr "Unknown") in
  let* claim := Py.get verification_data "claim" (VStr "") in
  let* claim := Builtins.slice_first 1000 claim in
  let* verification_score := Py.get verification_data "verification_score" (VInt 0) in
  let* status := Py.get verification_data "status" (VStr "unknown") in
  let* risk_level := Py.get verification_data "risk_level" (VStr "unknown") in
  let* evidence_summary := Py.get verification_data "evidence_summary" (VStr "") in
  let* evidence_summary := Builtins.slice_first 500 evidence_summary in
  let* user_email := Py.get verification_data "user_email" (VStr "anonymous") in
  let* client_ip := Py.get verification_data "client_ip" (VStr "unknown") in
  let* version := Py.get verification_data "version" (VStr "2.0_with_smart_contracts") in
  let* smart_contracts_executed :=
    Py.get verification_data "smart_contracts_executed" (VInt 0) in
  let* automated_actions := Py.get verification_data "automated_actions" (VList []) in
  Ok (VDict
        [ ("type", VStr "verification");
          ("company_name", company_name);
          ("claim", claim);
          ("verification_score", verification_score);
          ("status", status);
          ("risk_level", risk_level);
          ("evidence_summary", evidence_summary);
          ("user_email", user_email);
          ("client_ip", client_ip);
          ("timestamp", VStr utcnow);
          ("version", version);
          ("smart_contracts_executed", smart_contracts_executed);
          ("automated_actions", automated_actions) ]).

(** The [block_data] dict of [add_claim_analysis_to_blockchain]. *)
Definition claim_analysis_block_data (claim_data : pyval) (utcnow : string) : res pyval :=
  let* content := Py.get claim_data "content" (VStr "") in
  let* content := Builtins.slice_first 1000 content in
  let* claims_count := Py.get claim_data "claims_count" (VInt 0) in
  let* url := Py.get claim_data "url" (VStr "") in
  let* analysis_type := Py.get claim_data "analysis_type" (VStr "website") in
  let* environmental_claims := Py.get claim_data "environmental_claims" (VList []) in
  let* environmental_claims := Builtins.slice_first 10 environmental_claims in
  let* user_email := Py.get claim_data "user_email" (VStr "anonymous") in
  let* client_ip := Py.get claim_data "client_ip" (VStr "unknown") in
  let* processing_time := Py.get claim_data "processing_time" (VInt 0) in
  Ok (VDict
        [ ("type", VStr "claim_analysis");
          ("content", content);
          ("claims_count", claims_count);
          ("url", url);
          ("analysis_type", analysis_type);
          ("environmental_claims", environmental_claims);
          ("user_email", user_email);
          ("client_ip", client_ip);
          ("timestamp", VStr utcnow);
          ("processing_time", processing_time) ]).

(** [f"ERROR_{int(time.time())}"] *)
Definition error_id (now : float) : string := "ERROR_" ++ Py.decimal (int_of_clock now).

(** The [try] of the two [add_..._to_blockchain] functions around a payload
    that was built or raised: [error_now] is the clock read by the [except]
    branch, which also catches what [_add_block_to_simple_chain] raises.
    [None] stands for a nonce search still running. *)
Definition add_payload (fuel : nat) (chain : list Block) (block_data : res pyval)
           (env : Ledger.add_env) (error_now : float) : option (list Block * string) :=
  match block_data with
  | Ok payload =>
      match Ledger._add_block_to_simple_chain fuel chain payload env with
      | Some (chain', Ok block_id) => Some (chain', block_id)
      | Some (chain', Raise _) => Some (chain', error_id error_now)
      | None => None
      end
  | Raise _ => Some (chain, error_id error_now)
  end.

(** [add_verification_to_blockchain(verification_data)] *)
Definition add_verification_to_blockchain
           (fuel : nat) (chain : list Block) (verification_data : pyval)
           (utcnow : string) (env : Ledger.add_env) (error_now : float)
  : option (list Block * string) :=
  add_payload fuel chain (verification_block_data verification_data utcnow) env error_now.

(** [add_claim_analysis_to_blockchain(claim_data)] *)
Definition add_claim_analysis_to_blockchain
           (fuel : nat) (chain : list Block) (claim_data : pyval)
           (utcnow : string) (env : Ledger.add_env) (error_now : float)
  : option (list Block * string) :=
  add_payload fuel chain (claim_analysis_block_data claim_data utcnow) env error_now.

(** [[block for block in chain if block.get("data", {}).get("type") == kind]] *)
Fixpoint blocks_of_type (kind : string) (chain : list Block) : res (list Block) :=
  match chain with
  | [] => Ok []
  | block :: rest =>
      let* t := Py.get (data block) "type" VNone in
      let* tl := blocks_of_type kind rest in
      Ok (if Builtins.eq_str t kind then block :: tl else tl)
  end.

Definition placeholder_names : list string := [ "unknown"; ""; "none"; "anonymous" ].

(** The loop that fills the set [companies]. *)
Fixpoint companies_of (blocks : list Block) (companies : gset string) : res (gset string) :=
  match blocks with
  | [] => Ok companies
  | block :: rest =>
      let* name := Py.get (data block) "company_name" (VStr "") in
      let* company := Builtins.strip_lower_of name in
      companies_of rest
        (if negb (String.eqb company "")
            && negb (List.existsb (String.eqb company) placeholder_names)
         then {[ company ]} ∪ companies else companies)
  end.

(** [get_blockchain_statistics]: seeds an empty ledger, counts, builds the
    registry when there is none yet ([clock] is what its constructor reads),
    validates. *)
Definition get_blockchain_statistics (g : Globals) (now : float) (utcnow : string)
           (clock : ContractType -> float * float) : Globals * StatisticsReply :=
  let chain := Ledger._initialize_simple_blockchain (_simple_blockchain_data g) now utcnow in
  let counted :=
    let* verification_blocks := blocks_of_type "verification" chain in
    let* claim_analysis_blocks := blocks_of_type "claim_analysis" chain in
    let* companies := companies_of verification_blocks ∅ in
    Ok (verification_blocks, claim_analysis_blocks, companies) in
  match counted with
  | Raise e => (mkGlobals chain (_smart_contract_blockchain g), StatisticsError e)
  | Ok (verification_blocks, claim_analysis_blocks, companies) =>
      let registry :=
        match _smart_contract_blockchain g with
        | Some registry => registry
        | None => Registry.new_blockchain clock
        end in
      let smart_contract_stats :=
        match Registry.get_contract_statistics registry with
        | Ok stats => Some stats
        | Raise _ => None
        end in
      let is_valid := Ledger._validate_blockchain_integrity chain in
      (mkGlobals chain (Some registry),
       Operational
         {| total_blocks := Z.of_nat (List.length chain);
            verification_blocks := Z.of_nat (List.length verification_blocks);
            claim_analysis_blocks := Z.of_nat (List.length claim_analysis_blocks);
            companies_on_blockchain := Z.of_nat (size companies);
            chain_integrity_valid := is_valid;
            smart_contracts := smart_contract_stats;
            last_block_time :=
              match last chain with Some b => VFloat (timestamp b) | None => VInt 0 end;
            genesis_block_hash :=
              match chain with b :: _ => hash b | [] => "" end;
            latest_block_hash :=
              match last chain with Some b => hash b | None => "" end |})
  end.

(** The loop of [get_company_verification_history] that collects the
    entries of a company. *)
Fixpoint company_blocks (chain : list Block) (company_name : string)
  : res (list HistoryEntry) :=
  match chain with
  | [] => Ok []
  | block :: rest =>
      let block_data := data block in
      let* t := Py.get block_data "type" VNone in
      let* selected :=
        if Builtins.eq_str t "verification" then
          let* name := Py.get block_data "company_name" (VStr "") in
          let* lowered := Py.lower_of name in
          Ok (String.eqb lowered (Py.lower company_name))
        else Ok false in
      let* entry :=
        if selected then
          let* timestamp := Py.get block_data "timestamp" VNone in
          let* verification_score := Py.get block_data "verification_score" VNone in
          let* status := Py.get block_data "status" VNone in
          let* risk_level := Py.get block_data "risk_level" VNone in
          let* claim := Py.get block_data "claim" (VStr "") in
          let* claim := Builtins.slice_first 100 claim in
          let* automated_actions := Py.get block_data "automated_actions" (VList []) in
          Ok [ mkHistoryEntry timestamp verification_score status risk_level claim
                              (index block)
                              (String.substring 0 16 (hash block) ++ "...")
                              automated_actions ]
        else Ok [] in
      let* tl := company_blocks rest company_name in
      Ok (List.app entry tl)
  end.

(** The stable insertion of an entry into a list ordered by decreasing
    timestamp string: after the entries that are not smaller. *)
Fixpoint insert_entry (key : HistoryEntry -> string) (e : HistoryEntry)
         (l : list HistoryEntry) : list HistoryEntry :=
  match l with
  | [] => [ e ]
  | e' :: l' =>
      if String.ltb (key e') (key e) then e :: l
      else e' :: insert_entry key e l'
  end.

(** The entries in decreasing order of their key, equal keys in their
    original order. *)
Definition sort_descending (key : HistoryEntry -> string) (l : list HistoryEntry)
  : list HistoryEntry :=
  List.fold_left (fun acc e => insert_entry key e acc) l [].

Definition timestamp_text (e : HistoryEntry) : string :=
  match entry_timestamp e with
  | VStr s => s
  | _ => ""
  end.

Definition has_text_timestamp (e : HistoryEntry) : bool :=
  match entry_timestamp e with
  | VStr _ => true
  | _ => false
  end.

Section History.

(** [sorted(company_blocks, key=lambda x: x.get("timestamp", ""),
    reverse=True)] is Python's own: it is taken as given, with what the
    language fixes for it when every timestamp is a string (the order is by
    code points, decreasing, and stable). *)
Variable sorted_by_timestamp : list HistoryEntry -> res (list HistoryEntry).

Definition sorts_text_timestamps : Prop :=
  forall l, List.forallb has_text_timestamp l = true ->
            sorted_by_timestamp l = Ok (sort_descending timestamp_text l).

(** [get_company_verification_history(company_name)]: the ledger after the
    call, and the list returned. *)
Definition get_company_verification_history
           (chain : list Block) (company_name : string) (now : float) (utcnow : string)
  : list Block * list HistoryEntry :=
  let chain := Ledger._initialize_simple_blockchain chain now utcnow in
  match (let* entries := company_blocks chain company_name in
         sorted_by_timestamp entries) with
  | Ok entries => (chain, entries)
  | Raise _ => (chain, [])
  end.

End History.

(** The loop of [get_blockchain_block_by_id]. *)
Fixpoint find_block (chain : list Block) (block_id : string) : res (option Block) :=
  match chain with
  | [] => Ok None
  | block :: rest =>
      let* number := Py.str_of_int (index block) in
      let* seconds := Py.int_of_float (timestamp block) in
      let* seconds := Py.str_of_int seconds in
      if String.eqb ("BLOCK_" ++ number ++ "_" ++ seconds) block_id
      then Ok (Some block)
      else find_block rest block_id
  end.

(** [get_blockchain_block_by_id(block_id)] *)
Definition get_blockchain_block_by_id (chain : list Block) (block_id : string)
  : option Block :=
  match find_block chain block_id with
  | Ok found => found
  | Raise _ => None
  end.

(** [validate_blockchain_integrity()] *)
Definition validate_blockchain_integrity (chain : list Block) : bool :=
  Ledger._validate_blockchain_integrity chain.

(** [get_total_smart_contract_executions()] *)
Definition get_total_smart_contract_executions (g : Globals) : Z :=
  match _smart_contract_blockchain g with
  | None => 0
  | Some registry =>
      match Registry.get_contract_statistics registry with
      | Ok stats => total_executions stats
      | Raise _ => 0
      end
  end.

(** [reset_blockchain_for_testing()] on both globals. *)
Definition reset_blockchain_for_testing (now : float) (utcnow : string) : Globals :=
  mkGlobals (Ledger.reset_blockchain_for_testing now utcnow) None.

(** What the public functions do to the ledger. *)
Inductive api_step : list Block -> list Block -> Prop :=
| api_add_verification fuel chain verification_data utcnow env error_now chain' bid :
    add_verification_to_blockchain fuel chain verification_data utcnow env error_now
    = Some (chain', bid) ->
    api_step chain chain'
| api_add_claim_analysis fuel chain claim_data utcnow env error_now chain' bid :
    add_claim_analysis_to_blockchain fuel chain claim_data utcnow env error_now
    = Some (chain', bid) ->
    api_step chain chain'
| api_read chain now utcnow :
    api_step chain (Ledger._initialize_simple_blockchain chain now utcnow)
| api_reset chain now utcnow :
    api_step chain (Ledger.reset_blockchain_for_testing now utcnow).

(** The ledgers the public functions can produce, from the empty one. *)
Inductive api_reachable : list Block -> Prop :=
| api_empty : api_reachable []
| api_next chain chain' : api_reachable chain -> api_step chain chain' -> api_reachable chain'.

(** Every clock reading stored in the ledger is a finite float. *)
Definition finite_clock (chain : list Block) : Prop :=
  List.Forall (fun b => PyFloat.trunc (timestamp b) <> None) chain.

(** The company name of every verification block is a string. *)
Definition text_company (b : Block) : bool :=
  match data b with
  | VDict d =>
      match Py.lookup d "type" with
      | Some t =>
          if Builtins.eq_str t "verification" then
            match Py.lookup d "company_name" with
            | Some (VStr _) | None => true
            | _ => false
            end
          else true
      | None => true
      end
  | _ => true
  end.

End Api.

(** ** Runs of a contract and of the registry *)
Module Trace.

(** One call of [execute]: inputs, context, clock readings. *)
Definition call : Type := pyval * pyval * exec_env.

Definition execute_call (self : GreenGuardSmartContract) (c : call)
  : GreenGuardSmartContract :=
  fst (Engine.execute self (fst (fst c)) (snd (fst c)) (snd c)).

(** The contract after a sequence of calls of [execute]. *)
Definition execute_all (self : GreenGuardSmartContract) (calls : list call)
  : GreenGuardSmartContract :=
  List.fold_left execute_call calls self.

(** [sum(r["gas_used"] for r in history)] *)
Definition history_gas (history : list ExecutionRecord) : Z :=
  List.fold_right (fun r acc => rec_gas_used r + acc) 0 history.

(** The counters of a contract agree with its execution history. *)
Definition consistent (c : GreenGuardSmartContract) : Prop :=
  executed_count c = Z.of_nat (List.length (execution_history c)) /\
  total_gas_used c = history_gas (execution_history c).

(** The number of execution records the registry holds. *)
Definition records (self : SmartContractBlockchain) : Z :=
  Registry.sum_over (fun c => Z.of_nat (List.length (execution_history c)))
                    (contracts self).

(** The gas in the execution records the registry holds. *)
Definition recorded_gas (self : SmartContractBlockchain) : Z :=
  Registry.sum_over (fun c => history_gas (execution_history c)) (contracts self).

(** What holds of every contract the registry stores: it is stored under
    its own id, the id names its type, it is not in the transient state
    [ACTIVE], and its counters agree with its history. *)
Definition stored_well (self : SmartContractBlockchain) : Prop :=
  forall cid c,
    contracts self !! cid = Some c ->
    contract_id c = cid /\
    (exists now, cid = Registry.contract_id_of (contract_type c) now) /\
    state c <> ACTIVE /\
    consistent c.

(** Every id in [contract_registry] is the id of a stored contract of the
    type it is registered for. *)
Definition linked (self : SmartContractBlockchain) : Prop :=
  forall t cid,
    contract_registry self !! t = Some cid ->
    exists c, contracts self !! cid = Some c /\ contract_type c = t.

(** A contract no call of [execute] has touched. *)
Definition untouched (c : GreenGuardSmartContract) : Prop :=
  state c = PENDING /\ executed_count c = 0 /\ total_gas_used c = 0 /\
  execution_history c = [].

(** Every contract type has a registered contract. *)
Definition all_registered (self : SmartContractBlockchain) : Prop :=
  forall t, is_Some (contract_registry self !! t).

End Trace.

(** *** The SustainabilityRewards tiers *)
Module RewardsRules.

Definition tier_of (points : Z) : string :=
  if 900 <=? points then "PLATINUM"
  else if 700 <=? points then "GOLD"
  else if 500 <=? points then "SILVER"
  else if 300 <=? points then "BRONZE"
  else "NONE".

Definition badge_of (points : Z) : string :=
  if 900 <=? points then "SUSTAINABILITY_CHAMPION"
  else if 700 <=? points then "SUSTAINABILITY_LEADER"
  else if 500 <=? points then "SUSTAINABILITY_ADVOCATE"
  else if 300 <=? points then "SUSTAINABILITY_BEGINNER"
  else "NO_BADGE".

Definition next_requirement (points : Z) : pyval :=
  if 900 <=? points then VStr "MAX_TIER"
  else if 700 <=? points then VInt 900
  else if 500 <=? points then VInt 700
  else if 300 <=? points then VInt 500
  else VInt 300.

Definition special_rewards (score level certifications : Z) : list string :=
  ((if 95 <=? score then [ "TRANSPARENCY_EXCELLENCE" ] else [])
   ++ (if 5 <=? certifications then [ "CERTIFICATION_MASTER" ] else [])
   ++ (if 90 <=? level then [ "OPENNESS_CHAMPION" ] else []))%list.

End RewardsRules.

(** *** Decimal texts and the ids built from them *)
Module Ids.

(** No character of [s] is an underscore. *)
Definition no_underscore (s : string) : Prop :=
  List.Forall (fun c => c <> "_"%char) (list_ascii_of_string s).

(** The id under which [get_blockchain_block_by_id] finds a block. *)
Definition id_of (b : Block) : string := Ledger.block_id (index b) (timestamp b).

End Ids.

(** *** A ledger built through the public functions *)
Module ApiExample.

Definition verification_data : pyval :=
  VDict [ ("company_name", VStr "TestCorp");
          ("claim", VStr "100% renewable energy");
          ("verification_score", VInt 77);
          ("status", VStr "verified");
          ("type", VStr "forged") ].

Definition utc1 : string := "2023-11-14T22:13:22.750000".

(** One verification recorded on the empty ledger. *)
Definition recorded : option (list Block * string) :=
  Eval vm_compute in
    Api.add_verification_to_blockchain 16 [] verification_data utc1
                                       LedgerExample.env1 LedgerExample.t1.

Definition chain : list Block :=
  match recorded with
  | Some (chain, _) => chain
  | None => []
  end.

(** A claim analysis with eleven claims, recorded next. *)
Definition claim_data : pyval :=
  VDict [ ("content", VStr "We are committed to sustainability");
          ("claims_count", VInt 9);
          ("environmental_claims",
           VList (List.map VInt [ 1; 2; 3; 4; 5; 6; 7; 8; 9; 10; 11 ])) ].

Definition utc2 : string := "2023-11-14T22:14:01.000000".

Definition analysed : option (list Block * string) :=
  Eval vm_compute in
    Api.add_claim_analysis_to_blockchain 16 chain claim_data utc2
                                         LedgerExample.env2 LedgerExample.t2.

Definition chain' : list Block :=
  match analysed with
  | Some (chain, _) => chain
  | None => []
  end.

(** A verification whose claim is a number. *)
Definition malformed_data : pyval :=
  VDict [ ("company_name", VStr "TestCorp"); ("claim", VInt 7) ].

(** A verification whose score has 4301 digits, and a claim analysis that
    counts as many claims: [json.dumps] cannot write either. *)
Definition unwritable_data : pyval :=
  VDict [ ("company_name", VStr "TestCorp");
          ("claim", VStr "100% renewable energy");
          ("verification_score", VInt Py.int_limit) ].

Definition unwritable_claim_data : pyval :=
  VDict [ ("content", VStr "We are committed to sustainability");
          ("claims_count", VInt Py.int_limit) ].

End ApiExample.

(** *** What the ledger functions accept as a text field *)
Module Fields.

(** [d.get(k, default)] on the items of a dict. *)
Definition get_or (d : list (string * pyval)) (k : string) (default : pyval) : pyval :=
  match Py.lookup d k with
  | Some v => v
  | None => default
  end.

(** The values [v[:n]] accepts. *)
Definition sliceable (v : pyval) : bool :=
  match v with
  | VStr _ | VList _ => true
  | _ => false
  end.

(** The verification dicts [add_verification_to_blockchain] can store. *)
Definition storable_verification (verification_data : pyval) : bool :=
  match verification_data with
  | VDict d =>
      sliceable (get_or d "claim" (VStr ""))
      && sliceable (get_or d "evidence_summary" (VStr ""))
  | _ => false
  end.

(** The claim dicts [add_claim_analysis_to_blockchain] can store. *)
Definition storable_claim_analysis (claim_data : pyval) : bool :=
  match claim_data with
  | VDict d =>
      sliceable (get_or d "content" (VStr ""))
      && sliceable (get_or d "environmental_claims" (VList []))
  | _ => false
  end.

(** [len(v)] of a string or a list, [0] otherwise. *)
Definition size_of (v : pyval) : nat :=
  match v with
  | VStr s => String.length s
  | VList l => List.length l
  | _ => 0%nat
  end.

(** A payload of one of the two kinds the public functions record. *)
Definition recorded_kind (b : Block) : Prop :=
  exists p, data b = VDict p /\
            ((Py.lookup p "type" = Some (VStr "verification") /\
              (exists utcnow, Py.lookup p "timestamp" = Some (VStr utcnow)) /\
              sliceable (get_or p "claim" (VStr "")) = true) \/
             Py.lookup p "type" = Some (VStr "claim_analysis")).

(** [block.get("data", {}).get("type") == kind], on a dict payload. *)
Definition kind_is (kind : string) (b : Block) : bool :=
  match data b with
  | VDict p => Builtins.eq_str (get_or p "type" VNone) kind
  | _ => false
  end.

(** The condition under which [get_company_verification_history] keeps a
    block: a verification of the company, names compared in lower case. *)
Definition company_is (company_name : string) (b : Block) : bool :=
  kind_is "verification" b &&
  match data b with
  | VDict p =>
      match get_or p "company_name" (VStr "") with
      | VStr s => String.eqb (Py.lower s) (Py.lower company_name)
      | _ => false
      end
  | _ => false
  end.

(** The history entry made of a block with a dict payload. *)
Definition entry_of (b : Block) : HistoryEntry :=
  let p := match data b with VDict p => p | _ => [] end in
  mkHistoryEntry (get_or p "timestamp" VNone)
                 (get_or p "verification_score" VNone)
                 (get_or p "status" VNone)
                 (get_or p "risk_level" VNone)
                 (match Builtins.slice_first 100 (get_or p "claim" (VStr "")) with
                  | Ok claim => claim
                  | Raise _ => VNone
                  end)
                 (index b)
                 (String.substring 0 16 (hash b) ++ "...")
                 (get_or p "automated_actions" (VList [])).

(** What the history loop needs of a block: a dict payload, and in a
    verification a string timestamp and a claim that can be sliced. *)
Definition readable (b : Block) : Prop :=
  exists p, data b = VDict p /\
            (kind_is "verification" b = true ->
             (exists utcnow, Py.lookup p "timestamp" = Some (VStr utcnow)) /\
             sliceable (get_or p "claim" (VStr "")) = true).

(** Each timestamp is at least the one after it. *)
Definition newest_first (entries : list HistoryEntry) : Prop :=
  Sorted.Sorted
    (fun e1 e2 => String.ltb (Api.timestamp_text e1) (Api.timestamp_text e2) = false)
    entries.

(** Python's [sorted] on entries whose timestamps are all strings. *)
Definition sorted_texts (entries : list HistoryEntry) : res (list HistoryEntry) :=
  Ok (Api.sort_descending Api.timestamp_text entries).

(** The ledgers whose first block is a genesis block and whose other blocks
    all carry a payload of a recorded kind. *)
Definition recorded_ledger (chain : list Block) : Prop :=
  exists g rest now utcnow,
    chain = g :: rest /\ g = Ledger.genesis_block now utcnow /\
    List.Forall recorded_kind rest.

End Fields.

(** *** The VerificationBounty arithmetic *)
Module BountyRules.

(** [int(base_bounty * quality_multiplier * speed_bonus)] *)
Definition scaled (base_bounty : Z) (quality_multiplier speed_bonus : float) : res Z :=
  let* weighted := Py.num_mul (Py.NInt base_bounty) (Py.NFloat quality_multiplier) in
  let* weighted := Py.num_mul weighted (Py.NFloat speed_bonus) in
  let* weighted := Py.to_float weighted in
  Py.int_of_float weighted.

(** The same from an int quality: [quality_multiplier = quality / 100]. *)
Definition bounty_of (base_bounty quality : Z) (speed_bonus : float) : res Z :=
  let* quality_multiplier := Py.truediv_int (VInt quality) 100 in
  scaled base_bounty quality_multiplier speed_bonus.

Definition base_bounties : list Z := [ 10; 25; 50; 100 ].
Definition speed_bonuses : list float := [ 1.5%float; 1.2%float; 1.0%float; 0.8%float ].

(** The int qualities from 0 to 100. *)
Definition qualities : list Z := List.map Z.of_nat (List.seq 0 101).

Definition within (low high : Z) (r : res Z) : bool :=
  match r with
  | Ok b => (low <=? b) && (b <=? high)
  | Raise _ => false
  end.

(** Every base bounty, speed bonus and int quality from 0 to 100 gives a
    bounty from 0 to 150. *)
Definition all_within : bool :=
  List.forallb
    (fun base => List.forallb
       (fun speed => List.forallb (fun q => within 0 150 (bounty_of base q speed)) qualities)
       speed_bonuses)
    base_bounties.

Definition level_bonus (total_verifications : Z) : Z :=
  if 100 <=? total_verifications then 50
  else if 50 <=? total_verifications then 25
  else if 10 <=? total_verifications then 10
  else 0.

End BountyRules.

(** *** The TransparencyTracker recommendations, in the order they are added *)
Module TransparencyRules.

Definition all_recommendations : list string :=
  [ "Publish detailed sustainability reports";
    "Provide supply chain transparency";
    "Share environmental impact data";
    "Respond to verification requests promptly";
    "Establish basic environmental disclosure practices" ].

End TransparencyRules.

(** ** The callers in [app.py]: the essential contracts and their runs *)
Module App.

(** The parameters [app.py] deploys its six essential contracts with,
    under the names it keeps their ids by. *)
Definition essential_deployments : list (string * ContractType * pyval) :=
  [ ("greenwashing_detector", GREENWASHING_DETECTOR,
     VDict [ ("sensitivity", VFloat 0.7%float); ("auto_flag", VBool true) ]);
    ("sustainability_rewards", SUSTAINABILITY_REWARDS,
     VDict [ ("max_points", VInt 1000); ("badge_levels", VInt 4) ]);
    ("automatic_flagging", AUTOMATIC_FLAGGING,
     VDict [ ("threshold", VFloat 0.6%float); ("immediate_action", VBool true) ]);
    ("penalty_system", PENALTY_SYSTEM,
     VDict [ ("max_penalty", VInt 1000); ("escalation", VBool true) ]);
    ("verification_bounty", VERIFICATION_BOUNTY,
     VDict [ ("max_bounty", VInt 200); ("quality_multiplier", VBool true) ]);
    ("transparency_tracker", TRANSPARENCY_TRACKER,
     VDict [ ("update_frequency", VStr "weekly") ]) ].

(** The globals [smart_blockchain] and [essential_contracts] (name to
    contract id, in insertion order). *)
Record Contracts := mkContracts {
  smart_blockchain : SmartContractBlockchain;
  essential_contracts : list (string * string)
}.

(** The start-up of [app.py] when [SMART_CONTRACTS_AVAILABLE] holds: the
    registry is built, with its defaults on the clock [defaults], then the
    six essential contracts are deployed on the clock [clock].  Neither the
    constructor nor [deploy_contract] raises, so the [except] branch, which
    would clear both globals, is never taken. *)
Definition startup (defaults clock : ContractType -> float * float) : Contracts :=
  List.fold_left
    (fun app entry =>
       let '(name, contract_type, parameters) := entry in
       let '(registry, contract_id) :=
         Registry.deploy_contract (smart_blockchain app) contract_type
                                  "system@greenguard.com" parameters
                                  (fst (clock contract_type)) (snd (clock contract_type)) in
       mkContracts registry (List.app (essential_contracts app) [ (name, contract_id) ]))
    essential_deployments
    (mkContracts (Registry.new_blockchain defaults) []).

(** [essential_contracts.get(name)] *)
Definition essential (app : Contracts) (name : string) : option string :=
  match List.find (fun kv => String.eqb (fst kv) name) (essential_contracts app) with
  | Some kv => Some (snd kv)
  | None => None
  end.

(** The state the [try] of [execute_all_verification_contracts] threads:
    the registry, whose contracts [execute] changes in place, and the
    [results] dict; what was done before an exception stays done. *)
Definition St : Type := SmartContractBlockchain * list (string * Response).
Definition A (X : Type) : Type := St -> St * res X.

Definition a_ret {X : Type} (x : X) : A X := fun st => (st, Ok x).
Definition a_bind {X Y : Type} (m : A X) (k : X -> A Y) : A Y :=
  fun st =>
    match m st with
    | (st', Ok x) => k x st'
    | (st', Raise e) => (st', Raise e)
    end.
Definition a_lift {X : Type} (r : res X) : A X := fun st => (st, r).

Notation "'run*' x ':=' m 'in' k" := (a_bind m (fun x => k))
  (at level 10, x name, m at level 100, k at level 200).
Notation "m ';;;' k" := (a_bind m (fun _ => k))
  (at level 100, k at level 200, right associativity).

(** [result = smart_blockchain.contracts[contract_id].execute(inputs,
    context); results[key] = result] *)
Definition execute_into (contract_id key : string) (inputs context : pyval)
           (env : exec_env) : A unit :=
  fun st =>
    match Registry.execute_contract (fst st) contract_id inputs context env with
    | (registry, Ok result) => ((registry, List.app (snd st) [ (key, result) ]), Ok tt)
    | (registry, Raise e) => ((registry, snd st), Raise e)
    end.

(** [if name in essential_contracts: ...], the inputs and the context
    built only then. *)
Definition when_essential (app : Contracts) (name key : string)
           (arguments : res (pyval * pyval)) (env : exec_env) : A unit :=
  match essential app name with
  | None => a_ret tt
  | Some contract_id =>
      run* args := a_lift arguments in
      execute_into contract_id key (fst args) (snd args) env
  end.

(** [min(100, v)]: [v] when [v < 100]. *)
Definition min_100 (v : pyval) : res pyval :=
  let* smaller := Py.lt_int v 100 in
  Ok (if smaller then v else VInt 100).

(** The clock readings of one call of
    [execute_all_verification_contracts]: [time.time()] for the context of
    the detector, and those of the six executions. *)
Record run_env := RunEnv {
  context_time : float;
  env_detector : exec_env;
  env_flagging : exec_env;
  env_rewards : exec_env;
  env_penalty : exec_env;
  env_bounty : exec_env;
  env_tracker : exec_env
}.

Definition bounty_input (contract_input : pyval) (user_email : pyval) : res pyval :=
  let* score := Py.get contract_input "verification_score" (VInt 0) in
  let* quality := min_100 score in
  let* claim := Py.get contract_input "claim" (VStr "") in
  let* n := Py.len claim in
  Ok (VDict [ ("verifier_email", user_email);
              ("verification_quality", quality);
              ("claim_complexity", VStr (if 200 <? n then "COMPLEX" else "MODERATE"));
              ("verification_speed", VStr "FAST") ]).

Definition transparency_input (contract_input : pyval) : res pyval :=
  let* company_name := Py.get contract_input "company_name" VNone in
  let* certifications := Py.get contract_input "certifications" (VList []) in
  let* transparency_level := Py.get contract_input "transparency_level" (VInt 70) in
  Ok (VDict [ ("company_name", company_name);
              ("disclosed_data",
               VDict [ ("sustainability_report", VBool true);
                       ("certifications", certifications) ]);
              ("response_time_hours", VInt 24);
              ("data_completeness", transparency_level) ]).

(** The body of the [try]. *)
Definition execute_all_body (app : Contracts) (contract_input user_email : pyval)
           (env : run_env) : A unit :=
  when_essential app "greenwashing_detector" "greenwashing_detection"
    (Ok (contract_input,
         VDict [ ("user_email", user_email);
                 ("timestamp", VFloat (context_time env));
                 ("company_history", VList []) ]))
    (env_detector env) ;;;
  when_essential app "automatic_flagging" "automatic_flagging"
    (Ok (contract_input, VDict [])) (env_flagging env) ;;;
  when_essential app "sustainability_rewards" "sustainability_rewards"
    (Ok (contract_input, VDict [])) (env_rewards env) ;;;
  run* score := a_lift (Py.get contract_input "verification_score" (VInt 100)) in
  run* low := a_lift (Py.lt_int score 40) in
  (if low
   then when_essential app "penalty_system" "penalty_system"
          (Ok (contract_input, VDict [])) (env_penalty env)
   else a_ret tt) ;;;
  when_essential app "verification_bounty" "verification_bounty"
    (let* inputs := bounty_input contract_input user_email in
     Ok (inputs, VDict [ ("verifier_history", VList []) ]))
    (env_bounty env) ;;;
  when_essential app "transparency_tracker" "transparency_tracker"
    (let* inputs := transparency_input contract_input in
     Ok (inputs, VDict [ ("transparency_history", VList []) ]))
    (env_tracker env).

(** [execute_all_verification_contracts(contract_input, user_email)]: the
    [except] branch logs and the results so far are returned. *)
Definition execute_all_verification_contracts
           (app : Contracts) (contract_input user_email : pyval) (env : run_env)
  : Contracts * list (string * Response) :=
  let '((registry, results), _) :=
    execute_all_body app contract_input user_email env (smart_blockchain app, []) in
  (mkContracts registry (essential_contracts app), results).

(** [results.get(key)] when it is there and its ["success"] is true: the
    ["result"] of the response. *)
Definition succeeded (results : list (string * Response)) (key : string) : option pyval :=
  match List.find (fun kv => String.eqb (fst kv) key) results with
  | Some (_, Success _ _ result _ _) => Some result
  | _ => None
  end.

(** [extract_automated_actions(smart_contract_results)] *)
Definition extract_automated_actions (results : list (string * Response))
  : res (list pyval) :=
  let actions := [] in
  let* actions :=
    match succeeded results "greenwashing_detection" with
    | Some result =>
        let* contract_actions := Py.get result "actions_triggered" (VList []) in
        let* items := Py.iter contract_actions in
        Ok (List.app actions items)
    | None => Ok actions
    end in
  let* actions :=
    match succeeded results "automatic_flagging" with
    | Some result =>
        let* flags := Py.get result "flags_triggered" (VList []) in
        let* items := Py.iter flags in
        let* labels :=
          Py.map_res (fun flag => let* text := Py.str flag in Ok (VStr ("FLAG: " ++ text)))
                     items in
        Ok (List.app actions labels)
    | None => Ok actions
    end in
  let* actions :=
    match succeeded results "penalty_system" with
    | Some result =>
        let* consequences := Py.get result "consequences" (VList []) in
        let* items := Py.iter consequences in
        let* labels :=
          Py.map_res (fun consequence =>
                        let* text := Py.str consequence in Ok (VStr ("PENALTY: " ++ text)))
                     items in
        Ok (List.app actions labels)
    | None => Ok actions
    end in
  let* actions :=
    match succeeded results "sustainability_rewards" with
    | Some result =>
        let* badge := Py.get result "badge_earned" (VStr "NO_BADGE") in
        if negb (Builtins.eq_str badge "NO_BADGE")
        then
          let* text := Py.str badge in
          Ok (List.app actions [ VStr ("REWARD: " ++ text) ])
        else Ok actions
    | None => Ok actions
    end in
  let* actions :=
    match succeeded results "verification_bounty" with
    | Some result =>
        let* bounty := Py.get result "bounty_awarded" (VInt 0) in
        let* positive := Py.gt_int bounty 0 in
        if positive
        then
          let* text := Py.str bounty in
          Ok (List.app actions [ VStr ("BOUNTY: " ++ text ++ " points awarded") ])
        else Ok actions
    | None => Ok actions
    end in
  Ok actions.

(** Every essential name stands for a contract of its type stored in
    [registry]. *)
Definition holds (app : Contracts) (registry : SmartContractBlockchain) : Prop :=
  forall name t parameters,
    In (name, t, parameters) essential_deployments ->
    exists contract_id c,
      essential app name = Some contract_id /\
      contracts registry !! contract_id = Some c /\
      contract_type c = t.

Definition deployed (app : Contracts) : Prop := holds app (smart_blockchain app).

Definition is_text (v : pyval) : bool :=
  match v with
  | VStr _ => true
  | _ => false
  end.

Definition standard_keys (penalty : bool) : list string :=
  ([ "greenwashing_detection"; "automatic_flagging"; "sustainability_rewards" ]
   ++ (if penalty then [ "penalty_system" ] else [])
   ++ [ "verification_bounty"; "transparency_tracker" ])%list.

(** The response is what a contract of type [t] returned. *)
Definition response_of (t : ContractType) (response : Response) : Prop :=
  exists c inputs context env,
    contract_type c = t /\ response = snd (Engine.execute c inputs context env).

(** The type of the contract whose response is stored under a key. *)
Definition type_of_key (key : string) : option ContractType :=
  if String.eqb key "greenwashing_detection" then Some GREENWASHING_DETECTOR
  else if String.eqb key "automatic_flagging" then Some AUTOMATIC_FLAGGING
  else if String.eqb key "sustainability_rewards" then Some SUSTAINABILITY_REWARDS
  else if String.eqb key "penalty_system" then Some PENALTY_SYSTEM
  else if String.eqb key "verification_bounty" then Some VERIFICATION_BOUNTY
  else if String.eqb key "transparency_tracker" then Some TRANSPARENCY_TRACKER
  else None.

(** Every response of [results] is that of a contract of the type of its
    key. *)
Definition engine_results (results : list (string * Response)) : Prop :=
  List.Forall (fun kv => exists t, type_of_key (fst kv) = Some t /\ response_of t (snd kv))
              results.

(** What every step of the body keeps: the essential contracts stored,
    and every response stored under the key of its contract type. *)
Definition kept (app : Contracts) (st : St) : Prop :=
  holds app (fst st) /\ engine_results (snd st).

Definition keeps {X : Type} (app : Contracts) (m : A X) : Prop :=
  forall st, kept app st -> kept app (fst (m st)).

End App.

(** *** One run of the essential contracts *)
Module AppExample.

Definition env : App.run_env :=
  App.RunEnv 1700000100%float EngineExample.env EngineExample.env EngineExample.env
             EngineExample.env EngineExample.env EngineExample.env.

End AppExample.

(** * Properties *)

(** Closed goals settled by evaluation. *)
Ltac evaluate := vm_compute; reflexivity.

(** ** The Python layer on known values *)
Section PythonChecks.

Example sha256_abc :
  SHA256.hexdigest "abc"
  = "ba7816bf8f01cfea414140de5dae2223b00361a396177a9cb410ff61f20015ad".
Proof. evaluate. Qed.

Example sha256_two_blocks :
  SHA256.hexdigest "abcdbcdecdefdefgefghfghighijhijkijkljklmklmnlmnomnopnopq"
  = "248d6a61d20638b8e5c026930c3e6039a33ce45964ff2167f6ecedd419db06c1".
Proof. evaluate. Qed.

Example repr_floats :
  List.map PyFloat.repr
           [ 0.1%float; 1e16%float; 1700000002.75%float; 28.999999999999996%float;
             PrimFloat.add 0.1%float 0.2%float; 5e-324%float; 1e-5%float; (-2.5)%float ]
  = [ "0.1"; "1e+16"; "1700000002.75"; "28.999999999999996";
      "0.30000000000000004"; "5e-324"; "1e-05"; "-2.5" ].
Proof. evaluate. Qed.

Example round2_floats :
  List.map (fun f => PyFloat.repr (PyFloat.round2 f))
           [ 55.333333333333336%float; 2.675%float; 0.125%float; 0.375%float;
             (-0.004)%float; 1e22%float ]
  = [ "55.33"; "2.67"; "0.12"; "0.38"; "-0.0"; "1e+22" ].
Proof. evaluate. Qed.

Example int_of_floats :
  List.map PyFloat.trunc [ 28.999999999999996%float; (-0.5)%float; 12.5%float ]
  = [ Some 28; Some 0; Some 12 ] /\
  List.map PyFloat.floor [ 28.999999999999996%float; (-0.5)%float; 12.5%float ]
  = [ Some 28; Some (-1); Some 12 ].
Proof. split; evaluate. Qed.

Example true_division :
  (PyFloat.div_Z 1 3, PyFloat.div_Z 166 3, PyFloat.div_Z 7 100)
  = (Some 0.3333333333333333%float, Some 55.333333333333336%float, Some 0.07%float).
Proof. evaluate. Qed.

Example dumps_sorts_keys :
  Json.dumps (VDict [ ("b", VList [ VInt 1; VFloat 0.5%float; VNone; VBool true ]);
                      ("a", VDict [ ("z", VStr "x"); ("y", VInt (-3)) ]) ])
  = Ok (String.concat Py.dquote
          [ "{"; "a"; ": {"; "y"; ": -3, "; "z"; ": "; "x"; "}, "; "b";
            ": [1, 0.5, null, true]}" ]).
Proof. evaluate. Qed.

Example repr_of_dict :
  Py.repr (VDict [ ("a", VList [ VInt 1; VFloat 0.5%float; VNone; VBool true ]);
                   ("b", VStr "x") ])
  = Ok "{'a': [1, 0.5, None, True], 'b': 'x'}".
Proof. evaluate. Qed.

(** An int of 4301 digits is not written, alone or inside a value; a
    string is its own text whatever it holds. *)
Example int_beyond_the_limit :
  Py.str_of_int Py.int_limit = Raise ValueError /\
  Py.str_of_int (- Py.int_limit) = Raise ValueError /\
  Py.str (VDict [ ("a", VList [ VInt 1; VInt Py.int_limit ]) ]) = Raise ValueError /\
  Json.dumps (VDict [ ("a", VList [ VInt 1; VInt Py.int_limit ]) ]) = Raise ValueError /\
  Py.str_of_int (Py.int_limit - 1) <> Raise ValueError /\
  Py.str (VStr "x") = Ok "x".
Proof.
  repeat split; try evaluate.
  unfold Py.str_of_int.
  replace (Py.int_fits (Py.int_limit - 1)) with true by (symmetry; evaluate).
  discriminate.
Qed.

Lemma digits2_pos_bound m : Zpos m < 2 ^ Zpos (SpecFloat.digits2_pos m).
Proof.
  induction m as [m IH|m IH|]; cbn [SpecFloat.digits2_pos];
    rewrite ?Pos2Z.inj_succ, ?Z.pow_succ_r by lia; lia.
Qed.

(** [int] of a float is below [2^1024]: an int of at most 309 digits, which
    [str] can write. *)
Lemma trunc_fits f z : PyFloat.trunc f = Some z -> Py.int_fits z = true.
Proof.
  unfold PyFloat.trunc. pose proof (Prim2SF_valid f) as V.
  assert (L : 2 ^ 1024 < Py.int_limit) by (vm_compute; reflexivity).
  unfold Py.int_fits. intros H. apply Z.ltb_lt.
  destruct (Prim2SF f) as [s|s| |s m e]; try discriminate H.
  - injection H as <-. lia.
  - injection H as <-.
    unfold SpecFloat.valid_binary, SpecFloat.bounded in V.
    apply andb_prop in V. destruct V as [C B].
    unfold SpecFloat.canonical_mantissa, SpecFloat.fexp, SpecFloat.emin in C.
    apply Z.leb_le in B. apply Z.eqb_eq in C.
    unfold prec, emax in *.
    pose proof (digits2_pos_bound m) as D.
    assert (Hm : Zpos m < 2 ^ 53).
    { eapply Z.lt_le_trans; [exact D|]. apply Z.pow_le_mono_r; lia. }
    assert (Ha : 0 <= (if 0 <=? e then Z.pos m * 2 ^ e else Z.pos m / 2 ^ (- e))
                 < 2 ^ 1024).
    { destruct (Z.leb_spec 0 e).
      - assert (2 ^ e <= 2 ^ 971) by (apply Z.pow_le_mono_r; lia).
        assert (0 < 2 ^ e) by (apply Z.pow_pos_nonneg; lia).
        change (2 ^ 1024) with (2 ^ 53 * 2 ^ 971). nia.
      - assert (0 < 2 ^ (- e)) by (apply Z.pow_pos_nonneg; lia).
        assert (Z.pos m / 2 ^ (- e) <= Z.pos m) by (apply Z.div_le_upper_bound; nia).
        assert (0 <= Z.pos m / 2 ^ (- e)) by (apply Z.div_pos; lia).
        assert (2 ^ 53 < 2 ^ 1024) by (apply Z.pow_lt_mono_r; lia). lia. }
    destruct s; lia.
Qed.

(** The seconds of a clock reading are written as they are. *)
Lemma str_of_clock t : Py.str_of_int (int_of_clock t) = Ok (Py.decimal (int_of_clock t)).
Proof.
  unfold Py.str_of_int, int_of_clock.
  destruct (PyFloat.trunc t) as [z|] eqn:E; [rewrite (trunc_fits _ _ E)|]; reflexivity.
Qed.

End PythonChecks.

(** ** The ledger *)
Section LedgerFacts.
Import Ledger.

Example add_to_empty :
  _add_block_to_simple_chain 3 [] LedgerExample.verification_payload LedgerExample.env1
  = Some (LedgerExample.chain2, Ok "BLOCK_1_1700000002").
Proof. vm_compute. reflexivity. Qed.

Example add_second :
  _add_block_to_simple_chain 1 LedgerExample.chain2 LedgerExample.claim_payload
                             LedgerExample.env2
  = Some (LedgerExample.chain3, Ok "BLOCK_2_1700000041").
Proof. vm_compute. reflexivity. Qed.

(** A payload that holds an int of 4301 digits: [json.dumps] raises in the
    first round of the search, after the seeding of the empty chain. *)
Example add_unwritable :
  _add_block_to_simple_chain 1 [] (VDict [ ("claims_count", VInt Py.int_limit) ])
                             LedgerExample.env1
  = Some (LedgerExample.chain1, Raise ValueError).
Proof. vm_compute. reflexivity. Qed.

Example validate_chain3 : _validate_blockchain_integrity LedgerExample.chain3 = true.
Proof. vm_compute. reflexivity. Qed.

(** The digest never reads the stored hash. *)
Lemma block_digest_with_hash b h : block_digest (with_hash b h) = block_digest b.
Proof. reflexivity. Qed.

Lemma block_digest_hash_irrelevant i t d p n h h' :
  block_digest (mkBlock i t d p n h) = block_digest (mkBlock i t d p n h').
Proof. reflexivity. Qed.

(** A digest is that of a serialization. *)
Lemma block_digest_ok b h :
  block_digest b = Ok h <-> exists s, block_string b = Ok s /\ h = SHA256.hexdigest s.
Proof.
  unfold block_digest. destruct (block_string b) as [s|e]; cbn [res_bind]; split.
  - intros H. injection H as <-. exists s. auto.
  - intros (s' & H & ->). injection H as <-. reflexivity.
  - discriminate.
  - intros (s' & H & _). discriminate H.
Qed.

(** The search returns the first nonce it meets whose digest has the prefix. *)
Lemma mine_sound fuel : forall b n s,
  mine fuel b n = Some (Ok s) ->
  exists k, n <= k /\
            block_digest (with_nonce b k) = Ok (hash s) /\
            s = with_hash (with_nonce b k) (hash s) /\
            String.prefix target (hash s) = true.
Proof.
  induction fuel as [|fuel IH]; intros b n s Hm; cbn [mine] in Hm; [discriminate|].
  destruct (block_digest (with_nonce b n)) as [h|e] eqn:Hd; [|discriminate].
  destruct (String.prefix target h) eqn:Hp.
  - injection Hm as <-. exists n. cbn [hash with_hash].
    repeat split; [lia | exact Hd | exact Hp].
  - destruct (IH _ _ _ Hm) as (k & Hk & Hs & Hw & Hpre).
    exists k. repeat split; [lia | exact Hs | exact Hw | exact Hpre].
Qed.

(** The search is left by an exception only when [json.dumps] raised it. *)
Lemma mine_raises fuel : forall b n e,
  mine fuel b n = Some (Raise e) ->
  exists k, n <= k /\ block_digest (with_nonce b k) = Raise e.
Proof.
  induction fuel as [|fuel IH]; intros b n e Hm; cbn [mine] in Hm; [discriminate|].
  destruct (block_digest (with_nonce b n)) as [h|e'] eqn:Hd.
  - destruct (String.prefix target h); [discriminate|].
    destruct (IH _ _ _ Hm) as (k & Hk & Hr). exists k. split; [lia | exact Hr].
  - injection Hm as <-. exists n. split; [lia | exact Hd].
Qed.

(** With the least sealing nonce [m] steps ahead, any longer search finds it. *)
Lemma mine_complete : forall (m fuel : nat) b n h,
  (forall k, n <= k < n + Z.of_nat m ->
             exists h', block_digest (with_nonce b k) = Ok h' /\
                        String.prefix target h' = false) ->
  block_digest (with_nonce b (n + Z.of_nat m)) = Ok h ->
  String.prefix target h = true ->
  (m < fuel)%nat ->
  mine fuel b n = Some (Ok (with_hash (with_nonce b (n + Z.of_nat m)) h)).
Proof.
  induction m as [|m IH]; intros fuel b n h Hlt Hd Hhit Hfuel;
    (destruct fuel as [|fuel]; [lia|]); cbn [mine].
  - replace (n + Z.of_nat 0) with n in * by lia. rewrite Hd, Hhit. reflexivity.
  - destruct (Hlt n ltac:(lia)) as (h' & Hd' & Hmiss). rewrite Hd', Hmiss.
    replace (n + Z.of_nat (S m)) with ((n + 1) + Z.of_nat m) in * by lia.
    apply IH; [ intros k Hk; apply Hlt; lia | exact Hd | exact Hhit | lia ].
Qed.

(** While no nonce seals the block, the search is still running. *)
Lemma mine_running : forall (fuel : nat) b n,
  (forall k, n <= k < n + Z.of_nat fuel ->
             exists h', block_digest (with_nonce b k) = Ok h' /\
                        String.prefix target h' = false) ->
  mine fuel b n = None.
Proof.
  induction fuel as [|fuel IH]; intros b n Hmiss; cbn [mine]; [reflexivity|].
  destruct (Hmiss n ltac:(lia)) as (h' & Hd' & Hp). rewrite Hd', Hp.
  apply IH. intros k Hk. apply Hmiss. lia.
Qed.

(** With the first nonce that [json.dumps] cannot write [m] steps ahead and
    no sealing nonce before it, any longer search ends in its exception. *)
Lemma mine_raise_complete : forall (m fuel : nat) b n e,
  (forall k, n <= k < n + Z.of_nat m ->
             exists h', block_digest (with_nonce b k) = Ok h' /\
                        String.prefix target h' = false) ->
  block_digest (with_nonce b (n + Z.of_nat m)) = Raise e ->
  (m < fuel)%nat ->
  mine fuel b n = Some (Raise e).
Proof.
  induction m as [|m IH]; intros fuel b n e Hlt Hd Hfuel;
    (destruct fuel as [|fuel]; [lia|]); cbn [mine].
  - replace (n + Z.of_nat 0) with n in * by lia. rewrite Hd. reflexivity.
  - destruct (Hlt n ltac:(lia)) as (h' & Hd' & Hmiss). rewrite Hd', Hmiss.
    replace (n + Z.of_nat (S m)) with ((n + 1) + Z.of_nat m) in * by lia.
    apply IH; [ intros k Hk; apply Hlt; lia | exact Hd | lia ].
Qed.

Lemma block_ok_true chain i :
  block_ok chain i = true <->
  exists cur prev, chain !! i = Some cur /\ chain !! (i - 1)%nat = Some prev /\
                   previous_hash cur = hash prev /\ block_digest cur = Ok (hash cur).
Proof.
  unfold block_ok. split.
  - destruct (chain !! i) as [cur|]; [|discriminate].
    destruct (chain !! (i - 1)%nat) as [prev|]; [|discriminate].
    destruct (String.eqb_spec (previous_hash cur) (hash prev)) as [E1|]; [|discriminate].
    cbn [negb].
    destruct (block_digest cur) as [h|e] eqn:Hd; [|discriminate].
    destruct (String.eqb_spec (hash cur) h) as [E2|]; [|discriminate].
    intros _. exists cur, prev. subst h. auto.
  - intros (cur & prev & -> & -> & E1 & E2).
    rewrite E1, String.eqb_refl. cbn [negb].
    rewrite E2, String.eqb_refl. reflexivity.
Qed.

Lemma validate_true_iff chain :
  _validate_blockchain_integrity chain = true <->
  forall i, (0 < i < List.length chain)%nat -> block_ok chain i = true.
Proof.
  unfold _validate_blockchain_integrity.
  destruct (Nat.leb_spec (List.length chain) 1) as [Hle|Hgt].
  - split; [intros _ i Hi; lia | reflexivity].
  - rewrite forallb_forall. split.
    + intros H i Hi. apply H. apply in_seq. lia.
    + intros H i Hi. apply in_seq in Hi. apply H. lia.
Qed.

Lemma validate_false_at chain i :
  (0 < i < List.length chain)%nat -> block_ok chain i = false ->
  _validate_blockchain_integrity chain = false.
Proof.
  intros Hi Hbad.
  destruct (_validate_blockchain_integrity chain) eqn:E; [|reflexivity].
  rewrite validate_true_iff in E. rewrite (E i Hi) in Hbad. discriminate.
Qed.

Lemma validate_pointwise chain :
  _validate_blockchain_integrity chain = true <->
  forall i cur prev,
    (0 < i)%nat -> chain !! i = Some cur -> chain !! (i - 1)%nat = Some prev ->
    previous_hash cur = hash prev /\ block_digest cur = Ok (hash cur).
Proof.
  rewrite validate_true_iff. split.
  - intros H i cur prev Hi Hc Hp.
    assert (Hlen : (i < List.length chain)%nat) by (eapply lookup_lt_Some; eauto).
    destruct (proj1 (block_ok_true chain i) (H i (conj Hi Hlen)))
      as (c & q & Hc' & Hq' & E1 & E2).
    rewrite Hc in Hc'. rewrite Hp in Hq'. inversion Hc'; inversion Hq'; subst. auto.
  - intros H i [Hi Hlen]. apply block_ok_true.
    destruct (lookup_lt_is_Some_2 chain i Hlen) as [cur Hc].
    destruct (lookup_lt_is_Some_2 chain (i - 1)%nat ltac:(lia)) as [prev Hp].
    exists cur, prev. destruct (H i cur prev Hi Hc Hp). auto.
Qed.

(** A single-field change other than to [hash] leaves the stored hash, and
    one to [hash] leaves the digest. *)
Lemma mutates_field_hash_or_digest b b' :
  mutates_field b b' ->
  hash b' <> hash b -> block_digest b' = block_digest b.
Proof.
  intros Hm Hne. destruct Hm; cbn [hash] in Hne; try congruence. reflexivity.
Qed.

(** *** What is hashed covers every field but the hash *)

Lemma append_cons c (x y : string) : String c x ++ y = String c (x ++ y).
Proof. reflexivity. Qed.

Lemma append_inv_head (s x y : string) : s ++ x = s ++ y -> x = y.
Proof.
  induction s as [|c s IH]; intros H; [exact H|].
  rewrite !append_cons in H. injection H as H. exact (IH H).
Qed.

Lemma length_append (x y : string) :
  String.length (x ++ y) = (String.length x + String.length y)%nat.
Proof.
  induction x as [|c x IH]; [reflexivity|].
  rewrite append_cons. cbn [String.length]. rewrite IH. reflexivity.
Qed.

Lemma append_inv_tail (x : string) : forall y s, x ++ s = y ++ s -> x = y.
Proof.
  induction x as [|c x IH]; intros [|d y] s H.
  - reflexivity.
  - exfalso. apply (f_equal String.length) in H.
    rewrite append_cons in H. cbn [String.length] in H.
    rewrite !length_append in H. cbn [String.length] in H. lia.
  - exfalso. apply (f_equal String.length) in H.
    rewrite append_cons in H. cbn [String.length] in H.
    rewrite !length_append in H. cbn [String.length] in H. lia.
  - rewrite !append_cons in H. injection H as -> H. f_equal. exact (IH _ _ H).
Qed.

Lemma to_int_not_nil z :
  Z.to_int z <> Decimal.Pos Decimal.Nil /\ Z.to_int z <> Decimal.Neg Decimal.Nil.
Proof.
  destruct z; simpl; split; try discriminate.
  - intros H. injection H as H. revert H. apply DecimalPos.Unsigned.to_uint_nonnil.
  - intros H. injection H as H. revert H. apply DecimalPos.Unsigned.to_uint_nonnil.
Qed.

(** Two ints with the same decimal text are equal. *)
Lemma decimal_inj a b : Py.decimal a = Py.decimal b -> a = b.
Proof.
  unfold Py.decimal, PyFloat.digits_of. intros H.
  apply to_int_inj.
  destruct (to_int_not_nil a) as [Ha1 Ha2], (to_int_not_nil b) as [Hb1 Hb2].
  pose proof (NilZero.isi _ Ha1 Ha2) as Ea.
  pose proof (NilZero.isi _ Hb1 Hb2) as Eb.
  rewrite H in Ea. rewrite Ea in Eb. congruence.
Qed.

(** The serialization of a block: its items in the order of their keys. *)
Lemma block_text b :
  Json.encode (VDict (block_items b))
  = "{" ++ String.concat ", "
             (List.app
                [ Json.quote "data" ++ ": " ++ Json.encode (data b);
                  Json.quote "index" ++ ": " ++ Py.decimal (index b) ]
                (List.app
                   match nonce b with
                   | Some n => [ Json.quote "nonce" ++ ": " ++ Py.decimal n ]
                   | None => []
                   end
                   [ Json.quote "previous_hash" ++ ": " ++ Json.quote (previous_hash b);
                     Json.quote "timestamp" ++ ": " ++ Json.float_text (timestamp b) ]))
         ++ "}".
Proof. unfold block_items. destruct (nonce b); reflexivity. Qed.

(** What [json.dumps] accepted of a block. *)
Lemma block_string_ok b s :
  block_string b = Ok s ->
  s = Json.encode (VDict (block_items b)) /\
  Py.fits (data b) = true /\ Py.int_fits (index b) = true.
Proof.
  unfold block_string, Json.dumps.
  destruct (Py.fits (VDict (block_items b))) eqn:Hf; [|discriminate].
  intros H. injection H as <-. split; [reflexivity|].
  unfold block_items in Hf. cbn [Py.fits List.forallb List.app fst snd] in Hf.
  apply andb_prop in Hf. destruct Hf as [Hi Hf]. cbn [andb] in Hf.
  apply andb_prop in Hf. destruct Hf as [Hd _]. auto.
Qed.

Ltac cancel_head H := apply append_inv_head in H.
Ltac cancel_tail H := apply append_inv_tail in H.

(** A change of one field that shows in [json.dumps] changes the
    serialization of the block. *)
Lemma block_text_differs b b' s s' :
  mutates_field b b' -> shows b b' ->
  hash b' = hash b -> previous_hash b' = previous_hash b ->
  block_string b = Ok s -> block_string b' = Ok s' -> s <> s'.
Proof.
  intros Hm [Hdata Htime] Hh Hp Hs Hs' E. subst s'.
  destruct (block_string_ok _ _ Hs) as (Es & Fd & _).
  destruct (block_string_ok _ _ Hs') as (Es' & Fd' & _).
  rewrite Es in Es'. rewrite !block_text in Es'.
  cancel_head Es'. cancel_tail Es'.
  destruct Hm as [v Hv|v Hv|v Hv|v Hv|v Hv|v Hv];
    cbn [index timestamp data previous_hash nonce hash] in *;
    try (apply Hv; congruence).
  - (* index *)
    destruct (nonce b); cbn [String.concat List.app] in Es';
      cancel_head Es'; cancel_head Es'; cancel_tail Es';
      do 2 cancel_head Es'; apply Hv; symmetry; apply decimal_inj; exact Es'.
  - (* timestamp *)
    destruct (nonce b); cbn [String.concat List.app] in Es';
      repeat cancel_head Es'; apply Hv; apply Htime; symmetry; exact Es'.
  - (* data *)
    apply Hv. apply Hdata. unfold Json.dumps. rewrite Fd, Fd'. f_equal.
    destruct (nonce b); cbn [String.concat List.app] in Es';
      cancel_tail Es'; do 2 cancel_head Es'; symmetry; exact Es'.
  - (* nonce *)
    destruct v as [n'|], (nonce b) as [n|]; cbn [String.concat List.app] in Es';
      do 4 cancel_head Es'.
    + cancel_tail Es'. do 2 cancel_head Es'. apply Hv. f_equal. symmetry.
      apply decimal_inj. exact Es'.
    + apply (f_equal (String.get 1)) in Es'. vm_compute in Es'. discriminate Es'.
    + apply (f_equal (String.get 1)) in Es'. vm_compute in Es'. discriminate Es'.
    + apply Hv. reflexivity.
Qed.

(** The change of one field of a block at an index [i > 0] of a chain that
    validates is detected, unless the serialization it changed has the
    digest of the old one. *)
Lemma tampered_block_rejected chain i b b' :
  _validate_blockchain_integrity chain = true ->
  (0 < i)%nat -> chain !! i = Some b ->
  mutates_field b b' -> shows b b' ->
  _validate_blockchain_integrity (<[i:=b']> chain) = false \/ collide b b'.
Proof.
  intros Hv Hi Hb Hm Hshow.
  assert (Hlen : (i < List.length chain)%nat) by (eapply lookup_lt_Some; eauto).
  destruct (lookup_lt_is_Some_2 chain (i - 1)%nat ltac:(lia)) as [prev Hp].
  destruct (proj1 (validate_pointwise chain) Hv i b prev Hi Hb Hp) as [E1 E2].
  destruct (_validate_blockchain_integrity (<[i:=b']> chain)) eqn:Hv';
    [right|left; reflexivity].
  destruct (proj1 (validate_pointwise _) Hv' i b' prev Hi) as [L D].
  { apply list_lookup_insert_eq. exact Hlen. }
  { rewrite list_lookup_insert_ne by lia. exact Hp. }
  destruct (string_dec (hash b') (hash b)) as [Hh|Hh].
  - apply block_digest_ok in E2, D.
    destruct E2 as (s & Hs & Es), D as (s' & Hs' & Es').
    exists s, s'. split; [exact Hs|]. split; [exact Hs'|]. split.
    + apply (block_text_differs b b'); auto. congruence.
    + congruence.
  - exfalso. apply Hh.
    rewrite (mutates_field_hash_or_digest b b' Hm Hh) in D. congruence.
Qed.

(** A change of the stored hash, or of the link, is always detected. *)
Lemma relinked_block_rejected chain i b b' :
  _validate_blockchain_integrity chain = true ->
  (0 < i)%nat -> chain !! i = Some b ->
  mutates_field b b' ->
  hash b' <> hash b \/ previous_hash b' <> previous_hash b ->
  _validate_blockchain_integrity (<[i:=b']> chain) = false.
Proof.
  intros Hv Hi Hb Hm Hne.
  assert (Hlen : (i < List.length chain)%nat) by (eapply lookup_lt_Some; eauto).
  destruct (lookup_lt_is_Some_2 chain (i - 1)%nat ltac:(lia)) as [prev Hp].
  destruct (proj1 (validate_pointwise chain) Hv i b prev Hi Hb Hp) as [E1 E2].
  destruct (_validate_blockchain_integrity (<[i:=b']> chain)) eqn:Hv'; [|reflexivity].
  exfalso.
  destruct (proj1 (validate_pointwise _) Hv' i b' prev Hi) as [L D].
  { apply list_lookup_insert_eq. exact Hlen. }
  { rewrite list_lookup_insert_ne by lia. exact Hp. }
  destruct Hne as [Hh|Hl].
  - apply Hh. rewrite (mutates_field_hash_or_digest b b' Hm Hh) in D. congruence.
  - apply Hl. congruence.
Qed.

(** A change that leaves the serialization, the hash and the link as they
    were is never detected. *)
Lemma hidden_change_accepted chain i b b' :
  _validate_blockchain_integrity chain = true ->
  (0 < i)%nat -> chain !! i = Some b ->
  hash b' = hash b -> previous_hash b' = previous_hash b ->
  block_string b' = block_string b ->
  _validate_blockchain_integrity (<[i:=b']> chain) = true.
Proof.
  intros Hv Hi Hb Hh Hl Hs. apply validate_pointwise. intros j cur prev Hj Hc Hp.
  assert (Hlen : (i < List.length chain)%nat) by (eapply lookup_lt_Some; eauto).
  assert (Hd : block_digest b' = block_digest b) by (unfold block_digest; rewrite Hs; reflexivity).
  destruct (Nat.eq_dec j i) as [->|Hji].
  - rewrite list_lookup_insert_eq in Hc by exact Hlen. injection Hc as <-.
    rewrite list_lookup_insert_ne in Hp by lia.
    destruct (proj1 (validate_pointwise chain) Hv i b prev Hi Hb Hp) as [E1 E2].
    split; congruence.
  - rewrite list_lookup_insert_ne in Hc by lia.
    destruct (Nat.eq_dec (j - 1)%nat i) as [E|E].
    + rewrite E in Hp. rewrite list_lookup_insert_eq in Hp by exact Hlen.
      injection Hp as <-. rewrite Hh.
      apply (proj1 (validate_pointwise chain) Hv j cur b Hj Hc). rewrite E. exact Hb.
    + rewrite list_lookup_insert_ne in Hp by lia.
      apply (proj1 (validate_pointwise chain) Hv j cur prev Hj Hc Hp).
Qed.

Lemma tampered_genesis_hash_rejected chain g h' :
  _validate_blockchain_integrity chain = true ->
  (2 <= List.length chain)%nat -> chain !! 0%nat = Some g ->
  h' <> hash g ->
  _validate_blockchain_integrity (<[0%nat:=with_hash g h']> chain) = false.
Proof.
  intros Hv Hlen Hg Hne.
  destruct (lookup_lt_is_Some_2 chain 1%nat ltac:(lia)) as [cur Hc].
  destruct (proj1 (validate_pointwise chain) Hv 1%nat cur g ltac:(lia) Hc Hg) as [E1 E2].
  apply (validate_false_at _ 1%nat); [rewrite length_insert; lia|].
  unfold block_ok.
  rewrite list_lookup_insert_ne by lia. rewrite Hc. cbn [Nat.sub].
  rewrite list_lookup_insert_eq by lia.
  destruct (String.eqb_spec (previous_hash cur) (hash (with_hash g h'))) as [L|];
    [|reflexivity].
  cbn [hash with_hash] in L. congruence.
Qed.

Lemma tampered_genesis_accepted chain g g' :
  _validate_blockchain_integrity chain = true ->
  chain !! 0%nat = Some g -> hash g' = hash g ->
  _validate_blockchain_integrity (<[0%nat:=g']> chain) = true.
Proof.
  intros Hv Hg Hh. apply validate_pointwise. intros i cur prev Hi Hc Hp.
  rewrite list_lookup_insert_ne in Hc by lia.
  destruct (Nat.eq_dec (i - 1)%nat 0%nat) as [E|E].
  - rewrite E in Hp. rewrite list_lookup_insert_eq in Hp
      by (eapply lookup_lt_Some; eauto).
    inversion Hp; subst prev. rewrite Hh.
    apply (proj1 (validate_pointwise chain) Hv i cur g Hi Hc). rewrite E. exact Hg.
  - rewrite list_lookup_insert_ne in Hp by lia.
    apply (proj1 (validate_pointwise chain) Hv i cur prev Hi Hc Hp).
Qed.

(** *** Reachable ledgers *)

Lemma initialize_nonempty chain now utcnow :
  _initialize_simple_blockchain chain now utcnow <> [].
Proof. destruct chain; simpl; discriminate. Qed.

(** An append that returned: one sealed block after the seeded chain. *)
Lemma add_block_inv fuel chain payload env chain' bid :
  _add_block_to_simple_chain fuel chain payload env = Some (chain', Ok bid) ->
  exists prev k h,
    let chain1 := _initialize_simple_blockchain chain (env_genesis_now env)
                                                (env_genesis_utcnow env) in
    let cand := with_nonce (candidate chain1 payload (env_now env) prev) k in
    last chain1 = Some prev /\ 0 <= k /\
    block_digest cand = Ok h /\
    String.prefix target h = true /\
    chain' = (chain1 ++ [with_hash cand h])%list /\
    bid = block_id (Z.of_nat (List.length chain1)) (env_now env).
Proof.
  unfold _add_block_to_simple_chain. intros H.
  destruct (last _) as [prev|] eqn:Hl; [|discriminate].
  destruct (mine fuel _ 0) as [[sealed|e]|] eqn:Hm; [|discriminate..].
  injection H as <- <-.
  destruct (mine_sound _ _ _ _ Hm) as (k & Hk & Hd & Hs & Hp).
  exists prev, k, (hash sealed). cbv zeta.
  split; [reflexivity|]. split; [exact Hk|]. split; [exact Hd|]. split; [exact Hp|].
  split; [|reflexivity]. f_equal. f_equal. exact Hs.
Qed.

(** An append that raised: [json.dumps] refused a candidate, and the chain
    is as the seeding left it. *)
Lemma add_block_raised fuel chain payload env chain' e :
  _add_block_to_simple_chain fuel chain payload env = Some (chain', Raise e) ->
  chain' = _initialize_simple_blockchain chain (env_genesis_now env)
                                         (env_genesis_utcnow env) /\
  e = ValueError /\
  exists prev k,
    last chain' = Some prev /\ 0 <= k /\
    block_string (with_nonce (candidate chain' payload (env_now env) prev) k)
    = Raise ValueError.
Proof.
  unfold _add_block_to_simple_chain. intros H.
  destruct (last _) as [prev|] eqn:Hl; [|discriminate].
  destruct (mine fuel _ 0) as [[sealed|e']|] eqn:Hm; [discriminate| |discriminate].
  injection H as <- <-. split; [reflexivity|].
  destruct (mine_raises _ _ _ _ Hm) as (k & Hk & Hd).
  unfold block_digest in Hd.
  destruct (block_string _) as [s|e''] eqn:Hs; [discriminate Hd|].
  cbn [res_bind] in Hd. injection Hd as ->.
  assert (He : e' = ValueError).
  { unfold block_string, Json.dumps in Hs. destruct (Py.fits _); congruence. }
  subst e'. split; [reflexivity|]. exists prev, k. auto.
Qed.

Lemma ledger_inv_genesis now utcnow : ledger_inv [genesis_block now utcnow].
Proof.
  split.
  - intros g Hg. inversion Hg; subst. eauto.
  - intros i b Hi Hb. destruct i as [|i]; [lia|]. simpl in Hb. discriminate.
Qed.

Lemma ledger_inv_initialize chain now utcnow :
  chain = [] \/ ledger_inv chain ->
  ledger_inv (_initialize_simple_blockchain chain now utcnow).
Proof.
  intros [->|H]; [apply ledger_inv_genesis|].
  destruct chain; [apply ledger_inv_genesis | exact H].
Qed.

Lemma ledger_inv_snoc chain prev b :
  ledger_inv chain -> chain <> [] -> last chain = Some prev ->
  index b = Z.of_nat (List.length chain) ->
  previous_hash b = hash prev -> block_digest b = Ok (hash b) ->
  String.prefix target (hash b) = true ->
  ledger_inv (chain ++ [b]).
Proof.
  intros [Hg Hs] Hne Hl Hidx Hprev Hh Hp. split.
  - intros g H0. apply Hg. rewrite lookup_app_l in H0; [exact H0|].
    destruct chain; [congruence | simpl; lia].
  - intros i c Hi Hc.
    destruct (Nat.lt_ge_cases i (List.length chain)) as [Hlt|Hge].
    + rewrite lookup_app_l in Hc by exact Hlt.
      destruct (Hs i c Hi Hc) as (E & D & P & q & Hq & L).
      split; [exact E|]. repeat split; auto.
      exists q. split; [|exact L]. rewrite lookup_app_l by lia. exact Hq.
    + assert (i = List.length chain) as ->.
      { apply lookup_lt_Some in Hc. rewrite length_app in Hc. simpl in Hc. lia. }
      rewrite lookup_app_r in Hc by lia. rewrite Nat.sub_diag in Hc.
      inversion Hc; subst c. split; [exact Hidx|]. repeat split; auto.
      exists prev. split; [|exact Hprev].
      rewrite lookup_app_l by lia. rewrite last_lookup in Hl.
      replace (List.length chain - 1)%nat with (Nat.pred (List.length chain)) by lia.
      exact Hl.
Qed.

Lemma reachable_inv chain : reachable chain -> chain = [] \/ ledger_inv chain.
Proof.
  induction 1 as [|chain chain' Hr IH Hstep]; [left; reflexivity|].
  right.
  destruct Hstep as [chain now utcnow|chain payload env fuel chain' [bid|e] Hadd
                    |chain now utcnow].
  - apply ledger_inv_initialize, IH.
  - destruct (add_block_inv _ _ _ _ _ _ Hadd) as (prev & k & h & Hl & Hk & Hd & Hp & -> & _).
    eapply ledger_inv_snoc; eauto.
    + apply ledger_inv_initialize, IH.
    + apply initialize_nonempty.
  - destruct (add_block_raised _ _ _ _ _ _ Hadd) as (-> & _).
    apply ledger_inv_initialize, IH.
  - apply ledger_inv_genesis.
Qed.

(** Every reachable ledger passes the integrity validation. *)
Lemma reachable_valid chain :
  reachable chain -> _validate_blockchain_integrity chain = true.
Proof.
  intros Hr. destruct (reachable_inv chain Hr) as [->|[_ Hs]]; [reflexivity|].
  apply validate_pointwise. intros i cur prev Hi Hc Hp.
  destruct (Hs i cur Hi Hc) as (_ & D & _ & q & Hq & L).
  rewrite Hp in Hq. inversion Hq; subst q. auto.
Qed.

Lemma reachable_chain1 : reachable LedgerExample.chain1.
Proof.
  apply (reach_step []); [constructor|].
  apply (step_initialize [] LedgerExample.t0 LedgerExample.utc0).
Qed.

Lemma reachable_chain2 : reachable LedgerExample.chain2.
Proof.
  apply (reach_step LedgerExample.chain1); [apply reachable_chain1|].
  eapply (step_add _ LedgerExample.verification_payload LedgerExample.env1 3).
  vm_compute. reflexivity.
Qed.

Lemma reachable_chain3 : reachable LedgerExample.chain3.
Proof.
  apply (reach_step LedgerExample.chain2); [apply reachable_chain2|].
  eapply (step_add _ LedgerExample.claim_payload LedgerExample.env2 1).
  vm_compute. reflexivity.
Qed.

(** The keys of the payload of [block1] in another order: the same
    serialization, and a validation that accepts the exchange. *)
Example reordered_payload_undetected :
  data LedgerExample.reordered_block1 <> data LedgerExample.block1 /\
  block_string LedgerExample.reordered_block1 = block_string LedgerExample.block1 /\
  _validate_blockchain_integrity
    (<[1%nat:=LedgerExample.reordered_block1]> LedgerExample.chain3) = true.
Proof.
  split; [discriminate|]. split; [vm_compute; reflexivity|].
  apply (hidden_change_accepted LedgerExample.chain3 1 LedgerExample.block1);
    try reflexivity; try lia; vm_compute; reflexivity.
Qed.

(** *** Fewer digests than nonces *)

Lemma w32_range x : 0 <= SHA256.w32 x < 4294967296.
Proof.
  unfold SHA256.w32. change 4294967295 with (Z.ones 32).
  rewrite Z.land_ones by lia. change (2 ^ 32) with 4294967296.
  apply Z.mod_pos_bound. lia.
Qed.

Lemma compress_words h blk :
  List.length (SHA256.compress h blk) = 8%nat /\
  List.Forall (fun w => 0 <= w < 4294967296) (SHA256.compress h blk).
Proof.
  unfold SHA256.compress. cbv zeta. split; [reflexivity|].
  unfold SHA256.add32.
  repeat (apply List.Forall_cons; [apply w32_range|]). apply List.Forall_nil.
Qed.

Lemma digest_words_range msg :
  List.length (SHA256.digest_words msg) = 8%nat /\
  List.Forall (fun w => 0 <= w < 4294967296) (SHA256.digest_words msg).
Proof.
  unfold SHA256.digest_words. cbv zeta.
  assert (Hh : List.length SHA256.H0 = 8%nat /\
               List.Forall (fun w => 0 <= w < 4294967296) SHA256.H0).
  { split; [reflexivity|]. unfold SHA256.H0.
    repeat (apply List.Forall_cons; [lia|]). apply List.Forall_nil. }
  revert Hh. generalize SHA256.H0 as h.
  generalize (SHA256.blocks_of (List.length (SHA256.words_of_bytes (SHA256.pad msg)))
                               (SHA256.words_of_bytes (SHA256.pad msg))) as bs.
  induction bs as [|blk bs IH]; intros h Hh; cbn [List.fold_left]; [exact Hh|].
  apply IH. apply compress_words.
Qed.

Lemma words_value_range ws :
  List.Forall (fun w => 0 <= w < 4294967296) ws ->
  0 <= SHA256.words_value ws < 4294967296 ^ Z.of_nat (List.length ws).
Proof.
  induction 1 as [|w ws Hw _ IH]; [cbn; lia|].
  cbn [SHA256.words_value List.fold_right List.length].
  fold (SHA256.words_value ws).
  rewrite Nat2Z.inj_succ, Z.pow_succ_r by lia. nia.
Qed.

Lemma words_value_inj : forall ws ws',
  List.length ws = List.length ws' ->
  List.Forall (fun w => 0 <= w < 4294967296) ws ->
  List.Forall (fun w => 0 <= w < 4294967296) ws' ->
  SHA256.words_value ws = SHA256.words_value ws' -> ws = ws'.
Proof.
  induction ws as [|w ws IH]; intros [|w' ws'] Hl F F' E; try discriminate Hl;
    [reflexivity|].
  inversion F as [|? ? Hw Fw]; subst. inversion F' as [|? ? Hw' Fw']; subst.
  cbn [SHA256.words_value List.fold_right] in E.
  fold (SHA256.words_value ws) in E. fold (SHA256.words_value ws') in E.
  assert (w = w' /\ SHA256.words_value ws = SHA256.words_value ws') as [-> Ev] by lia.
  f_equal. apply IH; auto.
Qed.

(** Among the texts numbered [0 .. 2^256], two have the same digest. *)
Lemma digest_pigeonhole (text : nat -> string) :
  exists i1 i2 : nat,
    (i1 < i2)%nat /\ Z.of_nat i2 <= 2 ^ 256 /\
    SHA256.hexdigest (text i1) = SHA256.hexdigest (text i2).
Proof.
  set (words := fun k => SHA256.digest_words (SHA256.bytes_of_string (text k))).
  set (f := fun k => Z.to_nat (SHA256.words_value (words k))).
  remember (Z.to_nat (2 ^ 256)) as N eqn:HN.
  assert (Hf : forall i, (f i < N)%nat).
  { intros i. unfold f. destruct (digest_words_range (SHA256.bytes_of_string (text i))) as [L F].
    pose proof (words_value_range _ F) as R. rewrite L in R.
    change (4294967296 ^ Z.of_nat 8) with (2 ^ 256) in R. fold (words i) in R. lia. }
  destruct (stdpp.finite.nat_pigeonhole f (S N) N) as (i1 & i2 & Hi & E).
  - lia.
  - intros i _. apply Hf.
  - exists i1, i2. split; [lia|]. split; [lia|].
    unfold SHA256.hexdigest. fold (words i1). fold (words i2).
    replace (words i2) with (words i1); [reflexivity|].
    destruct (digest_words_range (SHA256.bytes_of_string (text i1))) as [L1 F1].
    destruct (digest_words_range (SHA256.bytes_of_string (text i2))) as [L2 F2].
    apply words_value_inj; [unfold words; congruence | exact F1 | exact F2 |].
    pose proof (words_value_range _ F1). pose proof (words_value_range _ F2).
    unfold f in E. apply Z2Nat.inj in E; [exact E | unfold words; lia ..].
Qed.

(** What [json.dumps] writes of a block whose ints it can write. *)
Lemma block_string_fits b :
  Py.fits (data b) = true -> Py.int_fits (index b) = true ->
  (forall n, nonce b = Some n -> Py.int_fits n = true) ->
  block_string b = Ok (Json.encode (VDict (block_items b))).
Proof.
  intros Fd Fi Fn. unfold block_string, Json.dumps.
  replace (Py.fits (VDict (block_items b))) with true; [reflexivity|].
  unfold block_items. cbn [Py.fits List.forallb List.app fst snd].
  rewrite Fi, Fd. cbn [andb].
  destruct (nonce b) as [n|]; cbn [List.forallb Py.fits snd]; [|reflexivity].
  rewrite (Fn n eq_refl). reflexivity.
Qed.

Lemma int_fits_256 k : 0 <= k <= 2 ^ 256 -> Py.int_fits k = true.
Proof.
  intros Hk. unfold Py.int_fits. apply Z.ltb_lt.
  assert (H : 2 ^ 256 < Py.int_limit) by (vm_compute; reflexivity).
  lia.
Qed.

(** Two nonces of at most [2^256] give a block the same digest. *)
Lemma nonce_collision c :
  Py.fits (data c) = true -> Py.int_fits (index c) = true ->
  exists n n' h,
    0 <= n < n' /\ n' <= 2 ^ 256 /\
    block_digest (with_nonce c n) = Ok h /\ block_digest (with_nonce c n') = Ok h.
Proof.
  intros Fd Fi.
  destruct (digest_pigeonhole
              (fun k => Json.encode (VDict (block_items (with_nonce c (Z.of_nat k))))))
    as (i1 & i2 & Hlt & Hle & E).
  assert (Hs : forall k, 0 <= k <= 2 ^ 256 ->
                 block_string (with_nonce c k)
                 = Ok (Json.encode (VDict (block_items (with_nonce c k))))).
  { intros k Hk. apply block_string_fits; cbn [with_nonce data index nonce]; auto.
    intros n Hn. injection Hn as <-. apply int_fits_256. exact Hk. }
  exists (Z.of_nat i1), (Z.of_nat i2),
         (SHA256.hexdigest (Json.encode (VDict (block_items (with_nonce c (Z.of_nat i1)))))).
  split; [lia|]. split; [exact Hle|].
  cbv beta in E.
  split; apply block_digest_ok; eexists; (split; [apply Hs; lia|]);
    [reflexivity | exact E].
Qed.

(** A chain that validates, and a change of the nonce of its second block
    that the validation accepts. *)
Lemma nonce_change_undetected :
  exists chain i b b',
    _validate_blockchain_integrity chain = true /\
    (0 < i)%nat /\ chain !! i = Some b /\
    mutates_field b b' /\ shows b b' /\
    _validate_blockchain_integrity (<[i:=b']> chain) = true.
Proof.
  destruct (nonce_collision LedgerExample.block1 eq_refl eq_refl)
    as (n & n' & h & Hn & Hn' & D & D').
  set (b := with_hash (with_nonce LedgerExample.block1 n) h).
  set (b' := mkBlock (index b) (timestamp b) (data b) (previous_hash b) (Some n') (hash b)).
  assert (V : forall x, previous_hash x = Ledger.genesis_hash ->
                        block_digest x = Ok (hash x) ->
                        _validate_blockchain_integrity [LedgerExample.genesis; x] = true).
  { intros x L Dx. apply validate_pointwise. intros i cur prev Hi Hc Hp.
    destruct i as [|[|i]]; [lia| |discriminate Hc].
    cbn in Hc, Hp. injection Hc as <-. injection Hp as <-. split; [exact L | exact Dx]. }
  exists [LedgerExample.genesis; b], 1%nat, b, b'.
  split; [apply V; [reflexivity | exact D]|].
  split; [lia|]. split; [reflexivity|].
  split; [apply (mutate_nonce b); cbn [b nonce with_hash with_nonce]; intros E; injection E; lia|].
  split; [split; intros _; reflexivity|].
  apply (V b'); [reflexivity | exact D'].
Qed.

(** *** The claims about the ledger *)

(** C1 (as amended).  [_validate_blockchain_integrity] returns [true] on a
    chain of 0 or 1 blocks; it returns [true] exactly when, for every block
    at an index [i > 0], [previous_hash] is the hash of the block before it,
    [json.dumps] can write the block, and the stored hash is the SHA-256 of
    that sorted-key serialization without the hash.  On a chain that
    validates, at an index [i > 0]:
    - a change of one field that shows in what [json.dumps] writes (for
      [data] and [timestamp]: the new value is not written as the old one)
      makes the validation return [false], unless the two different
      serializations have the same SHA-256 digest;
    - a change of the stored hash, or of [previous_hash], always makes it
      return [false];
    - a change that keeps the serialization, the hash and the link (a
      payload with its keys in another order) is accepted;
    and some chain that validates has a block whose nonce can be changed
    with the validation still returning [true], the two serializations
    having one digest.  Changing the hash of the genesis block of a chain of
    at least two blocks makes the validation return [false]; any change of
    the genesis block that keeps its hash is accepted, since index 0 is
    never re-hashed. *)
Theorem validate_integrity_tamper_detection :
  (forall chain, (List.length chain <= 1)%nat ->
                 _validate_blockchain_integrity chain = true) /\
  (forall chain,
      _validate_blockchain_integrity chain = true <->
      forall i cur prev,
        (0 < i)%nat -> chain !! i = Some cur -> chain !! (i - 1)%nat = Some prev ->
        previous_hash cur = hash prev /\
        exists s, block_string cur = Ok s /\ hash cur = SHA256.hexdigest s) /\
  (forall chain i b b',
      _validate_blockchain_integrity chain = true ->
      (0 < i)%nat -> chain !! i = Some b -> mutates_field b b' -> shows b b' ->
      _validate_blockchain_integrity (<[i:=b']> chain) = false \/ collide b b') /\
  (forall chain i b b',
      _validate_blockchain_integrity chain = true ->
      (0 < i)%nat -> chain !! i = Some b -> mutates_field b b' ->
      hash b' <> hash b \/ previous_hash b' <> previous_hash b ->
      _validate_blockchain_integrity (<[i:=b']> chain) = false) /\
  (forall chain i b b',
      _validate_blockchain_integrity chain = true ->
      (0 < i)%nat -> chain !! i = Some b ->
      hash b' = hash b -> previous_hash b' = previous_hash b ->
      block_string b' = block_string b ->
      _validate_blockchain_integrity (<[i:=b']> chain) = true) /\
  (exists chain i b b',
      _validate_blockchain_integrity chain = true /\
      (0 < i)%nat /\ chain !! i = Some b /\ mutates_field b b' /\ shows b b' /\
      _validate_blockchain_integrity (<[i:=b']> chain) = true) /\
  (forall chain g h',
      _validate_blockchain_integrity chain = true ->
      (2 <= List.length chain)%nat -> chain !! 0%nat = Some g -> h' <> hash g ->
      _validate_blockchain_integrity (<[0%nat:=with_hash g h']> chain) = false) /\
  (forall chain g g',
      _validate_blockchain_integrity chain = true ->
      chain !! 0%nat = Some g -> hash g' = hash g ->
      _validate_blockchain_integrity (<[0%nat:=g']> chain) = true).
Proof.
  split; [|split; [|split; [|split; [|split; [|split; [|split]]]]]].
  - intros chain Hlen. unfold _validate_blockchain_integrity.
    destruct (Nat.leb_spec (List.length chain) 1); [reflexivity | lia].
  - intros chain. rewrite validate_pointwise.
    split; intros H i cur prev Hi Hc Hp; destruct (H i cur prev Hi Hc Hp) as [L D];
      (split; [exact L|]); apply block_digest_ok; exact D.
  - exact tampered_block_rejected.
  - exact relinked_block_rejected.
  - exact hidden_change_accepted.
  - exact nonce_change_undetected.
  - exact tampered_genesis_hash_rejected.
  - exact tampered_genesis_accepted.
Qed.

(** The rewritten score of [block1] is detected on the three-block ledger:
    the two serializations do not have the same digest. *)
Lemma validate_integrity_tamper_witness :
  _validate_blockchain_integrity LedgerExample.chain3 = true /\
  _validate_blockchain_integrity
    (<[1%nat:=LedgerExample.forged_block1]> LedgerExample.chain3) = false.
Proof.
  split; [vm_compute; reflexivity|].
  destruct (proj1 (proj2 (proj2 validate_integrity_tamper_detection))
                  LedgerExample.chain3 1%nat LedgerExample.block1
                  LedgerExample.forged_block1) as [H|H].
  - vm_compute; reflexivity.
  - lia.
  - reflexivity.
  - apply (mutate_data LedgerExample.block1). discriminate.
  - split; [|intros _; reflexivity].
    intros E. vm_compute in E. discriminate E.
  - exact H.
  - destruct H as (s & s' & Hs & Hs' & _ & E).
    vm_compute in Hs. injection Hs as <-.
    vm_compute in Hs'. injection Hs' as <-.
    vm_compute in E. discriminate E.
Defined.

(** C1, as stated, fails: on the sealed ledger [chain3], which validates,
    the [data] of the genesis block is rewritten and the validation still
    returns [true]. *)
Lemma genesis_mutation_undetected :
  ~ (forall chain,
        reachable chain -> _validate_blockchain_integrity chain = true ->
        forall i b b',
          chain !! i = Some b -> mutates_field b b' ->
          _validate_blockchain_integrity (<[i:=b']> chain) = false).
Proof.
  intros H.
  specialize (H LedgerExample.chain3 reachable_chain3 (reachable_valid _ reachable_chain3)
                0%nat LedgerExample.genesis LedgerExample.forged_genesis eq_refl).
  assert (Hm : mutates_field LedgerExample.genesis LedgerExample.forged_genesis)
    by (apply (mutate_data LedgerExample.genesis); discriminate).
  specialize (H Hm). vm_compute in H. discriminate H.
Qed.




(** C3 (as amended).  [_add_block_to_simple_chain] takes the payload alone
    and its nonce search has no bound and no timeout outcome.  Whenever the
    least nonce whose digest has two leading zeros is [m], the call tries the
    nonces [0..m], however many they are, appends exactly one block, sealed
    with nonce [m], to the (seeded) chain and returns its block id; and as
    long as no nonce tried so far seals the block, the search goes on: the
    call has not returned, with a failure or otherwise.  The one other way
    out of the loop is the exception of [json.dumps] on a candidate it
    cannot write, which leaves the (seeded) chain as it is. *)
Theorem add_block_search_unbounded chain payload env prev :
  let chain1 := _initialize_simple_blockchain chain (env_genesis_now env)
                                              (env_genesis_utcnow env) in
  let cand := candidate chain1 payload (env_now env) prev in
  last chain1 = Some prev ->
  (forall (m fuel : nat) h,
      (forall k, 0 <= k < Z.of_nat m ->
                 exists h', block_digest (with_nonce cand k) = Ok h' /\
                            String.prefix target h' = false) ->
      block_digest (with_nonce cand (Z.of_nat m)) = Ok h ->
      String.prefix target h = true ->
      (m < fuel)%nat ->
      _add_block_to_simple_chain fuel chain payload env
      = Some ((chain1 ++ [ with_hash (with_nonce cand (Z.of_nat m)) h ])%list,
              Ok (block_id (Z.of_nat (List.length chain1)) (env_now env)))) /\
  (forall (fuel : nat),
      (forall k, 0 <= k < Z.of_nat fuel ->
                 exists h', block_digest (with_nonce cand k) = Ok h' /\
                            String.prefix target h' = false) ->
      _add_block_to_simple_chain fuel chain payload env = None) /\
  (forall (m fuel : nat) e,
      (forall k, 0 <= k < Z.of_nat m ->
                 exists h', block_digest (with_nonce cand k) = Ok h' /\
                            String.prefix target h' = false) ->
      block_digest (with_nonce cand (Z.of_nat m)) = Raise e ->
      (m < fuel)%nat ->
      _add_block_to_simple_chain fuel chain payload env = Some (chain1, Raise e)).
Proof.
  intros chain1 cand Hl. split; [|split].
  - intros m fuel h Hmiss Hd Hhit Hfuel.
    unfold _add_block_to_simple_chain. fold chain1. rewrite Hl.
    change (mkBlock (Z.of_nat (List.length chain1)) (env_now env) payload (hash prev)
                    (Some 0) "") with cand.
    rewrite (mine_complete m fuel cand 0 h); [reflexivity | | exact Hd | exact Hhit | exact Hfuel].
    intros k Hk. apply Hmiss. lia.
  - intros fuel Hmiss.
    unfold _add_block_to_simple_chain. fold chain1. rewrite Hl.
    change (mkBlock (Z.of_nat (List.length chain1)) (env_now env) payload (hash prev)
                    (Some 0) "") with cand.
    rewrite (mine_running fuel cand 0); [reflexivity|].
    intros k Hk. apply Hmiss. lia.
  - intros m fuel e Hmiss Hd Hfuel.
    unfold _add_block_to_simple_chain. fold chain1. rewrite Hl.
    change (mkBlock (Z.of_nat (List.length chain1)) (env_now env) payload (hash prev)
                    (Some 0) "") with cand.
    rewrite (mine_raise_complete m fuel cand 0 e); [reflexivity | | exact Hd | exact Hfuel].
    intros k Hk. apply Hmiss. lia.
Qed.

Lemma add_block_search_unbounded_witness :
  _add_block_to_simple_chain 7 LedgerExample.chain1
                             LedgerExample.verification_payload LedgerExample.env1
  = Some (LedgerExample.chain2, Ok "BLOCK_1_1700000002") /\
  _add_block_to_simple_chain 2 LedgerExample.chain1
                             LedgerExample.verification_payload LedgerExample.env1
  = None.
Proof.
  destruct (add_block_search_unbounded LedgerExample.chain1
              LedgerExample.verification_payload LedgerExample.env1
              LedgerExample.genesis eq_refl) as (Hfound & Hrunning & _).
  split.
  - rewrite (Hfound 2%nat 7%nat (hash LedgerExample.block1)).
    + vm_compute. reflexivity.
    + intros k Hk.
      assert (k = 0 \/ k = 1) as [->| ->] by lia; eexists; split;
        try (vm_compute; reflexivity).
    + vm_compute. reflexivity.
    + vm_compute. reflexivity.
    + lia.
  - apply Hrunning. intros k Hk.
    assert (k = 0 \/ k = 1) as [->| ->] by lia; eexists; split;
      try (vm_compute; reflexivity).
Defined.

(** C3, as stated, fails: no bound stops the search.  With a bound of two
    attempts exceeded (the first two nonces do not seal the block), the call
    still returns a block id and the chain has grown by one block. *)
Lemma add_block_has_no_timeout :
  ~ (forall (bound : nat) chain payload env prev,
        last chain = Some prev ->
        mine bound (candidate chain payload (env_now env) prev) 0 = None ->
        forall fuel chain' outcome,
          _add_block_to_simple_chain fuel chain payload env = Some (chain', outcome) ->
          chain' = chain).
Proof.
  intros H.
  specialize (H 2%nat LedgerExample.chain1 LedgerExample.verification_payload
                LedgerExample.env1 LedgerExample.genesis eq_refl).
  assert (Hb : mine 2 (candidate LedgerExample.chain1 LedgerExample.verification_payload
                                 (env_now LedgerExample.env1) LedgerExample.genesis) 0
               = None) by (vm_compute; reflexivity).
  specialize (H Hb 3%nat LedgerExample.chain2 (Ok "BLOCK_1_1700000002")).
  assert (Ha : _add_block_to_simple_chain 3 LedgerExample.chain1
                 LedgerExample.verification_payload LedgerExample.env1
               = Some (LedgerExample.chain2, Ok "BLOCK_1_1700000002"))
    by (vm_compute; reflexivity).
  specialize (H Ha). clear Ha Hb. vm_compute in H. discriminate H.
Qed.

End LedgerFacts.
(** ** The contract engine *)
Section EngineFacts.
Import Engine.

(** On a non-negative float, [int] is the floor. *)
Lemma trunc_is_floor f z :
  PrimFloat.leb 0%float f = true -> PyFloat.trunc f = Some z -> PyFloat.floor f = Some z.
Proof.
  rewrite leb_spec. unfold PyFloat.trunc, PyFloat.floor.
  change (Prim2SF 0%float) with (S754_zero false).
  destruct (Prim2SF f) as [s|s| |s m e]; try (intros _ H; exact H).
  destruct s; [intros H; discriminate H|]. intros _ H. exact H.
Qed.

(** The three ways a call of [execute] can go. *)
Lemma execute_cases self inputs context env :
  let execution_time := PrimFloat.sub (execution_end env) (execution_start env) in
  execute self inputs context env =
  match dispatch self inputs context env with
  | Raise e => (set_state FAILED self, Failure (contract_id self) e 50)
  | Ok result =>
      match _calculate_gas_usage self result execution_time with
      | Raise e => (set_state FAILED self, Failure (contract_id self) e 50)
      | Ok gas_used =>
          (executed self inputs result gas_used env,
           Success (contract_id self) (execution_id_of env (executed_count self + 1))
                   result gas_used execution_time)
      end
  end.
Proof.
  intros execution_time. unfold execute, execute_body, m_bind, m_update, m_self, m_lift, m_ret.
  change (dispatch (set_state ACTIVE self) inputs context env)
    with (dispatch self inputs context env).
  destruct (dispatch self inputs context env) as [result|e]; [|reflexivity].
  change (_calculate_gas_usage (set_state ACTIVE self) result
            (PrimFloat.sub (execution_end env) (execution_start env)))
    with (_calculate_gas_usage self result execution_time).
  destruct (_calculate_gas_usage self result execution_time) as [gas_used|e];
    reflexivity.
Qed.

Lemma gas_usage_cases self result execution_time :
  _calculate_gas_usage self result execution_time =
  match Py.str result with
  | Raise e => Raise e
  | Ok text =>
      match Py.int_of_float (PrimFloat.mul execution_time 50%float) with
      | Ok time_gas => Ok (100 + Z.of_nat (String.length text) / 10 + time_gas)
      | Raise e => Raise e
      end
  end.
Proof.
  unfold _calculate_gas_usage, res_bind.
  destruct (Py.str result); [|reflexivity].
  destruct (Py.int_of_float _); reflexivity.
Qed.

Lemma int_of_float_trunc f z : Py.int_of_float f = Ok z <-> PyFloat.trunc f = Some z.
Proof.
  unfold Py.int_of_float. destruct (PyFloat.trunc f) as [z'|].
  - split; intros H; injection H as <-; reflexivity.
  - split; [destruct (PrimFloat.is_nan f)|]; discriminate.
Qed.

(** No evaluator reads [self]. *)
Lemma dispatch_by_type c1 c2 inputs context env :
  contract_type c1 = contract_type c2 ->
  dispatch c1 inputs context env = dispatch c2 inputs context env.
Proof. unfold dispatch. intros ->. destruct (contract_type c2); reflexivity. Qed.

(** C7 (as amended).  [execute] never raises: whatever the inputs and the
    context, it returns one of two dicts.  When the evaluator returns
    [result], [str(result)] can be written and [int(execution_time * 50)]
    exists, it sets the state to [EXECUTED], increments [executed_count],
    adds to [total_gas_used] the gas
    [100 + len(str(result)) // 10 + int(execution_time * 50)], appends the
    execution record, and returns the success dict with [contract_id],
    [execution_id], [result], [gas_used] and [execution_time].  The [int]
    truncates toward zero: it is the floor when the elapsed time is not
    negative, and not otherwise in general.  When the evaluator raises [e],
    the state becomes [FAILED] and the failure dict carries [contract_id],
    [e] and [gas_used = 50]; the same holds when [str(result)] or the [int]
    of the gas computation raises. *)
Theorem execute_never_raises self inputs context env :
  let execution_time := PrimFloat.sub (execution_end env) (execution_start env) in
  let time_cost := PrimFloat.mul execution_time 50%float in
  (forall result text time_gas,
      dispatch self inputs context env = Ok result ->
      Py.str result = Ok text ->
      Py.int_of_float time_cost = Ok time_gas ->
      let gas_used := 100 + Z.of_nat (String.length text) / 10 + time_gas in
      let execution_id :=
        "EXEC_" ++ Py.decimal (int_of_clock (record_time env)) ++ "_"
                ++ Py.decimal (executed_count self + 1) in
      let self' := fst (execute self inputs context env) in
      snd (execute self inputs context env)
      = Success (contract_id self) execution_id result gas_used execution_time /\
      state self' = EXECUTED /\
      executed_count self' = executed_count self + 1 /\
      total_gas_used self' = total_gas_used self + gas_used /\
      execution_history self'
      = List.app (execution_history self)
                 [ mkExecutionRecord execution_id inputs result gas_used execution_time
                                     (record_utcnow env) ] /\
      PyFloat.trunc time_cost = Some time_gas /\
      (PrimFloat.leb 0%float time_cost = true -> PyFloat.floor time_cost = Some time_gas)) /\
  (forall e,
      dispatch self inputs context env = Raise e ->
      execute self inputs context env
      = (set_state FAILED self, Failure (contract_id self) e 50)) /\
  (forall result e,
      dispatch self inputs context env = Ok result ->
      Py.str result = Raise e ->
      execute self inputs context env
      = (set_state FAILED self, Failure (contract_id self) e 50)) /\
  (forall result text e,
      dispatch self inputs context env = Ok result ->
      Py.str result = Ok text ->
      Py.int_of_float time_cost = Raise e ->
      execute self inputs context env
      = (set_state FAILED self, Failure (contract_id self) e 50)).
Proof.
  intros execution_time time_cost. split; [|split; [|split]].
  - intros result text time_gas Hd Hs Hg gas_used execution_id self'.
    subst self'. rewrite execute_cases, Hd, gas_usage_cases, Hs.
    fold execution_time. fold time_cost. rewrite Hg.
    apply int_of_float_trunc in Hg.
    cbn [fst snd executed state executed_count total_gas_used execution_history].
    repeat split; [exact Hg|].
    intros Hpos. apply trunc_is_floor; [exact Hpos | exact Hg].
  - intros e Hd. rewrite execute_cases, Hd. reflexivity.
  - intros result e Hd Hs. rewrite execute_cases, Hd, gas_usage_cases, Hs. reflexivity.
  - intros result text e Hd Hs Hg. rewrite execute_cases, Hd, gas_usage_cases, Hs.
    fold execution_time. fold time_cost. rewrite Hg. reflexivity.
Qed.

(** Score 15 and confidence 85 on the default detector, a quarter of a
    second on the clock: gas 100 + 352 // 10 + 12 = 147. *)
Lemma execute_never_raises_witness :
  snd (execute EngineExample.detector EngineExample.critical_inputs
               EngineExample.empty_history EngineExample.env)
  = Success "SC_greenwashing_detector_1700000000" "EXEC_1700000100_1"
            EngineExample.critical_result 147 0.25%float /\
  executed_count (fst (execute EngineExample.detector EngineExample.critical_inputs
                               EngineExample.empty_history EngineExample.env)) = 1 /\
  PyFloat.floor (PrimFloat.mul 0.25%float 50%float) = Some 12.
Proof.
  destruct (execute_never_raises EngineExample.detector EngineExample.critical_inputs
              EngineExample.empty_history EngineExample.env) as [Hok _].
  destruct (Hok EngineExample.critical_result
                (Py.repr_text EngineExample.critical_result) 12)
    as (Hr & _ & Hc & _ & _ & _ & Hf).
  - vm_compute. reflexivity.
  - vm_compute. reflexivity.
  - vm_compute. reflexivity.
  - split; [|split].
    + rewrite Hr. vm_compute. reflexivity.
    + rewrite Hc. reflexivity.
    + apply Hf. vm_compute. reflexivity.
Defined.

(** C7, as stated, fails: the gas is computed with [int], not with the
    floor.  With the clock set back by a hundredth of a second during the
    evaluation, [execution_time * 50] is about -0.5: the call succeeds and
    charges 100 + 352 // 10 + 0 = 135, where the floor gives 134. *)
Lemma gas_truncates_toward_zero :
  ~ (forall self inputs context env cid eid result gas_used execution_time,
        snd (execute self inputs context env)
        = Success cid eid result gas_used execution_time ->
        exists text time_gas,
          Py.str result = Ok text /\
          PyFloat.floor (PrimFloat.mul execution_time 50%float) = Some time_gas /\
          gas_used = 100 + Z.of_nat (String.length text) / 10 + time_gas).
Proof.
  intros H.
  destruct (H EngineExample.detector EngineExample.critical_inputs
              EngineExample.empty_history EngineExample.backward_env
              "SC_greenwashing_detector_1700000000" "EXEC_1700000100_1"
              EngineExample.critical_result 135
              (PrimFloat.sub 1700000100.24%float 1700000100.25%float))
    as (text & time_gas & Hs & Hf & Hg).
  - vm_compute. reflexivity.
  - vm_compute in Hs. injection Hs as <-.
    vm_compute in Hf. injection Hf as <-.
    vm_compute in Hg. discriminate Hg.
Qed.

(** C9.  A call of [execute] that returns the failure dict leaves
    [executed_count], [total_gas_used] and [execution_history] as they were:
    the contract differs from the one before the call in its state alone,
    which is [FAILED]. *)
Theorem failed_execute_keeps_counters self inputs context env self' cid e gas :
  execute self inputs context env = (self', Failure cid e gas) ->
  executed_count self' = executed_count self /\
  total_gas_used self' = total_gas_used self /\
  execution_history self' = execution_history self /\
  state self' = FAILED /\
  self' = set_state FAILED self /\
  cid = contract_id self /\ gas = 50.
Proof.
  rewrite execute_cases.
  destruct (dispatch self inputs context env) as [result|e'].
  - destruct (_calculate_gas_usage self result _) as [gas_used|e''];
      intros H; inversion H; subst; repeat split.
  - intros H; inversion H; subst; repeat split.
Qed.

Lemma failed_execute_keeps_counters_witness :
  executed_count (fst (execute EngineExample.detector EngineExample.bad_inputs
                               (VDict []) EngineExample.env)) = 0 /\
  execution_history (fst (execute EngineExample.detector EngineExample.bad_inputs
                                  (VDict []) EngineExample.env)) = [].
Proof.
  destruct (failed_execute_keeps_counters
              EngineExample.detector EngineExample.bad_inputs (VDict []) EngineExample.env
              (set_state FAILED EngineExample.detector) "SC_greenwashing_detector_1700000000"
              TypeError 50)
    as (Hc & _ & Hh & _ & Hs & _).
  - vm_compute. reflexivity.
  - split; vm_compute; reflexivity.
Defined.

(** C10.  The result of an execution does not depend on the deployment
    parameters: two contracts of the same type, whatever their [parameters]
    (and their other fields), evaluate the same inputs and context to the
    same result, or fail alike. *)
Theorem result_ignores_parameters c1 c2 inputs context env :
  contract_type c1 = contract_type c2 ->
  dispatch c1 inputs context env = dispatch c2 inputs context env /\
  response_result (snd (execute c1 inputs context env))
  = response_result (snd (execute c2 inputs context env)).
Proof.
  intros Ht. pose proof (dispatch_by_type c1 c2 inputs context env Ht) as Hd.
  split; [exact Hd|].
  rewrite !execute_cases, Hd.
  destruct (dispatch c2 inputs context env) as [result|e]; [|reflexivity].
  change (_calculate_gas_usage c1 result) with (_calculate_gas_usage c2 result).
  destruct (_calculate_gas_usage c2 result _); reflexivity.
Qed.

Lemma result_ignores_parameters_witness :
  response_result (snd (execute EngineExample.penalty EngineExample.penalty_inputs
                                (VDict []) EngineExample.env))
  = response_result (snd (execute EngineExample.penalty_capped EngineExample.penalty_inputs
                                  (VDict []) EngineExample.env)).
Proof.
  apply (result_ignores_parameters EngineExample.penalty EngineExample.penalty_capped).
  reflexivity.
Defined.

End EngineFacts.

(** ** GreenwashingDetector *)
Section GreenwashingFacts.
Import Engine GreenwashingSpec.

Lemma filter_res_violations items :
  well_formed items ->
  Py.filter_res
    (fun h => let* s := Py.get h "verification_score" (VInt 100) in Py.lt_int s 40) items
  = Ok (List.filter is_violation items).
Proof.
  induction 1 as [|h items Hh _ IH]; [reflexivity|].
  simpl Py.filter_res. rewrite IH. clear IH.
  unfold is_violation, entry_score in *. simpl List.filter.
  destruct h as [| | | | |l|d]; try congruence.
  unfold Py.get. unfold entry_score in Hh. cbn [res_bind].
  destruct (Py.lookup d "verification_score") as [v|].
  - unfold Py.lt_int. destruct (Py.as_num v) as [s|]; [|congruence].
    cbn [res_bind]. destruct (Py.num_lt_int s 40); reflexivity.
  - reflexivity.
Qed.

Lemma well_formed_last_n n history : well_formed history -> well_formed (Py.last_n n history).
Proof.
  unfold well_formed, Py.last_n. intros H.
  apply List.Forall_forall. intros h Hin.
  rewrite List.Forall_forall in H. apply H.
  rewrite <- (firstn_skipn (List.length history - n) history).
  apply in_or_app. right. exact Hin.
Qed.

Lemma lt_int_num v a n : Py.as_num v = Some a -> Py.lt_int v n = Ok (Py.num_lt_int a n).
Proof. unfold Py.lt_int. intros ->. reflexivity. Qed.

Lemma gt_int_num v a n : Py.as_num v = Some a -> Py.gt_int v n = Ok (Py.num_gt_int a n).
Proof. unfold Py.gt_int. intros ->. reflexivity. Qed.

(** The evaluator on well-typed inputs: numbers for the score and the
    confidence, a list of well-formed entries for the history. *)
Lemma greenwashing_result self inputs context name text sv cv score confidence history :
  Py.get inputs "company_name" (VStr "Unknown") = Ok name ->
  Py.str name = Ok text ->
  Py.get inputs "verification_score" (VInt 0) = Ok sv -> Py.as_num sv = Some score ->
  Py.get inputs "confidence" (VInt 0) = Ok cv -> Py.as_num cv = Some confidence ->
  Py.get context "company_history" (VList []) = Ok (VList history) ->
  well_formed history ->
  _greenwashing_detector_contract self inputs context
  = Ok (expected_result name text score confidence history).
Proof.
  intros Hn Ht Hs Hsn Hc Hcn Hh Hwf.
  pose proof (filter_res_violations _ (well_formed_last_n 5 _ Hwf)) as Hf.
  unfold _greenwashing_detector_contract.
  rewrite Hn, Hs, Hc. cbn [res_bind].
  rewrite !(lt_int_num sv score) by exact Hsn.
  rewrite !(gt_int_num cv confidence) by exact Hcn.
  rewrite Ht.
  unfold and_then, expected_result, repeat_offender, two_recent_violations,
    tier_of, risk_label.
  destruct (Py.num_lt_int score 20); destruct (Py.num_gt_int confidence 80);
    destruct (Py.num_lt_int score 40); destruct (Py.num_gt_int confidence 60);
    destruct (Py.num_lt_int score 60); destruct (Py.num_lt_int score 30);
    cbn [res_bind andb]; rewrite Hh; cbn [res_bind Py.len Py.slice_last];
    (destruct (2 <? Z.of_nat (List.length history)); cbn [res_bind andb];
     [ rewrite Hf; cbn [res_bind];
       destruct (2 <=? Z.of_nat (List.length (List.filter is_violation
                                                          (Py.last_n 5 history))))
     | ]; reflexivity).
Qed.

(** The alert is an f-string on the company name: a name that [str] cannot
    write makes the evaluator raise, whatever the tier. *)
Lemma greenwashing_unwritable_name self inputs context name e sv cv score confidence :
  Py.get inputs "company_name" (VStr "Unknown") = Ok name ->
  Py.str name = Raise e ->
  Py.get inputs "verification_score" (VInt 0) = Ok sv -> Py.as_num sv = Some score ->
  Py.get inputs "confidence" (VInt 0) = Ok cv -> Py.as_num cv = Some confidence ->
  _greenwashing_detector_contract self inputs context = Raise e.
Proof.
  intros Hn Ht Hs Hsn Hc Hcn.
  unfold _greenwashing_detector_contract.
  rewrite Hn, Hs, Hc. cbn [res_bind].
  rewrite !(lt_int_num sv score) by exact Hsn.
  rewrite !(gt_int_num cv confidence) by exact Hcn.
  rewrite Ht. unfold and_then.
  destruct (Py.num_lt_int score 20); destruct (Py.num_gt_int confidence 80);
    destruct (Py.num_lt_int score 40); destruct (Py.num_gt_int confidence 60);
    destruct (Py.num_lt_int score 60); reflexivity.
Qed.

(** A company name of 4301 digits: the evaluator raises. *)
Example unwritable_name_raises :
  _greenwashing_detector_contract
    EngineExample.detector
    (VDict [ ("company_name", VInt Py.int_limit);
             ("verification_score", VInt 15); ("confidence", VInt 85) ])
    EngineExample.empty_history
  = Raise ValueError.
Proof. vm_compute. reflexivity. Qed.

(** C4 (as amended).  On a numeric score and confidence, a well-formed
    history and a company name that [str] can write: if score < 20 and confidence > 80 the actions are
    IMMEDIATE_FLAG, COMMUNITY_ALERT, REGULATORY_NOTIFICATION and the penalty
    is 100; else if score < 40 and confidence > 60, HIGH_RISK_FLAG,
    REQUIRE_EVIDENCE and 50; else if score < 60, MODERATE_RISK_FLAG,
    REQUEST_CLARIFICATION and 25; else APPROVED and 0 -- followed by
    REPEAT_OFFENDER_FLAG, and raised by 200, when the repeat-offender rule
    fires.  The risk label is CRITICAL, HIGH, MODERATE or LOW by the cutoffs
    20, 40, 60 on the score, and [requires_human_review] holds iff
    score < 30.  On a company name that [str] cannot write (an int of more
    than 4300 digits, or a list or dict that holds one) the alert cannot be
    formatted and the evaluator raises [ValueError] instead. *)
Theorem greenwashing_tiers self inputs context name sv cv score confidence history :
  Py.get inputs "company_name" (VStr "Unknown") = Ok name ->
  Py.get inputs "verification_score" (VInt 0) = Ok sv -> Py.as_num sv = Some score ->
  Py.get inputs "confidence" (VInt 0) = Ok cv -> Py.as_num cv = Some confidence ->
  Py.get context "company_history" (VList []) = Ok (VList history) ->
  well_formed history ->
  (forall text,
      Py.str name = Ok text ->
      exists result,
        _greenwashing_detector_contract self inputs context = Ok result /\
        field result "actions_triggered"
        = Some (strs (List.app (tier_actions (tier_of score confidence))
                               (if repeat_offender history
                                then [ "REPEAT_OFFENDER_FLAG" ] else []))) /\
        field result "penalty_points"
        = Some (VInt (tier_penalty (tier_of score confidence)
                      + (if repeat_offender history then 200 else 0))) /\
        field result "risk_assessment" = Some (VStr (risk_label score)) /\
        field result "requires_human_review" = Some (VBool (Py.num_lt_int score 30))) /\
  (forall e,
      Py.str name = Raise e ->
      e = ValueError /\
      _greenwashing_detector_contract self inputs context = Raise ValueError).
Proof.
  intros Hn Hs Hsn Hc Hcn Hh Hwf. split.
  - intros text Ht.
    exists (expected_result name text score confidence history).
    split; [eapply greenwashing_result; eauto|].
    repeat split.
  - intros e Ht.
    assert (e = ValueError) as ->.
    { unfold Py.str, Py.repr in Ht. destruct name; try discriminate Ht;
        destruct (Py.fits _); congruence. }
    split; [reflexivity|]. eapply greenwashing_unwritable_name; eauto.
Qed.

(** Score 15, confidence 85, empty history: penalty 100, the three actions
    of the first tier, risk CRITICAL. *)
Lemma greenwashing_tiers_witness :
  exists result,
    _greenwashing_detector_contract EngineExample.detector EngineExample.critical_inputs
                                    EngineExample.empty_history = Ok result /\
    field result "actions_triggered"
    = Some (strs [ "IMMEDIATE_FLAG"; "COMMUNITY_ALERT"; "REGULATORY_NOTIFICATION" ]) /\
    field result "penalty_points" = Some (VInt 100) /\
    field result "risk_assessment" = Some (VStr "CRITICAL") /\
    field result "requires_human_review" = Some (VBool true).
Proof.
  apply (proj1 (greenwashing_tiers EngineExample.detector EngineExample.critical_inputs
                  EngineExample.empty_history (VStr "Acme") (VInt 15) (VInt 85)
                  (Py.NInt 15) (Py.NInt 85) []
                  eq_refl eq_refl eq_refl eq_refl eq_refl eq_refl
                  (List.Forall_nil _)) "Acme").
  reflexivity.
Defined.

(** C4, as stated, fails when the repeat-offender rule fires: score 15 and
    confidence 85 with two violations among three history entries give four
    actions and 300 penalty points, not the three actions and 100. *)
Lemma greenwashing_tiers_without_history_fails :
  ~ (forall self inputs context sv cv score confidence result,
        Py.get inputs "verification_score" (VInt 0) = Ok sv -> Py.as_num sv = Some score ->
        Py.get inputs "confidence" (VInt 0) = Ok cv -> Py.as_num cv = Some confidence ->
        _greenwashing_detector_contract self inputs context = Ok result ->
        field result "actions_triggered"
        = Some (strs (tier_actions (tier_of score confidence))) /\
        field result "penalty_points"
        = Some (VInt (tier_penalty (tier_of score confidence)))).
Proof.
  intros H.
  assert (He : exists result,
             _greenwashing_detector_contract EngineExample.detector
               EngineExample.critical_inputs EngineExample.offender_history = Ok result /\
             field result "penalty_points" = Some (VInt 300)).
  { eexists. split; vm_compute; reflexivity. }
  destruct He as (result & He & Hp).
  destruct (H EngineExample.detector EngineExample.critical_inputs
              EngineExample.offender_history (VInt 15) (VInt 85) (Py.NInt 15) (Py.NInt 85)
              result eq_refl eq_refl eq_refl eq_refl He) as [_ Hp'].
  rewrite Hp in Hp'. vm_compute in Hp'. discriminate Hp'.
Qed.

(** C5 (as amended).  On well-typed inputs with a company name that [str]
    can write, when the history holds more than 2 entries and at least 2 of
    its last 5 entries have a [verification_score] below 40 (100 standing
    for a missing score), REPEAT_OFFENDER_FLAG is appended to the actions
    and 200 is added to the penalty; otherwise neither happens.  On a
    company name that [str] cannot write, the evaluator raises [ValueError]
    before it reads the history. *)
Theorem repeat_offender_rule self inputs context name sv cv score confidence history :
  Py.get inputs "company_name" (VStr "Unknown") = Ok name ->
  Py.get inputs "verification_score" (VInt 0) = Ok sv -> Py.as_num sv = Some score ->
  Py.get inputs "confidence" (VInt 0) = Ok cv -> Py.as_num cv = Some confidence ->
  Py.get context "company_history" (VList []) = Ok (VList history) ->
  well_formed history ->
  (forall text,
      Py.str name = Ok text ->
      exists result,
        _greenwashing_detector_contract self inputs context = Ok result /\
        ((2 < List.length history)%nat ->
         (2 <= List.length (List.filter is_violation (Py.last_n 5 history)))%nat ->
         field result "actions_triggered"
         = Some (strs (List.app (tier_actions (tier_of score confidence))
                                [ "REPEAT_OFFENDER_FLAG" ])) /\
         field result "penalty_points"
         = Some (VInt (tier_penalty (tier_of score confidence) + 200))) /\
        ((List.length history <= 2)%nat \/
         (List.length (List.filter is_violation (Py.last_n 5 history)) < 2)%nat ->
         field result "actions_triggered"
         = Some (strs (tier_actions (tier_of score confidence))) /\
         field result "penalty_points"
         = Some (VInt (tier_penalty (tier_of score confidence))))) /\
  (forall e,
      Py.str name = Raise e ->
      _greenwashing_detector_contract self inputs context = Raise e).
Proof.
  intros Hn Hs Hsn Hc Hcn Hh Hwf.
  split; [|intros e Ht; eapply greenwashing_unwritable_name; eauto].
  intros text Ht.
  exists (expected_result name text score confidence history).
  split; [eapply greenwashing_result; eauto|].
  unfold expected_result, repeat_offender, two_recent_violations, field. simpl Py.lookup.
  split.
  - intros Hlen Hviol.
    replace (2 <? Z.of_nat (List.length history)) with true
      by (symmetry; apply Z.ltb_lt; lia).
    replace (2 <=? Z.of_nat (List.length (List.filter is_violation (Py.last_n 5 history))))
      with true by (symmetry; apply Z.leb_le; lia).
    split; reflexivity.
  - intros [Hlen|Hviol].
    + replace (2 <? Z.of_nat (List.length history)) with false
        by (symmetry; apply Z.ltb_ge; lia).
      simpl. rewrite List.app_nil_r, Z.add_0_r. split; reflexivity.
    + replace (2 <=? Z.of_nat (List.length (List.filter is_violation
                                                        (Py.last_n 5 history))))
        with false by (symmetry; apply Z.leb_gt; lia).
      rewrite andb_false_r. rewrite List.app_nil_r, Z.add_0_r. split; reflexivity.
Qed.

(** Two violations among three entries: the flag and 300 points. *)
Lemma repeat_offender_rule_witness :
  exists result,
    _greenwashing_detector_contract EngineExample.detector EngineExample.critical_inputs
                                    EngineExample.offender_history = Ok result /\
    field result "actions_triggered"
    = Some (strs [ "IMMEDIATE_FLAG"; "COMMUNITY_ALERT"; "REGULATORY_NOTIFICATION";
                   "REPEAT_OFFENDER_FLAG" ]) /\
    field result "penalty_points" = Some (VInt 300).
Proof.
  destruct (repeat_offender_rule EngineExample.detector EngineExample.critical_inputs
              EngineExample.offender_history (VStr "Acme") (VInt 15) (VInt 85)
              (Py.NInt 15) (Py.NInt 85)
              [ EngineExample.low_entry; VDict [ ("verification_score", VInt 90) ];
                EngineExample.low_entry ]
              eq_refl eq_refl eq_refl eq_refl eq_refl eq_refl)
    as [Hok _].
  - repeat constructor; discriminate.
  - destruct (Hok "Acme" eq_refl) as (result & He & Hyes & _).
    exists result. split; [exact He|].
    apply Hyes; vm_compute; lia.
Defined.

(** C5, as stated, fails on a history of exactly two entries: both have a
    score below 40, yet no flag is raised and the penalty stays at 100. *)
Lemma two_entry_history_not_flagged :
  ~ (forall self inputs context history result,
        Py.get context "company_history" (VList []) = Ok (VList history) ->
        two_recent_violations history = true ->
        _greenwashing_detector_contract self inputs context = Ok result ->
        exists actions,
          field result "actions_triggered" = Some (VList actions) /\
          List.In (VStr "REPEAT_OFFENDER_FLAG") actions).
Proof.
  intros H.
  assert (He : exists result,
             _greenwashing_detector_contract EngineExample.detector
               EngineExample.critical_inputs EngineExample.short_history = Ok result /\
             field result "actions_triggered"
             = Some (strs [ "IMMEDIATE_FLAG"; "COMMUNITY_ALERT";
                            "REGULATORY_NOTIFICATION" ])).
  { eexists. split; vm_compute; reflexivity. }
  destruct He as (result & He & Ha).
  destruct (H EngineExample.detector EngineExample.critical_inputs
              EngineExample.short_history
              [ EngineExample.low_entry; EngineExample.low_entry ] result
              eq_refl eq_refl He) as (actions & Ha' & Hin).
  rewrite Ha in Ha'. inversion Ha'; subst actions.
  simpl in Hin. intuition discriminate.
Qed.

End GreenwashingFacts.

(** ** PenaltySystem *)
Section PenaltyFacts.
Import Engine PenaltySpec.

(** C6 (as amended).  For a severity among LOW, MEDIUM, HIGH, CRITICAL, any
    [repeat_offender] value (read by its truth) and an impact scale among
    LOCAL, REGIONAL, NATIONAL, GLOBAL: [penalty_points] is the base value
    10, 50, 200 or 500, doubled for a repeat offender, times the multiplier
    1.0, 1.5, 2.0 or 3.0, truncated to an integer; [consequences] is the
    fixed list of the highest threshold reached among 1000, 500, 200, 50,
    and the empty list when the points are below 50;
    [rehabilitation_required] iff the points are at least 200 and
    [appeal_allowed] iff they are below 1000. *)
Theorem penalty_system_rules self inputs context review name sev rv sc :
  Py.get inputs "company_name" (VStr "Unknown") = Ok name ->
  Py.get inputs "violation_severity" (VStr "LOW") = Ok (VStr (severity_name sev)) ->
  Py.get inputs "repeat_offender" (VBool false) = Ok rv ->
  Py.get inputs "impact_scale" (VStr "LOCAL") = Ok (VStr (scale_name sc)) ->
  let points := penalty_points sev (Py.truth rv) sc in
  _penalty_system_contract self inputs context review
  = Ok (VDict
          [ ("contract_type", VStr "penalty_system");
            ("company_name", name);
            ("penalty_points", VInt points);
            ("consequences", strs (consequences points));
            ("rehabilitation_required", VBool (200 <=? points));
            ("appeal_allowed", VBool (points <? 1000));
            ("review_date", VStr review) ]).
Proof.
  intros Hn Hs Hr Hi points. subst points.
  unfold _penalty_system_contract. rewrite Hn, Hs, Hr, Hi. cbn [res_bind].
  destruct sev, sc, (Py.truth rv); vm_compute; reflexivity.
Qed.

(** HIGH, repeat offender, GLOBAL: 200 * 2 * 3 = 1200 points and the
    platform ban. *)
Lemma penalty_system_rules_witness :
  _penalty_system_contract EngineExample.penalty EngineExample.penalty_inputs (VDict [])
                           "2023-12-14T22:15:00.250000"
  = Ok (VDict
          [ ("contract_type", VStr "penalty_system");
            ("company_name", VStr "Unknown");
            ("penalty_points", VInt 1200);
            ("consequences",
             strs [ "PLATFORM_BAN"; "REGULATORY_REFERRAL"; "PUBLIC_WARNING_ISSUED" ]);
            ("rehabilitation_required", VBool true);
            ("appeal_allowed", VBool false);
            ("review_date", VStr "2023-12-14T22:15:00.250000") ]).
Proof.
  exact (penalty_system_rules EngineExample.penalty EngineExample.penalty_inputs (VDict [])
           "2023-12-14T22:15:00.250000" (VStr "Unknown") HIGH (VBool true) GLOBAL
           eq_refl eq_refl eq_refl eq_refl).
Defined.

(** C6, as stated, fails below 50 points: LOW, not a repeat offender, LOCAL
    gives 10 points and no consequence at all, the list of no tier. *)
Lemma minor_penalty_has_no_consequence :
  ~ (forall self inputs context review result,
        _penalty_system_contract self inputs context review = Ok result ->
        exists t, GreenwashingSpec.field result "consequences" = Some (strs (tier_list t))).
Proof.
  intros H.
  assert (He : exists result,
             _penalty_system_contract EngineExample.penalty EngineExample.minor_inputs
                                      (VDict []) "" = Ok result /\
             GreenwashingSpec.field result "consequences" = Some (VList []) /\
             GreenwashingSpec.field result "penalty_points" = Some (VInt 10)).
  { eexists. repeat split; vm_compute; reflexivity. }
  destruct He as (result & He & Hc & _).
  destruct (H _ _ _ _ _ He) as (t & Ht).
  rewrite Hc in Ht. destruct t; discriminate Ht.
Qed.

End PenaltyFacts.

(** ** The registry *)
Section RegistryFacts.
Import Registry.

Lemma sum_over_insert_fresh f (m : gmap string GreenGuardSmartContract) cid c :
  m !! cid = None -> sum_over f (<[cid:=c]> m) = f c + sum_over f m.
Proof.
  intros H. unfold sum_over.
  rewrite (map_fold_insert_L (fun _ c0 acc => f c0 + acc) 0 cid c m); [reflexivity| |exact H].
  intros. lia.
Qed.

Lemma sum_over_delete f (m : gmap string GreenGuardSmartContract) cid c :
  m !! cid = Some c -> sum_over f m = f c + sum_over f (delete cid m).
Proof.
  intros H. unfold sum_over.
  rewrite (map_fold_delete_L (fun _ c0 acc => f c0 + acc) 0 cid c m); [reflexivity| |exact H].
  intros. lia.
Qed.

Lemma sum_over_insert_existing f (m : gmap string GreenGuardSmartContract) cid c c' :
  m !! cid = Some c -> sum_over f (<[cid:=c']> m) = sum_over f m - f c + f c'.
Proof.
  intros H. rewrite <- (insert_delete_eq m cid c').
  rewrite sum_over_insert_fresh by apply lookup_delete_eq.
  rewrite (sum_over_delete f m cid c H). lia.
Qed.

Lemma sum_by_key_permutation (g : string -> Z) (l1 l2 : list string) :
  l1 ≡ₚ l2 ->
  List.fold_right (fun k acc => g k + acc) 0 l1
  = List.fold_right (fun k acc => g k + acc) 0 l2.
Proof.
  induction 1 as [|k l1 l2 _ IH|k k' l|l1 l2 l3 _ IH1 _ IH2]; simpl; lia.
Qed.

Lemma sum_by_key_ext (g g' : string -> Z) (l : list string) :
  (forall k, List.In k l -> g k = g' k) ->
  List.fold_right (fun k acc => g k + acc) 0 l
  = List.fold_right (fun k acc => g' k + acc) 0 l.
Proof.
  induction l as [|k l IH]; intros H; simpl; [reflexivity|].
  rewrite (H k) by (left; reflexivity).
  rewrite IH by (intros k' Hk'; apply H; right; exact Hk'). reflexivity.
Qed.

(** The sum the statistics compute is the sum, over the contract ids in
    use, of the count of the contract stored under the id. *)
Lemma sum_over_by_id (self : SmartContractBlockchain) :
  sum_over executed_count (contracts self) = executions_by_id self.
Proof.
  unfold executions_by_id, executions_of.
  destruct self as [m registry]. simpl contracts. clear registry.
  induction m as [|cid c m Hfresh IH] using map_ind.
  - unfold sum_over. rewrite map_fold_empty, dom_empty_L, elements_empty. reflexivity.
  - rewrite sum_over_insert_fresh by exact Hfresh. rewrite IH. clear IH.
    assert (Hperm : elements (dom (<[cid:=c]> m)) ≡ₚ cid :: elements (dom m)).
    { rewrite dom_insert_L. apply elements_union_singleton.
      rewrite not_elem_of_dom. exact Hfresh. }
    rewrite (sum_by_key_permutation _ _ _ Hperm). simpl.
    rewrite lookup_insert_eq. f_equal.
    apply sum_by_key_ext. intros k Hin.
    rewrite lookup_insert_ne; [reflexivity|].
    intros ->. apply list_elem_of_In, elem_of_elements, elem_of_dom in Hin.
    rewrite Hfresh in Hin. destruct Hin; discriminate.
Qed.

(** An execution never lowers the count of its contract. *)
Lemma execute_count_grows c inputs context env :
  executed_count c <= executed_count (fst (Engine.execute c inputs context env)).
Proof.
  rewrite execute_cases. cbv zeta.
  destruct (Engine.dispatch c inputs context env) as [result|e]; [|simpl; lia].
  destruct (Engine._calculate_gas_usage c result _); simpl; lia.
Qed.

Lemma execute_contract_grows self cid inputs context env :
  sum_over executed_count (contracts self)
  <= sum_over executed_count (contracts (fst (execute_contract self cid inputs context env))).
Proof.
  unfold execute_contract.
  destruct (contracts self !! cid) as [c|] eqn:Hc; [|simpl; lia].
  pose proof (execute_count_grows c inputs context env) as Hg.
  destruct (Engine.execute c inputs context env) as [c' response]. simpl in *.
  rewrite (sum_over_insert_existing _ _ _ c c' Hc). lia.
Qed.

Lemma run_registered_grows t key data env acc :
  sum_over executed_count (contracts (fst acc))
  <= sum_over executed_count (contracts (fst (run_registered t key data env acc))).
Proof.
  unfold run_registered. destruct acc as [self [results|e]]; [|simpl; lia].
  destruct (contract_registry self !! t) as [cid|]; [|simpl; lia].
  pose proof (execute_contract_grows self cid data (VDict []) env) as Hg.
  destruct (execute_contract self cid data (VDict []) env) as [self' [r|e]]; exact Hg.
Qed.

Lemma apply_op_grows self op :
  match op with
  | OpDeploy t _ _ now _ => contracts self !! contract_id_of t now = None
  | _ => True
  end ->
  sum_over executed_count (contracts self)
  <= sum_over executed_count (contracts (apply_op self op)).
Proof.
  destruct op as [t creator parameters now created|cid inputs context env|data e1 e2 e3];
    intros Hfresh; simpl apply_op.
  - unfold deploy_contract. simpl. rewrite sum_over_insert_fresh by exact Hfresh.
    simpl. lia.
  - apply execute_contract_grows.
  - unfold execute_verification_contracts.
    etransitivity; [|apply run_registered_grows].
    etransitivity; [|apply run_registered_grows].
    etransitivity; [|apply run_registered_grows].
    simpl. lia.
Qed.

Lemma run_grows ops : forall self,
  fresh_deployments self ops ->
  sum_over executed_count (contracts self)
  <= sum_over executed_count (contracts (run ops self)).
Proof.
  induction ops as [|op ops IH]; intros self Hfresh; simpl; [lia|].
  destruct Hfresh as [Hop Hrest].
  etransitivity; [apply (apply_op_grows self op Hop)|].
  apply IH. exact Hrest.
Qed.

Lemma statistics_total self stats :
  get_contract_statistics self = Ok stats ->
  total_executions stats = sum_over executed_count (contracts self).
Proof.
  unfold get_contract_statistics.
  destruct (0 <? sum_over executed_count (contracts self)).
  - destruct (Py.num_truediv _ _); simpl; intros H; inversion H; reflexivity.
  - simpl. intros H; inversion H; reflexivity.
Qed.

Lemma fresh_deployments_app ops1 : forall self ops2,
  fresh_deployments self (ops1 ++ ops2) -> fresh_deployments (run ops1 self) ops2.
Proof.
  induction ops1 as [|op ops1 IH]; intros self ops2 H; [exact H|].
  destruct H as [_ H]. apply (IH _ _ H).
Qed.

(** C8 (as amended).  The [total_executions] of the statistics is the sum
    of [executed_count] over the deployed contracts.  Across a sequence of
    deployments and executions in which no deployment reuses a contract id
    in use (the id holds the type and the second of the deployment),
    a later statistics query never returns a smaller [total_executions]
    than an earlier one. *)
Theorem total_executions_sum_and_growth :
  (forall self stats,
      get_contract_statistics self = Ok stats ->
      total_executions stats = executions_by_id self) /\
  (forall self ops1 ops2 before after,
      fresh_deployments self (ops1 ++ ops2) ->
      get_contract_statistics (run ops1 self) = Ok before ->
      get_contract_statistics (run (ops1 ++ ops2) self) = Ok after ->
      total_executions before <= total_executions after).
Proof.
  split.
  - intros self stats H. rewrite (statistics_total self stats H). apply sum_over_by_id.
  - intros self ops1 ops2 before after Hfresh Hb Ha.
    rewrite (statistics_total _ _ Hb), (statistics_total _ _ Ha).
    unfold run. rewrite fold_left_app. apply (run_grows ops2).
    apply fresh_deployments_app. exact Hfresh.
Qed.

(** One execution, then a deployment a second later: the total stays 1. *)
Lemma total_executions_growth_witness :
  exists before after,
    get_contract_statistics (run RegistryExample.run_detector RegistryExample.registry)
    = Ok before /\
    get_contract_statistics
      (run (RegistryExample.run_detector ++ RegistryExample.deploy_later)
           RegistryExample.registry) = Ok after /\
    total_executions before = 1 /\
    total_executions before <= total_executions after.
Proof.
  destruct (get_contract_statistics
              (run RegistryExample.run_detector RegistryExample.registry))
    as [before|e] eqn:Hb; [|vm_compute in Hb; discriminate Hb].
  destruct (get_contract_statistics
              (run (RegistryExample.run_detector ++ RegistryExample.deploy_later)
                   RegistryExample.registry))
    as [after|e] eqn:Ha; [|vm_compute in Ha; discriminate Ha].
  exists before, after. repeat split.
  - vm_compute in Hb. inversion Hb. reflexivity.
  - apply (proj2 total_executions_sum_and_growth RegistryExample.registry
                 RegistryExample.run_detector RegistryExample.deploy_later);
      [|exact Hb|exact Ha].
    vm_compute. auto.
Defined.

(** C8, as stated, fails: after one execution of the default detector the
    total is 1; a second detector deployed within the same second takes the
    id of the first, replaces it, and the total is 0. *)
Lemma redeployment_lowers_total_executions :
  ~ (forall self ops1 ops2 before after,
        get_contract_statistics (run ops1 self) = Ok before ->
        get_contract_statistics (run (ops1 ++ ops2) self) = Ok after ->
        total_executions before <= total_executions after).
Proof.
  intros H.
  assert (Hb : exists before,
             get_contract_statistics
               (run RegistryExample.run_detector RegistryExample.registry) = Ok before /\
             total_executions before = 1).
  { eexists. split; vm_compute; reflexivity. }
  assert (Ha : exists after,
             get_contract_statistics
               (run (RegistryExample.run_detector ++ RegistryExample.redeploy_detector)
                    RegistryExample.registry) = Ok after /\
             total_executions after = 0).
  { eexists. split; vm_compute; reflexivity. }
  destruct Hb as (before & Hb & Hb1). destruct Ha as (after & Ha & Ha0).
  specialize (H _ _ _ _ _ Hb Ha). lia.
Qed.

End RegistryFacts.

(** ** The public functions of the ledger *)
Section ApiFacts.
Import Ledger Api.

(** The three ways a recording call returns: the block id of the append,
    the error id after an exception of the append, the error id after an
    exception while the payload was built. *)
Lemma add_payload_cases fuel chain block_data env error_now chain' bid :
  add_payload fuel chain block_data env error_now = Some (chain', bid) ->
  (exists payload,
      block_data = Ok payload /\
      _add_block_to_simple_chain fuel chain payload env = Some (chain', Ok bid)) \/
  (exists payload e,
      block_data = Ok payload /\
      _add_block_to_simple_chain fuel chain payload env = Some (chain', Raise e) /\
      bid = error_id error_now) \/
  (exists e, block_data = Raise e /\ chain' = chain /\ bid = error_id error_now).
Proof.
  unfold add_payload. destruct block_data as [payload|e]; intros H.
  - destruct (_add_block_to_simple_chain fuel chain payload env)
      as [[c [b|e]]|] eqn:Ha; [| |discriminate H]; injection H as <- <-.
    + left. eauto.
    + right. left. eauto.
  - right. right. inversion H; subst. eauto.
Qed.

Lemma api_step_ledger chain chain' :
  api_step chain chain' -> chain' = chain \/ ledger_step chain chain'.
Proof.
  intros [fuel c vd utcnow env error_now c' bid H
         |fuel c cd utcnow env error_now c' bid H
         |c now utcnow|c now utcnow].
  - destruct (add_payload_cases _ _ _ _ _ _ _ H)
      as [(p & _ & Hadd)|[(p & e & _ & Hadd & _)|(e & _ & -> & _)]].
    + right. eapply step_add. exact Hadd.
    + right. eapply step_add. exact Hadd.
    + left. reflexivity.
  - destruct (add_payload_cases _ _ _ _ _ _ _ H)
      as [(p & _ & Hadd)|[(p & e & _ & Hadd & _)|(e & _ & -> & _)]].
    + right. eapply step_add. exact Hadd.
    + right. eapply step_add. exact Hadd.
    + left. reflexivity.
  - right. constructor.
  - right. constructor.
Qed.

Lemma api_reachable_ledger chain : api_reachable chain -> reachable chain.
Proof.
  induction 1 as [|chain chain' _ IH Hstep]; [constructor|].
  destruct (api_step_ledger _ _ Hstep) as [->|Hl]; [exact IH|].
  eapply reach_step; eauto.
Qed.

Lemma api_reachable_example : api_reachable ApiExample.chain.
Proof.
  apply (api_next []); [constructor|].
  eapply (api_add_verification 16 [] ApiExample.verification_data ApiExample.utc1
                               LedgerExample.env1 LedgerExample.t1).
  vm_compute. reflexivity.
Qed.

(** X1.  Whatever sequence of calls of the public functions built the
    ledger (verifications and claim analyses recorded or refused, reads,
    resets), [validate_blockchain_integrity()] returns [True] on it. *)
Theorem api_ledger_always_validates chain :
  api_reachable chain -> validate_blockchain_integrity chain = true.
Proof.
  intros H. unfold validate_blockchain_integrity.
  apply reachable_valid, api_reachable_ledger, H.
Qed.

Lemma api_ledger_always_validates_witness :
  validate_blockchain_integrity ApiExample.chain = true.
Proof.
  apply (api_ledger_always_validates ApiExample.chain).
  apply api_reachable_example.
Defined.


(** The shape of the ledger after a successful append. *)
Lemma append_shape fuel chain payload env chain' bid :
  _add_block_to_simple_chain fuel chain payload env = Some (chain', Ok bid) ->
  let chain1 :=
    _initialize_simple_blockchain chain (env_genesis_now env) (env_genesis_utcnow env) in
  (forall i b, chain !! i = Some b -> chain' !! i = Some b) /\
  (chain = [] -> chain1 = [ genesis_block (env_genesis_now env) (env_genesis_utcnow env) ]) /\
  (chain <> [] -> chain1 = chain) /\
  exists b prev,
    chain' = (chain1 ++ [ b ])%list /\
    last chain1 = Some prev /\
    index b = Z.of_nat (List.length chain1) /\
    data b = payload /\
    timestamp b = env_now env /\
    previous_hash b = hash prev /\
    bid = Ids.id_of b.
Proof.
  intros H chain1.
  destruct (add_block_inv _ _ _ _ _ _ H) as (prev & k & h & Hl & _ & _ & _ & Hc & Hb).
  fold chain1 in Hl, Hc, Hb.
  assert (Hne : chain <> [] -> chain1 = chain).
  { intros Hn. subst chain1. destruct chain; [congruence | reflexivity]. }
  split; [|split; [|split]].
  - intros i b Hi. rewrite Hc.
    assert (chain1 = chain) as ->.
    { apply Hne. intros ->. rewrite lookup_nil in Hi. discriminate Hi. }
    apply lookup_app_l_Some. exact Hi.
  - intros ->. reflexivity.
  - exact Hne.
  - eexists _, prev. split; [exact Hc|]. split; [exact Hl|].
    repeat split. exact Hb.
Qed.

(** X2.  A successful append never rewrites the ledger: every block keeps
    its position and its content, an empty ledger first receives the
    genesis block, and exactly one block is added at the end, numbered by
    its position, carrying the payload as given, the clock reading of the
    call and the hash of the block before it; the id returned names that
    block. *)
Theorem append_keeps_earlier_blocks fuel chain payload env chain' bid :
  _add_block_to_simple_chain fuel chain payload env = Some (chain', Ok bid) ->
  let chain1 :=
    _initialize_simple_blockchain chain (env_genesis_now env) (env_genesis_utcnow env) in
  (forall i b, chain !! i = Some b -> chain' !! i = Some b) /\
  (chain = [] -> chain1 = [ genesis_block (env_genesis_now env) (env_genesis_utcnow env) ]) /\
  (chain <> [] -> chain1 = chain) /\
  exists b prev,
    chain' = (chain1 ++ [ b ])%list /\
    last chain1 = Some prev /\
    index b = Z.of_nat (List.length chain1) /\
    data b = payload /\
    timestamp b = env_now env /\
    previous_hash b = hash prev /\
    bid = Ids.id_of b.
Proof. exact (append_shape fuel chain payload env chain' bid). Qed.

Lemma append_keeps_earlier_blocks_witness :
  LedgerExample.chain3 !! 1%nat = Some LedgerExample.block1 /\
  List.length LedgerExample.chain3 = 3%nat.
Proof.
  destruct (append_keeps_earlier_blocks 1 LedgerExample.chain2 LedgerExample.claim_payload
              LedgerExample.env2 LedgerExample.chain3 "BLOCK_2_1700000041")
    as (Hkeep & _ & _ & b & prev & Hc & _).
  - vm_compute. reflexivity.
  - split; [|reflexivity].
    apply Hkeep. reflexivity.
Defined.

Lemma uint_no_underscore d : Ids.no_underscore (NilEmpty.string_of_uint d).
Proof.
  unfold Ids.no_underscore.
  induction d; simpl; constructor; try exact IHd; discriminate.
Qed.

Lemma nz_uint_no_underscore d : Ids.no_underscore (NilZero.string_of_uint d).
Proof.
  destruct d; try exact (uint_no_underscore _).
  constructor; [discriminate | constructor].
Qed.

Lemma decimal_no_underscore z : Ids.no_underscore (Py.decimal z).
Proof.
  unfold Py.decimal, PyFloat.digits_of, NilZero.string_of_int.
  destruct (Z.to_int z) as [d|d]; [apply nz_uint_no_underscore|].
  constructor; [discriminate | apply nz_uint_no_underscore].
Qed.

(** Two texts without underscore, each followed by an underscore and a
    rest, are equal only part by part. *)
Lemma split_at_underscore a : forall b x y,
  Ids.no_underscore a -> Ids.no_underscore b ->
  a ++ "_" ++ x = b ++ "_" ++ y -> a = b /\ x = y.
Proof.
  induction a as [|c a IH]; intros [|c' b] x y Ha Hb H; simpl in *.
  - injection H as H. auto.
  - injection H as Hc _. inversion Hb; subst. congruence.
  - injection H as Hc _. inversion Ha; subst. congruence.
  - injection H as Hc H. inversion Ha; inversion Hb; subst.
    destruct (IH b x y) as [-> ->]; auto.
Qed.

Lemma block_id_inj i t j u :
  block_id i t = block_id j u -> i = j /\ int_of_clock t = int_of_clock u.
Proof.
  unfold block_id. intros H.
  apply (f_equal (fun s => String.substring 6 (String.length s - 6) s)) in H.
  change ("BLOCK_" ++ ?x) with ("BLOCK_" ++ x) in H.
  assert (E : forall x, String.substring 6 (String.length ("BLOCK_" ++ x) - 6) ("BLOCK_" ++ x) = x).
  { intros x. simpl. rewrite Nat.sub_0_r.
    induction x as [|c x IHx]; simpl; [reflexivity|]. f_equal. exact IHx. }
  rewrite !E in H.
  destruct (split_at_underscore _ _ _ _ (decimal_no_underscore i)
              (decimal_no_underscore j) H) as [Hi Ht].
  split; apply decimal_inj; assumption.
Qed.

Lemma int_of_float_clock t :
  PyFloat.trunc t <> None -> Py.int_of_float t = Ok (int_of_clock t).
Proof.
  unfold Py.int_of_float, int_of_clock. destruct (PyFloat.trunc t); [reflexivity|congruence].
Qed.

(** One turn of the loop on a block whose index [str] can write and whose
    timestamp is a finite float. *)
Lemma find_block_cons block rest bid :
  Py.int_fits (index block) = true ->
  PyFloat.trunc (timestamp block) <> None ->
  find_block (block :: rest) bid
  = if String.eqb (Ids.id_of block) bid then Ok (Some block) else find_block rest bid.
Proof.
  intros Hi H. cbn [find_block]. unfold Py.str_of_int at 1. rewrite Hi.
  rewrite (int_of_float_clock _ H). cbn [res_bind]. rewrite str_of_clock. reflexivity.
Qed.

(** The search skips the blocks whose id differs. *)
Lemma find_block_skip pre : forall rest bid,
  List.Forall (fun c => Py.int_fits (index c) = true) pre ->
  finite_clock pre ->
  (forall c, In c pre -> Ids.id_of c <> bid) ->
  find_block (pre ++ rest) bid = find_block rest bid.
Proof.
  induction pre as [|c pre IH]; intros rest bid Hi Hf Hne; [reflexivity|].
  inversion Hf as [|? ? Hc Hf']; subst. inversion Hi as [|? ? Hic Hi']; subst.
  rewrite <- app_comm_cons, (find_block_cons _ _ _ Hic Hc).
  destruct (String.eqb_spec (Ids.id_of c) bid) as [E|_].
  - exfalso. apply (Hne c); [left; reflexivity | exact E].
  - apply IH; [exact Hi' | exact Hf'|]. intros c' Hc'. apply Hne. right. exact Hc'.
Qed.

(** In a ledger the module built, a block is numbered by its position. *)
Lemma reachable_index chain i b :
  reachable chain -> chain !! i = Some b -> index b = Z.of_nat i.
Proof.
  intros Hr Hb. destruct (reachable_inv chain Hr) as [->|[Hg Hs]].
  - rewrite lookup_nil in Hb. discriminate Hb.
  - destruct i as [|i].
    + destruct (Hg b Hb) as (now & utcnow & ->). reflexivity.
    + apply (Hs (S i) b); [lia | exact Hb].
Qed.

(** In a ledger the module built, [str] can write the index of a block. *)
Lemma reachable_index_fits chain i b :
  reachable chain -> chain !! i = Some b -> Py.int_fits (index b) = true.
Proof.
  intros Hr Hb. destruct (reachable_inv chain Hr) as [->|[Hg Hs]].
  - rewrite lookup_nil in Hb. discriminate Hb.
  - destruct i as [|i].
    + destruct (Hg b Hb) as (now & utcnow & ->). reflexivity.
    + destruct (Hs (S i) b ltac:(lia) Hb) as (_ & D & _).
      apply block_digest_ok in D. destruct D as (s & D & _).
      apply block_string_ok in D. tauto.
Qed.

Lemma reachable_indexes_fit chain :
  reachable chain -> List.Forall (fun c => Py.int_fits (index c) = true) chain.
Proof.
  intros Hr. apply List.Forall_forall. intros c Hc.
  apply list_elem_of_In, list_elem_of_lookup in Hc. destruct Hc as [j Hj].
  exact (reachable_index_fits chain j c Hr Hj).
Qed.

(** A block of a ledger the module built is found under its own id. *)
Lemma block_lookup_by_id chain i b :
  reachable chain -> finite_clock chain -> chain !! i = Some b ->
  get_blockchain_block_by_id chain (Ids.id_of b) = Some b.
Proof.
  intros Hr Hf Hb.
  pose proof (reachable_indexes_fit chain Hr) as Hfit.
  destruct (list_elem_of_split_length chain i b Hb) as (pre & post & -> & Hlen).
  unfold finite_clock in Hf. apply Forall_app in Hf. destruct Hf as [Hpre Hpost].
  apply Forall_app in Hfit. destruct Hfit as [Fpre Fpost].
  unfold get_blockchain_block_by_id.
  rewrite find_block_skip; [|exact Fpre|exact Hpre|].
  - inversion Hpost as [|? ? Hc _]; subst. inversion Fpost as [|? ? Hic _]; subst.
    rewrite (find_block_cons _ _ _ Hic Hc), String.eqb_refl. reflexivity.
  - intros c Hc E.
    apply list_elem_of_In, list_elem_of_lookup in Hc. destruct Hc as [j Hj].
    pose proof (lookup_lt_Some _ _ _ Hj) as Hlt.
    assert (Hcj : (pre ++ b :: post)%list !! j = Some c) by (apply lookup_app_l_Some; exact Hj).
    pose proof (reachable_index _ _ _ Hr Hcj) as Ic.
    pose proof (reachable_index _ _ _ Hr Hb) as Ib.
    destruct (block_id_inj _ _ _ _ E) as [Hidx _].
    rewrite Ic, Ib in Hidx. lia.
Qed.

(** X3.  In a ledger built by the module, with finite clock readings, every
    block is the one [get_blockchain_block_by_id] returns for its own id
    [BLOCK_<index>_<int(timestamp)>]: no earlier block answers to that id. *)
Theorem block_found_by_its_id chain i b :
  reachable chain -> finite_clock chain -> chain !! i = Some b ->
  get_blockchain_block_by_id chain (Ids.id_of b) = Some b.
Proof. exact (block_lookup_by_id chain i b). Qed.

Lemma block_found_by_its_id_witness :
  get_blockchain_block_by_id LedgerExample.chain3 "BLOCK_1_1700000002"
  = Some LedgerExample.block1.
Proof.
  apply (block_found_by_its_id LedgerExample.chain3 1 LedgerExample.block1).
  - apply reachable_chain3.
  - repeat constructor; vm_compute; discriminate.
  - reflexivity.
Defined.

End ApiFacts.

Section ApiPayloadFacts.
Import Ledger Api Fields.

Lemma get_dict d k default : Py.get (VDict d) k default = Ok (get_or d k default).
Proof. reflexivity. Qed.

Lemma slice_first_ok n v :
  sliceable v = true ->
  exists v', Builtins.slice_first n v = Ok v' /\ sliceable v' = true /\
             size_of v' = Nat.min n (size_of v).
Proof.
  destruct v as [| | | |s|l|]; try discriminate; intros _; simpl.
  - eexists. split; [reflexivity|]. split; [reflexivity|]. simpl.
    revert n. induction s as [|c s IH]; intros [|n]; simpl; auto.
  - eexists. split; [reflexivity|]. split; [reflexivity|]. simpl.
    apply length_firstn.
Qed.

Lemma slice_first_sliceable n v v' :
  Builtins.slice_first n v = Ok v' -> sliceable v' = true /\ (size_of v' <= n)%nat.
Proof.
  intros H. assert (Hs : sliceable v = true) by (destruct v; try discriminate H; reflexivity).
  destruct (slice_first_ok n v Hs) as (w & Hw & Sw & Lw).
  rewrite H in Hw. injection Hw as <-. split; [exact Sw|lia].
Qed.

Lemma slice_first_raises n v :
  sliceable v = false -> Builtins.slice_first n v = Raise TypeError.
Proof. destruct v; try discriminate; reflexivity. Qed.

Lemma verification_block_data_cases vd utcnow :
  if storable_verification vd then
    exists d claim evidence_summary,
      vd = VDict d /\
      Builtins.slice_first 1000 (get_or d "claim" (VStr "")) = Ok claim /\
      Builtins.slice_first 500 (get_or d "evidence_summary" (VStr "")) = Ok evidence_summary /\
      verification_block_data vd utcnow
      = Ok (VDict
              [ ("type", VStr "verification");
                ("company_name", get_or d "company_name" (VStr "Unknown"));
                ("claim", claim);
                ("verification_score", get_or d "verification_score" (VInt 0));
                ("status", get_or d "status" (VStr "unknown"));
                ("risk_level", get_or d "risk_level" (VStr "unknown"));
                ("evidence_summary", evidence_summary);
                ("user_email", get_or d "user_email" (VStr "anonymous"));
                ("client_ip", get_or d "client_ip" (VStr "unknown"));
                ("timestamp", VStr utcnow);
                ("version", get_or d "version" (VStr "2.0_with_smart_contracts"));
                ("smart_contracts_executed", get_or d "smart_contracts_executed" (VInt 0));
                ("automated_actions", get_or d "automated_actions" (VList [])) ])
  else exists e, verification_block_data vd utcnow = Raise e.
Proof.
  destruct vd as [| | | | | |d]; try (eexists; reflexivity).
  unfold storable_verification.
  destruct (sliceable (get_or d "claim" (VStr ""))) eqn:Hc.
  - destruct (sliceable (get_or d "evidence_summary" (VStr ""))) eqn:He; cbn [andb].
    + destruct (slice_first_ok 1000 _ Hc) as (c' & Ec & _).
      destruct (slice_first_ok 500 _ He) as (e' & Ee & _).
      exists d, c', e'. split; [reflexivity|]. split; [exact Ec|]. split; [exact Ee|].
      unfold verification_block_data. rewrite !get_dict. cbn [res_bind].
      rewrite Ec. cbn [res_bind]. rewrite Ee. reflexivity.
    + destruct (slice_first_ok 1000 _ Hc) as (c' & Ec & _).
      exists TypeError.
      unfold verification_block_data. rewrite !get_dict. cbn [res_bind].
      rewrite Ec. cbn [res_bind]. rewrite (slice_first_raises _ _ He). reflexivity.
  - cbn [andb]. exists TypeError.
    unfold verification_block_data. rewrite !get_dict. cbn [res_bind].
    rewrite (slice_first_raises _ _ Hc). reflexivity.
Qed.

(** No block answers to an [ERROR_...] id. *)
Lemma error_id_names_no_block chain error_now :
  get_blockchain_block_by_id chain (error_id error_now) = None.
Proof.
  unfold get_blockchain_block_by_id.
  induction chain as [|b chain IH]; [reflexivity|].
  cbn [find_block].
  destruct (Py.str_of_int (index b)) as [number|e]; [|reflexivity]. cbn [res_bind].
  destruct (Py.int_of_float (timestamp b)) as [z|e]; [|reflexivity]. cbn [res_bind].
  destruct (Py.str_of_int z) as [seconds|e]; [|reflexivity]. cbn [res_bind].
  replace (String.eqb _ (error_id error_now)) with false; [exact IH|].
  symmetry. apply String.eqb_neq. unfold error_id. simpl. discriminate.
Qed.

(** A verification that cannot be stored is refused before anything is written. *)
Lemma verification_refused fuel chain vd utcnow env error_now :
  storable_verification vd = false ->
  add_verification_to_blockchain fuel chain vd utcnow env error_now
  = Some (chain, error_id error_now) /\
  get_blockchain_block_by_id chain (error_id error_now) = None.
Proof.
  intros Hs. split; [|apply error_id_names_no_block].
  pose proof (verification_block_data_cases vd utcnow) as H. rewrite Hs in H.
  destruct H as [e He].
  unfold add_verification_to_blockchain, add_payload. rewrite He. reflexivity.
Qed.

(** [json.dumps] refuses a block whose payload it cannot write. *)
Lemma block_string_unfit b : Py.fits (data b) = false -> block_string b = Raise ValueError.
Proof.
  intros H. unfold block_string, Json.dumps.
  replace (Py.fits (VDict (block_items b))) with false; [reflexivity|].
  unfold block_items. cbn [Py.fits List.forallb List.app fst snd].
  rewrite H. destruct (Py.int_fits (index b)); reflexivity.
Qed.

(** The two ways a call returns once its payload is built: the block is
    appended to the seeded ledger and its id returned, or [json.dumps]
    raised on a candidate and the error id is returned, the ledger seeded
    and no more. *)
Lemma add_payload_built fuel chain payload env error_now chain' bid :
  add_payload fuel chain (Ok payload) env error_now = Some (chain', bid) ->
  let chain1 :=
    _initialize_simple_blockchain chain (env_genesis_now env) (env_genesis_utcnow env) in
  (Py.fits payload = true /\
   exists b, chain' = (chain1 ++ [ b ])%list /\ data b = payload /\ bid = Ids.id_of b) \/
  (chain' = chain1 /\ bid = error_id error_now /\
   exists prev k,
     last chain1 = Some prev /\ 0 <= k /\
     block_string (with_nonce (candidate chain1 payload (env_now env) prev) k)
     = Raise ValueError).
Proof.
  intros H chain1.
  destruct (add_payload_cases _ _ _ _ _ _ _ H)
    as [(p & Hp & Hadd)|[(p & e & Hp & Hadd & Hb)|(e & Hp & _)]];
    [injection Hp as <- | injection Hp as <- | discriminate Hp].
  - left.
    destruct (add_block_inv _ _ _ _ _ _ Hadd) as (prev & k & h & _ & _ & D & _).
    apply block_digest_ok in D. destruct D as (s & D & _).
    apply block_string_ok in D. destruct D as (_ & Fd & _).
    split; [exact Fd|].
    destruct (append_shape _ _ _ _ _ _ Hadd)
      as (_ & _ & _ & b & prev' & Hc & _ & _ & Hd & _ & _ & Hid).
    exists b. auto.
  - right. destruct (add_block_raised _ _ _ _ _ _ Hadd) as (Hc & _ & prev & k & Hl & Hk & Hr).
    fold chain1 in Hc. subst chain'. split; [reflexivity|]. split; [exact Hb|].
    exists prev, k. auto.
Qed.

(** A payload that [json.dumps] cannot write is refused at the first
    candidate: the error id, and the ledger seeded and no more. *)
Lemma unwritable_payload_refused fuel chain payload env error_now :
  Py.fits payload = false -> (0 < fuel)%nat ->
  add_payload fuel chain (Ok payload) env error_now
  = Some (_initialize_simple_blockchain chain (env_genesis_now env)
                                        (env_genesis_utcnow env),
          error_id error_now).
Proof.
  intros Hf Hfuel. unfold add_payload, _add_block_to_simple_chain.
  destruct (last _) as [prev|] eqn:Hl.
  - destruct fuel as [|fuel]; [lia|]. cbn [mine].
    unfold block_digest. rewrite block_string_unfit by exact Hf. reflexivity.
  - exfalso. apply last_None in Hl. revert Hl. apply initialize_nonempty.
Qed.

(** X4.  [add_verification_to_blockchain] never raises and never half-writes:
    when the argument is not a dict, or its [claim] or [evidence_summary] is
    neither a string nor a list, the call returns [ERROR_<int(time)>] and
    the ledger is exactly what it was (an empty ledger is not even seeded
    with the genesis block), and no block answers to the id returned. *)
Theorem refused_verification_leaves_ledger fuel chain vd utcnow env error_now :
  storable_verification vd = false ->
  add_verification_to_blockchain fuel chain vd utcnow env error_now
  = Some (chain, error_id error_now) /\
  get_blockchain_block_by_id chain (error_id error_now) = None.
Proof.
  exact (verification_refused fuel chain vd utcnow env error_now).
Qed.

Lemma refused_verification_leaves_ledger_witness :
  add_verification_to_blockchain 0 [] ApiExample.malformed_data ApiExample.utc1
                                 LedgerExample.env1 LedgerExample.t2
  = Some ([], "ERROR_1700000041").
Proof.
  destruct (refused_verification_leaves_ledger 0 [] ApiExample.malformed_data ApiExample.utc1
              LedgerExample.env1 LedgerExample.t2) as [H _].
  - reflexivity.
  - rewrite H. vm_compute. reflexivity.
Defined.


Lemma claim_analysis_block_data_cases cd utcnow :
  if storable_claim_analysis cd then
    exists d content environmental_claims,
      cd = VDict d /\
      Builtins.slice_first 1000 (get_or d "content" (VStr "")) = Ok content /\
      Builtins.slice_first 10 (get_or d "environmental_claims" (VList []))
      = Ok environmental_claims /\
      claim_analysis_block_data cd utcnow
      = Ok (VDict
              [ ("type", VStr "claim_analysis");
                ("content", content);
                ("claims_count", get_or d "claims_count" (VInt 0));
                ("url", get_or d "url" (VStr ""));
                ("analysis_type", get_or d "analysis_type" (VStr "website"));
                ("environmental_claims", environmental_claims);
                ("user_email", get_or d "user_email" (VStr "anonymous"));
                ("client_ip", get_or d "client_ip" (VStr "unknown"));
                ("timestamp", VStr utcnow);
                ("processing_time", get_or d "processing_time" (VInt 0)) ])
  else exists e, claim_analysis_block_data cd utcnow = Raise e.
Proof.
  destruct cd as [| | | | | |d]; try (eexists; reflexivity).
  unfold storable_claim_analysis.
  destruct (sliceable (get_or d "content" (VStr ""))) eqn:Hc.
  - destruct (sliceable (get_or d "environmental_claims" (VList []))) eqn:He; cbn [andb].
    + destruct (slice_first_ok 1000 _ Hc) as (c' & Ec & _).
      destruct (slice_first_ok 10 _ He) as (e' & Ee & _).
      exists d, c', e'. split; [reflexivity|]. split; [exact Ec|]. split; [exact Ee|].
      unfold claim_analysis_block_data. rewrite !get_dict. cbn [res_bind].
      rewrite Ec. cbn [res_bind]. rewrite Ee. reflexivity.
    + destruct (slice_first_ok 1000 _ Hc) as (c' & Ec & _).
      exists TypeError.
      unfold claim_analysis_block_data. rewrite !get_dict. cbn [res_bind].
      rewrite Ec. cbn [res_bind]. rewrite (slice_first_raises _ _ He). reflexivity.
  - cbn [andb]. exists TypeError.
    unfold claim_analysis_block_data. rewrite !get_dict. cbn [res_bind].
    rewrite (slice_first_raises _ _ Hc). reflexivity.
Qed.

(** X5.  A verification that can be stored is stored under fixed keys or
    not at all.  When the call returns, either the block appended to the
    (seeded) ledger carries [type = "verification"] whatever [type] the
    caller sent, the timestamp of the call, the company name (["Unknown"]
    when missing), and the first 1000 items of the claim and the first 500
    of the evidence summary, never more, and the id returned is the id of
    that block; or [json.dumps] raised on a candidate block, the id
    returned is [ERROR_<int(time)>] and the ledger is seeded and no more.
    The second is what happens whenever the payload holds an int of more
    than 4300 digits. *)
Theorem recorded_verification_is_bounded fuel chain vd utcnow env error_now :
  storable_verification vd = true ->
  let chain1 :=
    _initialize_simple_blockchain chain (env_genesis_now env) (env_genesis_utcnow env) in
  exists d payload,
    vd = VDict d /\
    verification_block_data vd utcnow = Ok payload /\
    (forall chain' bid,
        add_verification_to_blockchain fuel chain vd utcnow env error_now
        = Some (chain', bid) ->
        (exists b p claim evidence_summary,
            Py.fits payload = true /\
            chain' = (chain1 ++ [ b ])%list /\
            bid = Ids.id_of b /\
            data b = VDict p /\
            Py.lookup p "type" = Some (VStr "verification") /\
            Py.lookup p "timestamp" = Some (VStr utcnow) /\
            Py.lookup p "company_name" = Some (get_or d "company_name" (VStr "Unknown")) /\
            Py.lookup p "claim" = Some claim /\
            Builtins.slice_first 1000 (get_or d "claim" (VStr "")) = Ok claim /\
            (size_of claim <= 1000)%nat /\
            Py.lookup p "evidence_summary" = Some evidence_summary /\
            Builtins.slice_first 500 (get_or d "evidence_summary" (VStr ""))
            = Ok evidence_summary /\
            (size_of evidence_summary <= 500)%nat) \/
        (chain' = chain1 /\ bid = error_id error_now /\
         exists prev k,
           last chain1 = Some prev /\ 0 <= k /\
           block_string (with_nonce (candidate chain1 payload (env_now env) prev) k)
           = Raise ValueError)) /\
    (Py.fits payload = false -> (0 < fuel)%nat ->
     add_verification_to_blockchain fuel chain vd utcnow env error_now
     = Some (chain1, error_id error_now)).
Proof.
  intros Hs chain1.
  pose proof (verification_block_data_cases vd utcnow) as H. rewrite Hs in H.
  destruct H as (d & claim & evidence & -> & Ec & Ee & Hp).
  exists d. eexists. split; [reflexivity|]. split; [exact Hp|]. split.
  - intros chain' bid Hadd.
    unfold add_verification_to_blockchain in Hadd. rewrite Hp in Hadd.
    destruct (add_payload_built _ _ _ _ _ _ _ Hadd)
      as [(Hf & b & Hc & Hd & Hb)|(Hc & Hb & Hr)]; [left|right; auto].
    unfold storable_verification in Hs. apply andb_prop in Hs. destruct Hs as [Sc Se].
    destruct (slice_first_ok 1000 _ Sc) as (c' & Ec' & _ & Lc).
    destruct (slice_first_ok 500 _ Se) as (e' & Ee' & _ & Le).
    rewrite Ec in Ec'. rewrite Ee in Ee'. inversion Ec'; inversion Ee'; subst c' e'.
    exists b. eexists. exists claim, evidence.
    split; [exact Hf|]. split; [exact Hc|]. split; [exact Hb|]. split; [exact Hd|].
    repeat split; try reflexivity; try assumption; lia.
  - intros Hf Hfuel. unfold add_verification_to_blockchain. rewrite Hp.
    apply unwritable_payload_refused; assumption.
Qed.

Lemma recorded_verification_is_bounded_witness :
  exists b p, last ApiExample.chain = Some b /\ data b = VDict p /\
              Py.lookup p "type" = Some (VStr "verification").
Proof.
  destruct (recorded_verification_is_bounded 16 [] ApiExample.verification_data
              ApiExample.utc1 LedgerExample.env1 LedgerExample.t1)
    as (d & payload & _ & _ & Hcases & _).
  - reflexivity.
  - destruct (Hcases ApiExample.chain "BLOCK_1_1700000002")
      as [(b & p & c & e & _ & Hc & _ & Hd & Ht & _)|(_ & Hb & _)].
    + vm_compute. reflexivity.
    + exists b, p. split; [|split; assumption].
      rewrite Hc. apply last_snoc.
    + vm_compute in Hb. discriminate Hb.
Defined.

(** A verification whose score has 4301 digits: the error id, and the empty
    ledger seeded with the genesis block. *)
Example unwritable_verification_refused :
  add_verification_to_blockchain 1 [] ApiExample.unwritable_data ApiExample.utc1
                                 LedgerExample.env1 LedgerExample.t2
  = Some (LedgerExample.chain1, "ERROR_1700000041").
Proof. vm_compute. reflexivity. Qed.

(** X6.  A claim analysis that can be stored is stored under fixed keys or
    not at all.  When the call returns, either the block appended to the
    (seeded) ledger carries [type = "claim_analysis"], the timestamp of the
    call, the first 1000 items of the content and at most the first 10
    environmental claims, and the id returned is the id of that block; or
    [json.dumps] raised on a candidate block (as it does on a payload that
    holds an int of more than 4300 digits), the id returned is
    [ERROR_<int(time)>] and the ledger is seeded and no more.  When the
    content or the claims are neither a string nor a list the call returns
    [ERROR_<int(time)>] and leaves the ledger as it was. *)
Theorem recorded_claim_analysis_is_bounded fuel chain cd utcnow env error_now chain' bid :
  add_claim_analysis_to_blockchain fuel chain cd utcnow env error_now = Some (chain', bid) ->
  let chain1 :=
    _initialize_simple_blockchain chain (env_genesis_now env) (env_genesis_utcnow env) in
  if storable_claim_analysis cd then
    exists d payload,
      cd = VDict d /\
      claim_analysis_block_data cd utcnow = Ok payload /\
      ((exists b p content environmental_claims,
           Py.fits payload = true /\
           chain' = (chain1 ++ [ b ])%list /\
           bid = Ids.id_of b /\
           data b = VDict p /\
           Py.lookup p "type" = Some (VStr "claim_analysis") /\
           Py.lookup p "timestamp" = Some (VStr utcnow) /\
           Py.lookup p "content" = Some content /\
           Builtins.slice_first 1000 (get_or d "content" (VStr "")) = Ok content /\
           (size_of content <= 1000)%nat /\
           Py.lookup p "environmental_claims" = Some environmental_claims /\
           Builtins.slice_first 10 (get_or d "environmental_claims" (VList []))
           = Ok environmental_claims /\
           (size_of environmental_claims <= 10)%nat) \/
       (chain' = chain1 /\ bid = error_id error_now /\
        exists prev k,
          last chain1 = Some prev /\ 0 <= k /\
          block_string (with_nonce (candidate chain1 payload (env_now env) prev) k)
          = Raise ValueError)) /\
      (Py.fits payload = false -> (0 < fuel)%nat ->
       chain' = chain1 /\ bid = error_id error_now)
  else chain' = chain /\ bid = error_id error_now.
Proof.
  intros Hadd chain1.
  pose proof (claim_analysis_block_data_cases cd utcnow) as H.
  destruct (storable_claim_analysis cd) eqn:Hs.
  - destruct H as (d & content & claims & -> & Ec & Ee & Hp).
    exists d. eexists. split; [reflexivity|]. split; [exact Hp|].
    unfold add_claim_analysis_to_blockchain in Hadd. rewrite Hp in Hadd. split.
    + destruct (add_payload_built _ _ _ _ _ _ _ Hadd)
        as [(Hf & b & Hc & Hd & Hb)|(Hc & Hb & Hr)]; [left|right; auto].
      unfold storable_claim_analysis in Hs. apply andb_prop in Hs. destruct Hs as [Sc Se].
      destruct (slice_first_ok 1000 _ Sc) as (c' & Ec' & _ & Lc).
      destruct (slice_first_ok 10 _ Se) as (e' & Ee' & _ & Le).
      rewrite Ec in Ec'. rewrite Ee in Ee'. inversion Ec'; inversion Ee'; subst c' e'.
      exists b. eexists. exists content, claims.
      split; [exact Hf|]. split; [exact Hc|]. split; [exact Hb|]. split; [exact Hd|].
      repeat split; try reflexivity; try assumption; lia.
    + intros Hf Hfuel.
      rewrite (unwritable_payload_refused _ _ _ _ _ Hf Hfuel) in Hadd.
      injection Hadd as <- <-. split; reflexivity.
  - destruct H as [e He].
    unfold add_claim_analysis_to_blockchain, add_payload in Hadd. rewrite He in Hadd.
    inversion Hadd. split; reflexivity.
Qed.

Lemma recorded_claim_analysis_is_bounded_witness :
  exists b p, last ApiExample.chain' = Some b /\ data b = VDict p /\
              Py.lookup p "environmental_claims"
              = Some (VList (List.map VInt [ 1; 2; 3; 4; 5; 6; 7; 8; 9; 10 ])).
Proof.
  assert (Hadd : add_claim_analysis_to_blockchain 16 ApiExample.chain ApiExample.claim_data
                   ApiExample.utc2 LedgerExample.env2 LedgerExample.t2
                 = Some (ApiExample.chain', "BLOCK_2_1700000041"))
    by (vm_compute; reflexivity).
  destruct (recorded_claim_analysis_is_bounded _ _ _ _ _ _ _ _ Hadd)
    as (d & payload & Hd & _ & [(b & p & c & e & _ & Hc & _ & Hp & _ & _ & _ & _ & _ & He & Hs & _)
                               |(_ & Hb & _)] & _).
  - exists b, p. split; [|split].
    + rewrite Hc. apply last_snoc.
    + exact Hp.
    + rewrite He. f_equal. inversion Hd; subst d.
      vm_compute in Hs. inversion Hs. reflexivity.
  - vm_compute in Hb. discriminate Hb.
Defined.

(** A claim analysis that counts [10^4300] claims: the error id, and the
    ledger as it was. *)
Example unwritable_claim_analysis_refused :
  add_claim_analysis_to_blockchain 1 ApiExample.chain ApiExample.unwritable_claim_data
                                   ApiExample.utc2 LedgerExample.env2 LedgerExample.t2
  = Some (ApiExample.chain, "ERROR_1700000041").
Proof. vm_compute. reflexivity. Qed.


(** X21.  Recording and looking up compose: on a ledger built through the
    public functions, with finite clock readings, the id returned by
    [add_verification_to_blockchain] for a verification it can store is
    either the id of the block just appended, which
    [get_blockchain_block_by_id] then returns and whose payload has
    [type = "verification"], or, when [json.dumps] raised on a candidate
    block, an [ERROR_...] id that leads to no block at all; when the
    verification was refused, the [ERROR_...] id returned leads to no block
    either and the ledger is as it was. *)
Theorem recorded_verification_found_by_id fuel chain vd utcnow env error_now chain' bid :
  api_reachable chain ->
  add_verification_to_blockchain fuel chain vd utcnow env error_now = Some (chain', bid) ->
  finite_clock chain' ->
  if storable_verification vd then
    (exists b p,
        last chain' = Some b /\
        bid = Ids.id_of b /\
        get_blockchain_block_by_id chain' bid = Some b /\
        data b = VDict p /\
        Py.lookup p "type" = Some (VStr "verification")) \/
    (bid = error_id error_now /\
     chain' = _initialize_simple_blockchain chain (env_genesis_now env)
                                            (env_genesis_utcnow env) /\
     get_blockchain_block_by_id chain' bid = None)
  else chain' = chain /\ get_blockchain_block_by_id chain' bid = None.
Proof.
  intros Hr Hadd Hf.
  assert (Hr' : reachable chain').
  { apply api_reachable_ledger. eapply api_next; [exact Hr|].
    eapply api_add_verification. exact Hadd. }
  pose proof (verification_block_data_cases vd utcnow) as H.
  destruct (storable_verification vd) eqn:Hs.
  - destruct H as (d & claim & evidence & -> & _ & _ & Hp).
    unfold add_verification_to_blockchain in Hadd. rewrite Hp in Hadd.
    destruct (add_payload_built _ _ _ _ _ _ _ Hadd)
      as [(_ & b & Hc & Hd & Hb)|(Hc & Hb & _)].
    + left. exists b. eexists. split; [rewrite Hc; apply last_snoc|].
      split; [exact Hb|]. split; [|split; [exact Hd|reflexivity]].
      rewrite Hb. eapply (block_lookup_by_id chain' _ b Hr' Hf).
      rewrite Hc. apply list_lookup_middle. reflexivity.
    + right. split; [exact Hb|]. split; [exact Hc|].
      rewrite Hb. apply error_id_names_no_block.
  - destruct (verification_refused fuel chain vd utcnow env error_now Hs)
      as [E Hnone].
    rewrite E in Hadd. injection Hadd as <- <-. split; [reflexivity|exact Hnone].
Qed.

Lemma recorded_verification_found_by_id_witness :
  exists b, get_blockchain_block_by_id ApiExample.chain "BLOCK_1_1700000002" = Some b /\
            last ApiExample.chain = Some b.
Proof.
  pose proof (recorded_verification_found_by_id 16 [] ApiExample.verification_data
                ApiExample.utc1 LedgerExample.env1 LedgerExample.t1 ApiExample.chain
                "BLOCK_1_1700000002" api_empty) as H.
  destruct H as [(b & p & Hl & _ & Hg & _)|(Hb & _)].
  - vm_compute. reflexivity.
  - repeat constructor; vm_compute; discriminate.
  - exists b. split; assumption.
  - vm_compute in Hb. discriminate Hb.
Defined.

End ApiPayloadFacts.

Section StatisticsFacts.
Import Ledger Api Fields.

Lemma recorded_ledger_initialize chain now utcnow :
  chain = [] \/ recorded_ledger chain ->
  recorded_ledger (_initialize_simple_blockchain chain now utcnow).
Proof.
  intros [->|H].
  - exists (genesis_block now utcnow), [], now, utcnow. repeat split. constructor.
  - destruct H as (g & rest & n & u & -> & Hg & Hr). exists g, rest, n, u. auto.
Qed.

Lemma recorded_ledger_snoc chain b :
  recorded_ledger chain -> recorded_kind b -> recorded_ledger (chain ++ [ b ]).
Proof.
  intros (g & rest & n & u & -> & Hg & Hr) Hb.
  exists g, (rest ++ [ b ])%list, n, u. repeat split; [exact Hg|].
  apply Forall_app. split; [exact Hr|]. constructor; [exact Hb|constructor].
Qed.

Lemma add_payload_recorded fuel chain block_data env error_now chain' bid :
  (forall payload, block_data = Ok payload -> forall b, data b = payload -> recorded_kind b) ->
  chain = [] \/ recorded_ledger chain ->
  add_payload fuel chain block_data env error_now = Some (chain', bid) ->
  chain' = [] \/ recorded_ledger chain'.
Proof.
  intros Hk Hinv Hadd.
  destruct (add_payload_cases _ _ _ _ _ _ _ Hadd)
    as [(p & Hp & Ha)|[(p & e & _ & Ha & _)|(e & _ & -> & _)]]; [| |exact Hinv].
  - destruct (append_shape _ _ _ _ _ _ Ha)
      as (_ & _ & _ & b & prev & -> & _ & _ & Hd & _).
    right. apply recorded_ledger_snoc.
    + apply recorded_ledger_initialize, Hinv.
    + apply (Hk p Hp b Hd).
  - destruct (add_block_raised _ _ _ _ _ _ Ha) as (-> & _).
    right. apply recorded_ledger_initialize, Hinv.
Qed.

(** The ledgers of the public functions hold recorded payloads only. *)
Lemma api_reachable_recorded chain :
  api_reachable chain -> chain = [] \/ recorded_ledger chain.
Proof.
  induction 1 as [|chain chain' _ IH Hstep]; [left; reflexivity|].
  destruct Hstep as [fuel c vd utcnow env error_now c' bid H
                    |fuel c cd utcnow env error_now c' bid H
                    |c now utcnow|c now utcnow].
  - eapply add_payload_recorded; [|exact IH|exact H].
    intros payload Hp b Hb.
    pose proof (verification_block_data_cases vd utcnow) as Hc.
    destruct (storable_verification vd).
    + destruct Hc as (d & cl & ev & _ & Ec & _ & Hc). rewrite Hc in Hp.
      injection Hp as <-. eexists. split; [exact Hb|]. left.
      split; [reflexivity|]. split; [eexists; reflexivity|].
      apply (slice_first_sliceable _ _ _ Ec).
    + destruct Hc as [e Hc]. congruence.
  - eapply add_payload_recorded; [|exact IH|exact H].
    intros payload Hp b Hb.
    pose proof (claim_analysis_block_data_cases cd utcnow) as Hc.
    destruct (storable_claim_analysis cd).
    + destruct Hc as (d & cl & ev & _ & _ & _ & Hc). rewrite Hc in Hp.
      injection Hp as <-. eexists. split; [exact Hb|]. right. reflexivity.
    + destruct Hc as [e Hc]. congruence.
  - right. apply recorded_ledger_initialize, IH.
  - right. apply (recorded_ledger_initialize []). left. reflexivity.
Qed.

Lemma blocks_of_type_filter kind chain :
  List.Forall (fun b => exists p, data b = VDict p) chain ->
  blocks_of_type kind chain = Ok (List.filter (kind_is kind) chain).
Proof.
  induction 1 as [|b chain [p Hp] _ IH]; [reflexivity|].
  assert (E : kind_is kind b = Builtins.eq_str (get_or p "type" VNone) kind)
    by (unfold kind_is; rewrite Hp; reflexivity).
  cbn [blocks_of_type List.filter]. rewrite IH, Hp, get_dict, E. reflexivity.
Qed.

Lemma size_add_company (company : string) (companies : gset string) :
  (size ({[ company ]} ∪ companies) <= 1 + size companies)%nat.
Proof.
  rewrite size_union_alt, size_singleton.
  apply Nat.add_le_mono_l, subseteq_size, subseteq_difference_l. reflexivity.
Qed.

(** The loop over the verification blocks ends when every company name is
    a string, with at most one company per block, and raises otherwise. *)
Lemma companies_of_cases blocks : forall companies,
  List.Forall (fun b => kind_is "verification" b = true) blocks ->
  if List.forallb text_company blocks then
    exists s, companies_of blocks companies = Ok s /\
              (size s <= size companies + List.length blocks)%nat
  else companies_of blocks companies = Raise AttributeError.
Proof.
  induction blocks as [|b blocks IH]; intros companies Hk.
  - simpl. exists companies. split; [reflexivity|lia].
  - inversion Hk as [|? ? Hb Hk']; subst.
    cbn [List.forallb companies_of].
    unfold kind_is in Hb. unfold text_company at 1.
    destruct (data b) as [| | | | | |p] eqn:Hp; try discriminate Hb.
    rewrite get_dict. cbn [res_bind]. unfold get_or in Hb |- *.
    destruct (Py.lookup p "type") as [t|]; [|discriminate Hb].
    rewrite Hb.
    destruct (Py.lookup p "company_name") as [[| | | |name| |]|];
      cbn [Builtins.strip_lower_of res_bind andb]; try reflexivity.
    + match goal with |- context [companies_of blocks ?c] => specialize (IH c Hk') end.
      destruct (List.forallb text_company blocks); [|exact IH].
      destruct IH as (s & Hs & Hle). exists s. split; [exact Hs|].
      etransitivity; [exact Hle|].
      destruct (_ && _); cbn [List.length]; [|lia].
      pose proof (size_add_company (Py.lower (Builtins.strip name)) companies). lia.
    + specialize (IH companies Hk').
      destruct (List.forallb text_company blocks); [|exact IH].
      destruct IH as (s & Hs & Hle). exists s. split; [exact Hs|].
      cbn [List.length]. lia.
Qed.

Lemma text_company_other b : kind_is "verification" b = false ->
  (exists p, data b = VDict p) -> text_company b = true.
Proof.
  intros Hk [p Hp]. unfold text_company, kind_is, get_or in *. rewrite Hp in *.
  destruct (Py.lookup p "type") as [t|]; [|reflexivity].
  rewrite Hk. reflexivity.
Qed.

Lemma forallb_text_company_filter chain :
  List.Forall (fun b => exists p, data b = VDict p) chain ->
  List.forallb text_company (List.filter (kind_is "verification") chain)
  = List.forallb text_company chain.
Proof.
  induction 1 as [|b chain Hb _ IH]; [reflexivity|].
  cbn [List.filter List.forallb].
  destruct (kind_is "verification" b) eqn:Hk.
  - cbn [List.forallb]. rewrite IH. reflexivity.
  - rewrite IH, (text_company_other b Hk Hb). reflexivity.
Qed.

Lemma recorded_kind_split rest :
  List.Forall recorded_kind rest ->
  (List.length (List.filter (kind_is "verification") rest)
   + List.length (List.filter (kind_is "claim_analysis") rest))%nat
  = List.length rest.
Proof.
  induction 1 as [|b rest (p & Hp & Hk) _ IH]; [reflexivity|].
  destruct Hk as [(Hk & _)|Hk].
  - assert (E1 : kind_is "verification" b = true)
      by (unfold kind_is, get_or; rewrite Hp, Hk; reflexivity).
    assert (E2 : kind_is "claim_analysis" b = false)
      by (unfold kind_is, get_or; rewrite Hp, Hk; reflexivity).
    cbn [List.filter]. rewrite E1, E2. cbn [List.length]. lia.
  - assert (E1 : kind_is "verification" b = false)
      by (unfold kind_is, get_or; rewrite Hp, Hk; reflexivity).
    assert (E2 : kind_is "claim_analysis" b = true)
      by (unfold kind_is, get_or; rewrite Hp, Hk; reflexivity).
    cbn [List.filter]. rewrite E1, E2. cbn [List.length]. lia.
Qed.

(** X7.  On a ledger built through the public functions,
    [get_blockchain_statistics()] seeds the genesis block if the ledger is
    empty and then answers in one of two ways.  If the company name of
    every recorded verification is a string (or missing), it reports
    [total_blocks = 1 + verification_blocks + claim_analysis_blocks], at
    most one company per verification block, a chain integrity of [True]
    and the fixed genesis hash.  If one recorded verification carries a
    company name that is not a string, it reports the error dict, whose
    counts are all zero, with an [AttributeError]. *)
Theorem statistics_of_api_ledger g now utcnow clock :
  api_reachable (_simple_blockchain_data g) ->
  let chain := _initialize_simple_blockchain (_simple_blockchain_data g) now utcnow in
  let after := get_blockchain_statistics g now utcnow clock in
  _simple_blockchain_data (fst after) = chain /\
  if List.forallb text_company chain then
    exists s, snd after = Operational s /\
              total_blocks s = Z.of_nat (List.length chain) /\
              total_blocks s = 1 + verification_blocks s + claim_analysis_blocks s /\
              0 <= companies_on_blockchain s <= verification_blocks s /\
              chain_integrity_valid s = true /\
              genesis_block_hash s = genesis_hash
  else snd after = StatisticsError AttributeError.
Proof.
  intros Hr chain after.
  pose proof (recorded_ledger_initialize _ now utcnow (api_reachable_recorded _ Hr)) as Hinv.
  assert (Hvalid : _validate_blockchain_integrity chain = true).
  { apply reachable_valid. eapply reach_step; [apply api_reachable_ledger, Hr|].
    constructor. }
  fold chain in Hinv. destruct Hinv as (gb & rest & n & u & Hc & Hg & Hrest).
  assert (Hdict : List.Forall (fun b => exists p, data b = VDict p) chain).
  { rewrite Hc. constructor.
    - rewrite Hg. eexists. reflexivity.
    - eapply List.Forall_impl; [|exact Hrest]. intros b (p & Hp & _). eauto. }
  assert (Hgen : forall kind, kind_is kind (genesis_block n u) = false ->
                 List.filter (kind_is kind) chain = List.filter (kind_is kind) rest).
  { intros kind Hk. rewrite Hc, Hg. cbn [List.filter]. rewrite Hk. reflexivity. }
  subst after. unfold get_blockchain_statistics. fold chain.
  rewrite !blocks_of_type_filter by exact Hdict. cbn [res_bind].
  pose proof (companies_of_cases (List.filter (kind_is "verification") chain) ∅) as Hco.
  rewrite forallb_text_company_filter in Hco by exact Hdict.
  assert (Hall : List.Forall (fun b => kind_is "verification" b = true)
                             (List.filter (kind_is "verification") chain)).
  { apply List.Forall_forall. intros b Hb. apply List.filter_In in Hb. tauto. }
  specialize (Hco Hall).
  destruct (List.forallb text_company chain).
  - destruct Hco as (s & Hs & Hle). rewrite Hs. cbn [res_bind fst snd].
    split; [reflexivity|]. eexists. split; [reflexivity|].
    cbn [total_blocks verification_blocks claim_analysis_blocks companies_on_blockchain
         chain_integrity_valid genesis_block_hash].
    rewrite size_empty in Hle.
    rewrite !Hgen by reflexivity. rewrite Hgen in Hle by reflexivity.
    pose proof (recorded_kind_split rest Hrest) as Hsplit.
    split; [reflexivity|]. split; [rewrite Hc; cbn [List.length]; lia|].
    split; [lia|]. split; [exact Hvalid|]. rewrite Hc, Hg. reflexivity.
  - rewrite Hco. cbn [res_bind fst snd]. split; reflexivity.
Qed.

Lemma statistics_of_api_ledger_witness :
  exists s, snd (get_blockchain_statistics (mkGlobals ApiExample.chain' None)
                   LedgerExample.t2 ApiExample.utc2 RegistryExample.clock)
            = Operational s /\
            total_blocks s = 3 /\ verification_blocks s = 1 /\ claim_analysis_blocks s = 1.
Proof.
  destruct (statistics_of_api_ledger (mkGlobals ApiExample.chain' None)
              LedgerExample.t2 ApiExample.utc2 RegistryExample.clock)
    as [_ H].
  - apply (api_next ApiExample.chain); [apply api_reachable_example|].
    eapply (api_add_claim_analysis 16 ApiExample.chain ApiExample.claim_data ApiExample.utc2
                                   LedgerExample.env2 LedgerExample.t2).
    vm_compute. reflexivity.
  - cbn [_simple_blockchain_data] in H.
    change (List.forallb text_company
              (_initialize_simple_blockchain ApiExample.chain' LedgerExample.t2 ApiExample.utc2))
      with true in H.
    destruct H as (s & Hs & Ht & Hsum & _). exists s. split; [exact Hs|].
    vm_compute in Hs. injection Hs as <-. vm_compute. auto.
Defined.

End StatisticsFacts.

(** ** Runs of a contract *)
Section TraceFacts.
Import Engine Trace.

Lemma history_gas_snoc history r :
  history_gas (history ++ [ r ]) = history_gas history + rec_gas_used r.
Proof.
  unfold history_gas. induction history as [|r' history IH]; simpl; [lia|].
  rewrite IH. lia.
Qed.

(** One call of [execute]: either the failure, which changes the state
    alone, or one more record, counted and paid for. *)
Lemma execute_step self inputs context env :
  let self' := fst (execute self inputs context env) in
  contract_id self' = contract_id self /\
  contract_type self' = contract_type self /\
  creator self' = creator self /\
  parameters self' = parameters self /\
  created_at self' = created_at self /\
  ((state self' = FAILED /\
    executed_count self' = executed_count self /\
    total_gas_used self' = total_gas_used self /\
    execution_history self' = execution_history self) \/
   (state self' = EXECUTED /\
    executed_count self' = executed_count self + 1 /\
    exists r,
      execution_history self' = List.app (execution_history self) [ r ] /\
      total_gas_used self' = total_gas_used self + rec_gas_used r /\
      rec_execution_id r = execution_id_of env (executed_count self + 1) /\
      rec_inputs r = inputs)).
Proof.
  intros self'. subst self'. rewrite execute_cases.
  destruct (dispatch self inputs context env) as [result|e].
  - destruct (_calculate_gas_usage self result _) as [gas_used|e].
    + cbn [fst]. repeat split. right. repeat split.
      eexists. repeat split.
    + cbn [fst]. repeat split. left. repeat split.
  - cbn [fst]. repeat split. left. repeat split.
Qed.

Lemma execute_all_snoc self calls c :
  execute_all self (calls ++ [ c ]) = execute_call (execute_all self calls) c.
Proof. unfold execute_all. rewrite fold_left_app. reflexivity. Qed.

Lemma execute_consistent self inputs context env :
  consistent self -> consistent (fst (execute self inputs context env)).
Proof.
  intros [Hc Hg].
  destruct (execute_step self inputs context env)
    as (_ & _ & _ & _ & _ & [(_ & Ec & Eg & Eh)|(_ & Ec & r & Eh & Eg & _)]);
    unfold consistent; rewrite Ec, Eg, Eh.
  - split; assumption.
  - rewrite length_app, history_gas_snoc. cbn [List.length]. split; lia.
Qed.

(** What any run of calls leaves of a newly created contract. *)
Lemma execute_all_counters cid t who params now calls :
  let c := execute_all (new_contract cid t who params now) calls in
  executed_count c = Z.of_nat (List.length (execution_history c)) /\
  total_gas_used c = history_gas (execution_history c) /\
  (List.length (execution_history c) <= List.length calls)%nat /\
  contract_id c = cid /\ contract_type c = t /\ creator c = who /\
  parameters c = params /\ created_at c = now /\
  (calls = [] -> state c = PENDING) /\
  (calls <> [] -> state c = EXECUTED \/ state c = FAILED).
Proof.
  induction calls as [|[[inputs context] env] calls IH] using rev_ind.
  - cbn. repeat split; try reflexivity; try lia. congruence.
  - intros c. subst c. rewrite execute_all_snoc. unfold execute_call. cbn [fst snd].
    cbv zeta in IH.
    destruct IH as (Hc & Hg & Hl & Hid & Ht & Hw & Hp & Hn & _).
    set (c := execute_all (new_contract cid t who params now) calls) in *.
    destruct (execute_consistent c inputs context env (conj Hc Hg)) as [Hc' Hg'].
    destruct (execute_step c inputs context env)
      as (Eid & Et & Ew & Ep & En & Hcase).
    rewrite Eid, Et, Ew, Ep, En, length_app. cbn [List.length].
    repeat split; try assumption.
    + destruct Hcase as [(_ & _ & _ & ->)|(_ & _ & r & -> & _)];
        [|rewrite length_app; cbn [List.length]]; lia.
    + intros E. apply app_eq_nil in E. destruct E as [_ E]. discriminate E.
    + intros _. destruct Hcase as [(-> & _)|(-> & _)]; auto.
Qed.

(** X8.  The counters of a contract are those of its history: after any
    sequence of calls of [execute] on a newly created contract,
    [executed_count] is the number of execution records, [total_gas_used]
    is the sum of their [gas_used], there are at most as many records as
    calls, the identity of the contract (id, type, creator, parameters,
    creation time) is unchanged, and the state is [PENDING] before the first
    call and [EXECUTED] or [FAILED] after it, never [ACTIVE] or
    [SUSPENDED]. *)
Theorem counters_match_history cid t who params now calls :
  let c := execute_all (new_contract cid t who params now) calls in
  executed_count c = Z.of_nat (List.length (execution_history c)) /\
  total_gas_used c = history_gas (execution_history c) /\
  (List.length (execution_history c) <= List.length calls)%nat /\
  contract_id c = cid /\ contract_type c = t /\ creator c = who /\
  parameters c = params /\ created_at c = now /\
  (calls = [] -> state c = PENDING) /\
  (calls <> [] -> state c = EXECUTED \/ state c = FAILED).
Proof. exact (execute_all_counters cid t who params now calls). Qed.

(** X9.  [execute] never rewrites or drops a record: after any sequence of
    calls on any contract, the history starts with the history before, the
    records added are as many as [executed_count] grew by, and at most one
    per call. *)
Theorem history_only_grows self calls :
  exists added,
    execution_history (execute_all self calls)
    = List.app (execution_history self) added /\
    executed_count (execute_all self calls)
    = executed_count self + Z.of_nat (List.length added) /\
    (List.length added <= List.length calls)%nat.
Proof.
  induction calls as [|[[inputs context] env] calls IH] using rev_ind.
  - exists []. cbn. rewrite app_nil_r. repeat split; lia.
  - destruct IH as (added & Hh & Hc & Hl).
    rewrite execute_all_snoc. unfold execute_call. cbn [fst snd].
    destruct (execute_step (execute_all self calls) inputs context env)
      as (_ & _ & _ & _ & _ & [(_ & Ec & _ & Eh)|(_ & Ec & r & Eh & _)]).
    + exists added. rewrite Ec, Eh, length_app. cbn [List.length].
      repeat split; [assumption|assumption|lia].
    + exists (List.app added [ r ]). rewrite Ec, Eh, Hh, Hc, !length_app.
      cbn [List.length]. rewrite app_assoc. repeat split; lia.
Qed.

Lemma execution_id_inj env n env' m :
  execution_id_of env n = execution_id_of env' m -> n = m.
Proof.
  unfold execution_id_of. cbn [append]. intros H.
  injection H as H.
  destruct (split_at_underscore _ _ _ _ (decimal_no_underscore _)
              (decimal_no_underscore _) H) as [_ Hn].
  apply decimal_inj. exact Hn.
Qed.

(** The record at position [k] of the history carries the count [k + 1]
    in its id. *)
Lemma history_ids cid t who params now calls k r :
  execution_history (execute_all (new_contract cid t who params now) calls) !! k = Some r ->
  exists env, rec_execution_id r = execution_id_of env (Z.of_nat k + 1).
Proof.
  revert k r. induction calls as [|[[inputs context] env] calls IH] using rev_ind;
    intros k r.
  - cbn. rewrite lookup_nil. discriminate.
  - rewrite execute_all_snoc. unfold execute_call. cbn [fst snd].
    set (c := execute_all (new_contract cid t who params now) calls) in *.
    destruct (execute_all_counters cid t who params now calls) as (Hc & _).
    fold c in Hc.
    destruct (execute_step c inputs context env)
      as (_ & _ & _ & _ & _ & [(_ & _ & _ & ->)|(_ & _ & r' & -> & _ & Hid & _)]).
    + apply IH.
    + intros Hk.
      destruct (Nat.lt_ge_cases k (List.length (execution_history c))) as [Hlt|Hge].
      * rewrite lookup_app_l in Hk by exact Hlt. apply IH. exact Hk.
      * pose proof (lookup_lt_Some _ _ _ Hk) as Hb. rewrite length_app in Hb.
        cbn [List.length] in Hb.
        assert (k = List.length (execution_history c)) as -> by lia.
        rewrite lookup_app_r in Hk by lia. rewrite Nat.sub_diag in Hk.
        injection Hk as <-. exists env. rewrite Hid, Hc. reflexivity.
Qed.

(** X10.  Within one contract no two execution records share an execution
    id: the id [EXEC_<int(time)>_<count>] of the record at position [k] of
    the history ends with the count [k + 1]. *)
Theorem execution_ids_distinct cid t who params now calls :
  let history := execution_history (execute_all (new_contract cid t who params now) calls) in
  List.NoDup (List.map rec_execution_id history) /\
  forall k r, history !! k = Some r ->
              exists env, rec_execution_id r = execution_id_of env (Z.of_nat k + 1).
Proof.
  intros history. split; [|intros k r; apply history_ids].
  apply NoDup_ListNoDup, NoDup_alt. intros i j x Hi Hj.
  rewrite list_lookup_fmap in Hi, Hj.
  destruct (history !! i) as [ri|] eqn:Ei; [|discriminate Hi].
  destruct (history !! j) as [rj|] eqn:Ej; [|discriminate Hj].
  cbn in Hi, Hj. injection Hi as Hi. injection Hj as Hj.
  destruct (history_ids _ _ _ _ _ _ _ _ Ei) as [ei Hei].
  destruct (history_ids _ _ _ _ _ _ _ _ Ej) as [ej Hej].
  assert (E : execution_id_of ei (Z.of_nat i + 1) = execution_id_of ej (Z.of_nat j + 1))
    by congruence.
  apply execution_id_inj in E. lia.
Qed.

End TraceFacts.

(** ** Runs of the registry *)
Section RegistryRunFacts.
Import Engine Registry Trace.

(** Ids of contracts of different types differ: already the first
    character after [SC_] does. *)
Lemma contract_id_type t now t' now' :
  contract_id_of t now = contract_id_of t' now' -> t = t'.
Proof.
  unfold contract_id_of. destruct t, t'; cbn [value append]; intros H;
    try reflexivity; discriminate H.
Qed.

Lemma stored_well_empty : stored_well (mkRegistry ∅ ∅).
Proof. intros cid c H. cbn in H. rewrite lookup_empty in H. discriminate H. Qed.

Lemma linked_empty : linked (mkRegistry ∅ ∅).
Proof. intros t cid H. cbn in H. rewrite lookup_empty in H. discriminate H. Qed.

Lemma deploy_stored_well self t who params now created :
  stored_well self ->
  stored_well (fst (deploy_contract self t who params now created)).
Proof.
  intros Hs cid c. unfold deploy_contract. cbn [fst contracts].
  destruct (decide (cid = contract_id_of t now)) as [->|Hne].
  - rewrite lookup_insert_eq. intros H. injection H as <-.
    cbn. repeat split; eauto; try discriminate.
  - rewrite lookup_insert_ne by congruence. apply Hs.
Qed.

Lemma deploy_linked self t who params now created :
  stored_well self -> linked self ->
  linked (fst (deploy_contract self t who params now created)).
Proof.
  intros Hs Hl t' cid. unfold deploy_contract. cbn [fst contracts contract_registry].
  destruct (decide (t' = t)) as [->|Hne].
  - rewrite lookup_insert_eq. intros H. injection H as <-.
    rewrite lookup_insert_eq. eexists. split; reflexivity.
  - rewrite lookup_insert_ne by congruence. intros H.
    destruct (Hl t' cid H) as (c & Hc & Ht).
    exists c. split; [|exact Ht].
    rewrite lookup_insert_ne; [exact Hc|].
    intros E. destruct (Hs cid c Hc) as (_ & [now' Hid] & _).
    rewrite Hid, Ht in E. apply contract_id_type in E. congruence.
Qed.

Lemma deploy_registered self t who params now created t' :
  is_Some (contract_registry self !! t') ->
  is_Some (contract_registry (fst (deploy_contract self t who params now created)) !! t').
Proof.
  unfold deploy_contract. cbn [fst contract_registry]. intros H.
  destruct (decide (t' = t)) as [->|Hne].
  - rewrite lookup_insert_eq. eauto.
  - rewrite lookup_insert_ne by congruence. exact H.
Qed.

Lemma execute_contract_cases self cid inputs context env :
  (contracts self !! cid = None /\
   execute_contract self cid inputs context env = (self, Raise KeyError)) \/
  (exists c, contracts self !! cid = Some c /\
             execute_contract self cid inputs context env
             = (mkRegistry (<[cid := fst (execute c inputs context env)]> (contracts self))
                           (contract_registry self),
                Ok (snd (execute c inputs context env)))).
Proof.
  unfold execute_contract. destruct (contracts self !! cid) as [c|]; [right|left; auto].
  exists c. split; [reflexivity|]. destruct (execute c inputs context env). reflexivity.
Qed.

Lemma execute_contract_registry self cid inputs context env :
  contract_registry (fst (execute_contract self cid inputs context env))
  = contract_registry self.
Proof.
  destruct (execute_contract_cases self cid inputs context env)
    as [[_ ->]|(c & _ & ->)]; reflexivity.
Qed.

Lemma execute_contract_stored_well self cid inputs context env :
  stored_well self ->
  stored_well (fst (execute_contract self cid inputs context env)).
Proof.
  intros Hs.
  destruct (execute_contract_cases self cid inputs context env)
    as [[_ ->]|(c & Hc & ->)]; [exact Hs|].
  cbn [fst]. intros cid' c'. cbn [contracts].
  destruct (decide (cid' = cid)) as [->|Hne].
  - rewrite lookup_insert_eq. intros H. injection H as <-.
    destruct (Hs cid c Hc) as (Hid & [now Hnow] & _ & Hcons).
    destruct (execute_step c inputs context env)
      as (Eid & Et & _ & _ & _ & Hcase).
    rewrite Eid, Et. split; [exact Hid|]. split; [eauto|].
    split; [|apply execute_consistent, Hcons].
    destruct Hcase as [(-> & _)|(-> & _)]; discriminate.
  - rewrite lookup_insert_ne by congruence. apply Hs.
Qed.

Lemma execute_contract_linked self cid inputs context env :
  linked self -> linked (fst (execute_contract self cid inputs context env)).
Proof.
  intros Hl.
  destruct (execute_contract_cases self cid inputs context env)
    as [[_ ->]|(c & Hc & ->)]; [exact Hl|].
  cbn [fst]. intros t cid' H. cbn [contract_registry] in H.
  destruct (Hl t cid' H) as (c' & Hc' & Ht). cbn [contracts].
  destruct (decide (cid' = cid)) as [->|Hne].
  - rewrite lookup_insert_eq. eexists. split; [reflexivity|].
    destruct (execute_step c inputs context env) as (_ & Et & _).
    rewrite Et. congruence.
  - rewrite lookup_insert_ne by congruence. eauto.
Qed.

(** One block of [execute_verification_contracts] on a registry in which
    the type is registered: the contract runs and its response is added. *)
Lemma run_registered_runs t key data env self results :
  stored_well self -> linked self -> all_registered self ->
  exists self' response,
    run_registered t key data env (self, Ok results)
    = (self', Ok (List.app results [ (key, response) ])) /\
    stored_well self' /\ linked self' /\ all_registered self'.
Proof.
  intros Hs Hl Ha. unfold run_registered.
  destruct (Ha t) as [cid Hcid]. rewrite Hcid.
  destruct (Hl t cid Hcid) as (c & Hc & _).
  pose proof (execute_contract_stored_well self cid data (VDict []) env Hs) as Hs'.
  pose proof (execute_contract_linked self cid data (VDict []) env Hl) as Hl'.
  pose proof (execute_contract_registry self cid data (VDict []) env) as Hr'.
  destruct (execute_contract_cases self cid data (VDict []) env)
    as [[Hn _]|(c' & Hc' & E)]; [congruence|].
  rewrite E in *. cbn [fst] in *.
  eexists _, _. split; [reflexivity|]. split; [exact Hs'|]. split; [exact Hl'|].
  intros t'. cbn [contract_registry]. apply Ha.
Qed.

Lemma run_registered_keeps t key data env acc :
  stored_well (fst acc) -> linked (fst acc) -> all_registered (fst acc) ->
  let after := fst (run_registered t key data env acc) in
  stored_well after /\ linked after /\ all_registered after.
Proof.
  destruct acc as [self [results|e]]; cbn [fst]; intros Hs Hl Ha.
  - destruct (run_registered_runs t key data env self results Hs Hl Ha)
      as (self' & r & -> & H). exact H.
  - cbn. auto.
Qed.

Lemma apply_op_keeps self op :
  stored_well self -> linked self -> all_registered self ->
  stored_well (apply_op self op) /\ linked (apply_op self op) /\
  all_registered (apply_op self op).
Proof.
  intros Hs Hl Ha.
  destruct op as [t who params now created|cid inputs context env|data e1 e2 e3];
    cbn [apply_op].
  - split; [apply deploy_stored_well, Hs|]. split; [apply deploy_linked; assumption|].
    intros t'. apply deploy_registered, Ha.
  - split; [apply execute_contract_stored_well, Hs|].
    split; [apply execute_contract_linked, Hl|].
    intros t'. rewrite execute_contract_registry. apply Ha.
  - unfold execute_verification_contracts.
    destruct (run_registered_keeps GREENWASHING_DETECTOR "greenwashing_detection" data e1
                (self, Ok []) Hs Hl Ha) as (H1 & H2 & H3).
    destruct (run_registered_keeps AUTOMATIC_FLAGGING "automatic_flagging" data e2 _ H1 H2 H3)
      as (H4 & H5 & H6).
    apply (run_registered_keeps SUSTAINABILITY_REWARDS "sustainability_rewards" data e3 _
             H4 H5 H6).
Qed.

Lemma run_keeps ops : forall self,
  stored_well self -> linked self -> all_registered self ->
  stored_well (run ops self) /\ linked (run ops self) /\ all_registered (run ops self).
Proof.
  induction ops as [|op ops IH]; intros self Hs Hl Ha; [auto|].
  cbn [run List.fold_left]. destruct (apply_op_keeps self op Hs Hl Ha) as (H1 & H2 & H3).
  apply (IH _ H1 H2 H3).
Qed.

Ltac other_id :=
  let E := fresh in intros E; apply contract_id_type in E; discriminate E.

(** What the constructor of the registry leaves in its two dicts. *)
Lemma new_blockchain_contents clock :
  let self := new_blockchain clock in
  size (contracts self) = 6%nat /\
  forall t,
    let cid := contract_id_of t (fst (clock t)) in
    contract_registry self !! t = Some cid /\
    exists params,
      In (t, params) default_contracts /\
      contracts self !! cid
      = Some (new_contract cid t "system@greenguard.com" params (snd (clock t))).
Proof.
  unfold new_blockchain, _deploy_default_contracts, default_contracts, deploy_contract.
  cbn [List.fold_left fst snd contracts contract_registry]. split.
  - repeat (rewrite map_size_insert_None;
            [|repeat (rewrite lookup_insert_ne by other_id); apply lookup_empty]).
    rewrite map_size_empty. reflexivity.
  - intros t. cbv zeta. split.
    + destruct t; repeat (rewrite lookup_insert_ne by discriminate);
        apply lookup_insert_eq.
    + destruct t; eexists;
        (split; [repeat (first [left; reflexivity | right])|]);
        repeat (rewrite lookup_insert_ne by other_id); apply lookup_insert_eq.
Qed.

(** X11.  The constructor of the registry always deploys six contracts, one
    per contract type, whatever the clock does: even within one second no
    two of them share an id.  Each type is registered under the id
    [SC_<type>_<int(time)>] of its deployment, and the contract stored
    under that id is new: [PENDING], no executions, no gas, created by
    [system@greenguard.com] with the default parameters of its type. *)
Theorem default_contracts_deployed clock :
  let self := new_blockchain clock in
  size (contracts self) = 6%nat /\
  forall t,
    let cid := contract_id_of t (fst (clock t)) in
    contract_registry self !! t = Some cid /\
    exists params,
      In (t, params) default_contracts /\
      contracts self !! cid
      = Some (new_contract cid t "system@greenguard.com" params (snd (clock t))).
Proof. exact (new_blockchain_contents clock). Qed.

Lemma new_blockchain_sound clock :
  stored_well (new_blockchain clock) /\ linked (new_blockchain clock) /\
  all_registered (new_blockchain clock).
Proof.
  destruct (new_blockchain_contents clock) as [_ Hd]. cbv zeta in Hd.
  assert (Hw : stored_well (new_blockchain clock) /\ linked (new_blockchain clock)).
  { unfold new_blockchain, _deploy_default_contracts, default_contracts.
    cbn [List.fold_left fst snd].
    repeat match goal with
           | |- stored_well (fst (deploy_contract ?r _ _ _ _ _)) /\ _ =>
               cut (stored_well r /\ linked r);
               [intros [? ?]; split;
                [apply deploy_stored_well; assumption
                |apply deploy_linked; assumption]|]
           end.
    split; [apply stored_well_empty | apply linked_empty]. }
  destruct Hw as [Hs Hl]. split; [exact Hs|]. split; [exact Hl|].
  intros t. destruct (Hd t) as [-> _]. eauto.
Qed.

Lemma reachable_registry_sound clock ops :
  let self := run ops (new_blockchain clock) in
  stored_well self /\ linked self /\ all_registered self.
Proof.
  destruct (new_blockchain_sound clock) as (Hs & Hl & Ha).
  apply run_keeps; assumption.
Qed.

(** X12.  On every registry reached from the constructor by deployments and
    executions, [execute_verification_contracts] raises no [KeyError] and
    runs exactly three contracts: it returns the responses of the
    greenwashing detector, of the automatic flagging and of the
    sustainability rewards, under these keys and in this order. *)
Theorem verification_contracts_always_run clock ops data env1 env2 env3 :
  exists detection flagging rewards,
    snd (execute_verification_contracts (run ops (new_blockchain clock)) data env1 env2 env3)
    = Ok [ ("greenwashing_detection", detection);
           ("automatic_flagging", flagging);
           ("sustainability_rewards", rewards) ].
Proof.
  destruct (reachable_registry_sound clock ops) as (Hs & Hl & Ha).
  unfold execute_verification_contracts.
  destruct (run_registered_runs GREENWASHING_DETECTOR "greenwashing_detection" data env1
              _ [] Hs Hl Ha) as (s1 & r1 & -> & Hs1 & Hl1 & Ha1).
  destruct (run_registered_runs AUTOMATIC_FLAGGING "automatic_flagging" data env2
              _ ([] ++ [ ("greenwashing_detection", r1) ])%list Hs1 Hl1 Ha1)
    as (s2 & r2 & -> & Hs2 & Hl2 & Ha2).
  destruct (run_registered_runs SUSTAINABILITY_REWARDS "sustainability_rewards" data env3
              _ (([] ++ [ ("greenwashing_detection", r1) ])
                 ++ [ ("automatic_flagging", r2) ])%list Hs2 Hl2 Ha2)
    as (s3 & r3 & -> & _).
  exists r1, r2, r3. reflexivity.
Qed.

Lemma sum_over_ext f g (m : gmap string GreenGuardSmartContract) :
  (forall cid c, m !! cid = Some c -> f c = g c) -> sum_over f m = sum_over g m.
Proof.
  induction m as [|cid c m Hfresh IH] using map_ind; intros H.
  - reflexivity.
  - rewrite !sum_over_insert_fresh by exact Hfresh.
    rewrite (H cid c) by apply lookup_insert_eq.
    rewrite IH; [reflexivity|].
    intros cid' c' Hc'. apply (H cid'). rewrite lookup_insert_ne; [exact Hc'|].
    intros ->. congruence.
Qed.

Lemma size_insert_grows (m : gmap string GreenGuardSmartContract) cid c :
  (size m <= size (<[cid := c]> m))%nat.
Proof.
  rewrite map_size_insert. destruct (m !! cid); cbn; lia.
Qed.

Lemma execute_contract_size self cid inputs context env :
  (size (contracts self)
   <= size (contracts (fst (execute_contract self cid inputs context env))))%nat.
Proof.
  destruct (execute_contract_cases self cid inputs context env)
    as [[_ ->]|(c & _ & ->)]; cbn [fst contracts]; [lia|apply size_insert_grows].
Qed.

Lemma run_registered_size t key data env acc :
  (size (contracts (fst acc))
   <= size (contracts (fst (run_registered t key data env acc))))%nat.
Proof.
  unfold run_registered. destruct acc as [self [results|e]]; [|cbn; lia].
  destruct (contract_registry self !! t) as [cid|]; [|cbn; lia].
  pose proof (execute_contract_size self cid data (VDict []) env) as H.
  destruct (execute_contract self cid data (VDict []) env) as [self' [r|e]]; exact H.
Qed.

Lemma run_size ops : forall self,
  (size (contracts self) <= size (contracts (run ops self)))%nat.
Proof.
  induction ops as [|op ops IH]; intros self; [cbn; lia|].
  cbn [run List.fold_left]. etransitivity; [|apply IH].
  destruct op as [t who params now created|cid inputs context env|data e1 e2 e3];
    cbn [apply_op].
  - unfold deploy_contract. cbn [fst contracts]. apply size_insert_grows.
  - apply execute_contract_size.
  - unfold execute_verification_contracts.
    etransitivity; [|apply run_registered_size].
    etransitivity; [|apply run_registered_size].
    etransitivity; [|apply run_registered_size]. cbn. lia.
Qed.

Lemma statistics_fields self stats :
  get_contract_statistics self = Ok stats ->
  total_contracts stats = Z.of_nat (size (contracts self)) /\
  total_executions stats = sum_over executed_count (contracts self) /\
  stat_total_gas_used stats = sum_over total_gas_used (contracts self) /\
  active_contracts stats = sum_over is_active (contracts self).
Proof.
  unfold get_contract_statistics.
  destruct (0 <? sum_over executed_count (contracts self)).
  - destruct (Py.num_truediv _ _); cbn; intros H; inversion H; repeat split.
  - cbn. intros H; inversion H; repeat split.
Qed.

(** X13.  [active_contracts] is always 0 and [total_contracts] never below
    6: on every registry reached from the constructor by deployments and
    executions, no stored contract is in the state [ACTIVE] when
    [get_contract_statistics] looks ([execute] leaves it [EXECUTED] or
    [FAILED]), and no contract is ever removed. *)
Theorem active_contracts_is_zero clock ops stats :
  get_contract_statistics (run ops (new_blockchain clock)) = Ok stats ->
  active_contracts stats = 0 /\ 6 <= total_contracts stats.
Proof.
  intros H. destruct (statistics_fields _ _ H) as (Hn & _ & _ & Ha).
  destruct (reachable_registry_sound clock ops) as (Hs & _).
  split.
  - rewrite Ha. rewrite (sum_over_ext is_active (fun _ => 0)).
    + generalize (contracts (run ops (new_blockchain clock))). intros m.
      induction m as [|cid c m Hfresh IH] using map_ind; [reflexivity|].
      rewrite sum_over_insert_fresh by exact Hfresh. lia.
    + intros cid c Hc. destruct (Hs cid c Hc) as (_ & _ & Hst & _).
      unfold is_active. destruct (state c); congruence.
  - rewrite Hn. pose proof (run_size ops (new_blockchain clock)) as Hsize.
    destruct (new_blockchain_contents clock) as [H6 _]. cbv zeta in H6. lia.
Qed.

Lemma active_contracts_is_zero_witness :
  exists stats,
    get_contract_statistics (run RegistryExample.run_detector RegistryExample.registry)
    = Ok stats /\ active_contracts stats = 0 /\ total_executions stats = 1.
Proof.
  destruct (get_contract_statistics (run RegistryExample.run_detector RegistryExample.registry))
    as [stats|e] eqn:E; [|vm_compute in E; discriminate E].
  exists stats. split; [reflexivity|].
  split; [apply (active_contracts_is_zero RegistryExample.clock RegistryExample.run_detector
                   stats E)|].
  vm_compute in E. injection E as <-. reflexivity.
Defined.

(** X14.  The statistics count what the histories hold: on every registry
    reached from the constructor by deployments and executions,
    [total_executions] is the number of execution records stored in the
    contracts and [total_gas_used] is the sum of the [gas_used] of these
    records. *)
Theorem statistics_match_records clock ops stats :
  get_contract_statistics (run ops (new_blockchain clock)) = Ok stats ->
  total_executions stats = records (run ops (new_blockchain clock)) /\
  stat_total_gas_used stats = recorded_gas (run ops (new_blockchain clock)).
Proof.
  intros H. destruct (statistics_fields _ _ H) as (_ & He & Hg & _).
  destruct (reachable_registry_sound clock ops) as (Hs & _).
  rewrite He, Hg. unfold records, recorded_gas.
  split; apply sum_over_ext; intros cid c Hc;
    destruct (Hs cid c Hc) as (_ & _ & _ & [E1 E2]); assumption.
Qed.

Lemma statistics_match_records_witness :
  exists stats,
    get_contract_statistics (run RegistryExample.run_detector RegistryExample.registry)
    = Ok stats /\
    records (run RegistryExample.run_detector RegistryExample.registry) = 1 /\
    stat_total_gas_used stats = 147.
Proof.
  destruct (get_contract_statistics (run RegistryExample.run_detector RegistryExample.registry))
    as [stats|e] eqn:E; [|vm_compute in E; discriminate E].
  exists stats. split; [reflexivity|].
  destruct (statistics_match_records RegistryExample.clock RegistryExample.run_detector
              stats E) as [Hr Hg].
  split.
  - unfold RegistryExample.registry. rewrite <- Hr.
    vm_compute in E. injection E as <-. reflexivity.
  - vm_compute in E. injection E as <-. reflexivity.
Defined.

End RegistryRunFacts.

(** ** The evaluators *)
Section EvaluatorFacts.
Import Engine.

(** The order of a number and the int literals is that of one rational
    [v / k] (or of a NaN, or of an infinity) and all of them. *)
Lemma compare_int_cases a :
  (forall n, Py.compare_int a n = None) \/
  (exists k v, 0 < k /\ forall n, Py.compare_int a n = Some (v ?= n * k)) \/
  (forall n, Py.compare_int a n = Some Lt) \/
  (forall n, Py.compare_int a n = Some Gt).
Proof.
  destruct a as [z|f]; cbn [Py.compare_int].
  - right. left. exists 1, z. split; [lia|]. intros n. rewrite Z.mul_1_r. reflexivity.
  - unfold PyFloat.compare_Z. destruct (Prim2SF f) as [s|s| |s m e].
    + right. left. exists 1, 0. split; [lia|]. intros n. rewrite Z.mul_1_r. reflexivity.
    + destruct s; [right; right; left | right; right; right]; reflexivity.
    + left. reflexivity.
    + right. left. destruct (0 <=? e) eqn:He.
      * exists 1, ((if s then Z.neg m else Z.pos m) * 2 ^ e). split; [lia|].
        intros n. rewrite Z.mul_1_r. reflexivity.
      * exists (2 ^ (- e)), (if s then Z.neg m else Z.pos m).
        split; [apply Z.pow_pos_nonneg; lia|]. reflexivity.
Qed.

(** The comparisons with a list of thresholds, settled together. *)
Ltac settle_thresholds a :=
  unfold Py.num_ge_int, Py.num_lt_int, Py.num_gt_int;
  destruct (compare_int_cases a) as [Hnan|[(k & v & Hk & Hcmp)|[Hlow|Hhigh]]];
  [ rewrite ?Hnan
  | rewrite ?Hcmp;
    repeat match goal with
           | |- context [ v ?= ?n * k ] =>
               let H := fresh in
               destruct (Z.compare_spec v (n * k)) as [H|H|H]
           end
  | rewrite ?Hlow
  | rewrite ?Hhigh ].

Lemma ge_int_num v a n : Py.as_num v = Some a -> Py.ge_int v n = Ok (Py.num_ge_int a n).
Proof. unfold Py.ge_int. intros ->. reflexivity. Qed.

Lemma ge_int_ok v n b : Py.ge_int v n = Ok b -> exists a, Py.as_num v = Some a.
Proof. unfold Py.ge_int. destruct (Py.as_num v); [eauto|discriminate]. Qed.

(** X15.  Whatever the inputs, when the SustainabilityRewards evaluator
    returns, the fields of its result agree: [eligible_for_promotion] is
    true exactly for the tiers SILVER, GOLD and PLATINUM, the badge is
    [NO_BADGE] exactly for the tier NONE, and [next_tier_requirement] is
    the threshold of the next tier (300, 500, 700, 900), [MAX_TIER] for
    PLATINUM alone. *)
Theorem rewards_fields_agree self inputs context result :
  _sustainability_rewards_contract self inputs context = Ok result ->
  exists d tier badge eligible next,
    result = VDict d /\
    Py.lookup d "tier" = Some (VStr tier) /\
    Py.lookup d "badge_earned" = Some (VStr badge) /\
    Py.lookup d "eligible_for_promotion" = Some (VBool eligible) /\
    Py.lookup d "next_tier_requirement" = Some next /\
    In (tier, badge, eligible, next)
       [ ("PLATINUM", "SUSTAINABILITY_CHAMPION", true, VStr "MAX_TIER");
         ("GOLD", "SUSTAINABILITY_LEADER", true, VInt 900);
         ("SILVER", "SUSTAINABILITY_ADVOCATE", true, VInt 700);
         ("BRONZE", "SUSTAINABILITY_BEGINNER", false, VInt 500);
         ("NONE", "NO_BADGE", false, VInt 300) ].
Proof.
  unfold _sustainability_rewards_contract.
  destruct (Py.get inputs "company_name" _) as [name|]; [|discriminate]. cbn [res_bind].
  destruct (Py.get inputs "verification_score" _) as [score|]; [|discriminate].
  cbn [res_bind].
  destruct (Py.get inputs "transparency_level" _) as [level|]; [|discriminate].
  cbn [res_bind].
  destruct (Py.get inputs "certifications" _) as [certs|]; [|discriminate].
  cbn [res_bind].
  destruct (Py.mul_int level 20) as [bonus|]; [|discriminate]. cbn [res_bind].
  destruct (Py.len certs) as [n|]; [|discriminate]. cbn [res_bind].
  destruct (Py.add score bonus) as [partial|]; [|discriminate]. cbn [res_bind].
  destruct (Py.add partial _) as [total|]; [|discriminate]. cbn [res_bind].
  destruct (Py.ge_int total 900) as [ge900|] eqn:E9; [|discriminate].
  destruct (ge_int_ok _ _ _ E9) as [a Ha].
  rewrite (ge_int_num _ _ _ Ha) in E9. injection E9 as <-.
  rewrite !(ge_int_num _ _ _ Ha). cbn [res_bind].
  assert (Hmono : (Py.num_ge_int a 900 = true -> Py.num_ge_int a 700 = true) /\
                  (Py.num_ge_int a 700 = true -> Py.num_ge_int a 500 = true) /\
                  (Py.num_ge_int a 500 = true -> Py.num_ge_int a 300 = true)).
  { settle_thresholds a; repeat split; intros; first [reflexivity | discriminate | lia]. }
  destruct Hmono as (H97 & H75 & H53).
  destruct (Py.num_ge_int a 900), (Py.num_ge_int a 700), (Py.num_ge_int a 500),
    (Py.num_ge_int a 300);
    try discriminate (H97 eq_refl); try discriminate (H75 eq_refl);
    try discriminate (H53 eq_refl);
    cbv beta iota;
    (destruct (Py.ge_int score 95) as [s95|]; cbn [res_bind]; [|discriminate]);
    (destruct (Py.ge_int level 90) as [l90|]; cbn [res_bind]; [|discriminate]);
    intros H; injection H as <-;
    (eexists _, _, _, _, _; split; [reflexivity|];
     do 4 (split; [reflexivity|]); cbn [In]; tauto).
Qed.

Lemma rewards_fields_agree_witness :
  exists d, _sustainability_rewards_contract EngineExample.detector
              (VDict [ ("verification_score", VInt 80); ("transparency_level", VInt 95);
                       ("certifications", VList [ VInt 1; VInt 2; VInt 3; VInt 4; VInt 5 ]) ])
              (VDict []) = Ok (VDict d) /\
            Py.lookup d "points_awarded" = Some (VInt 2230) /\
            Py.lookup d "tier" = Some (VStr "PLATINUM").
Proof.
  destruct (rewards_fields_agree EngineExample.detector
              (VDict [ ("verification_score", VInt 80); ("transparency_level", VInt 95);
                       ("certifications", VList [ VInt 1; VInt 2; VInt 3; VInt 4; VInt 5 ]) ])
              (VDict []) _ eq_refl) as (d & tier & _ & _ & _ & Hd & _).
  injection Hd as Hd. exists d. rewrite <- Hd. repeat split.
Defined.


(** X16.  With int inputs the SustainabilityRewards evaluator awards
    [verification_score + 20 * transparency_level + 50 * len(certifications)]
    points; the tier, the badge and the next requirement follow from the
    points by the thresholds 900, 700, 500 and 300,
    [eligible_for_promotion] holds from 500 points on, and the special
    rewards are those of a score of at least 95, of at least 5
    certifications and of a transparency level of at least 90. *)
Theorem rewards_points_and_tier self inputs context name score level certs :
  Py.get inputs "company_name" (VStr "Unknown") = Ok name ->
  Py.get inputs "verification_score" (VInt 0) = Ok (VInt score) ->
  Py.get inputs "transparency_level" (VInt 0) = Ok (VInt level) ->
  Py.get inputs "certifications" (VList []) = Ok (VList certs) ->
  let n := Z.of_nat (List.length certs) in
  let points := score + level * 20 + n * 50 in
  _sustainability_rewards_contract self inputs context
  = Ok (VDict
          [ ("contract_type", VStr "sustainability_rewards");
            ("company_name", name);
            ("points_awarded", VInt points);
            ("badge_earned", VStr (RewardsRules.badge_of points));
            ("tier", VStr (RewardsRules.tier_of points));
            ("special_rewards", strs (RewardsRules.special_rewards score level n));
            ("eligible_for_promotion", VBool (500 <=? points));
            ("next_tier_requirement", RewardsRules.next_requirement points) ]).
Proof.
  intros Hn Hs Hl Hc n points.
  unfold _sustainability_rewards_contract. rewrite Hn, Hs, Hl, Hc.
  cbn [res_bind Py.mul_int Py.as_num Py.num_mul Py.num_arith Py.of_num Py.len Py.add
       Py.num_add Py.ge_int].
  fold n. fold points.
  assert (Hge : forall z m, Py.num_ge_int (Py.NInt z) m = (m <=? z)).
  { intros z m. unfold Py.num_ge_int, Py.compare_int.
    destruct (Z.compare_spec z m); destruct (Z.leb_spec m z); try reflexivity; lia. }
  rewrite !Hge.
  unfold RewardsRules.badge_of, RewardsRules.tier_of, RewardsRules.next_requirement,
    RewardsRules.special_rewards.
  destruct (900 <=? points); [reflexivity|].
  destruct (700 <=? points); [reflexivity|].
  destruct (500 <=? points); [reflexivity|].
  destruct (300 <=? points); reflexivity.
Qed.

Lemma rewards_points_and_tier_witness :
  exists d, _sustainability_rewards_contract EngineExample.detector
              (VDict [ ("verification_score", VInt 80); ("transparency_level", VInt 95);
                       ("certifications", VList [ VInt 1; VInt 2; VInt 3; VInt 4; VInt 5 ]) ])
              (VDict []) = Ok (VDict d) /\
            Py.lookup d "points_awarded" = Some (VInt 2230) /\
            Py.lookup d "tier" = Some (VStr "PLATINUM") /\
            Py.lookup d "special_rewards"
            = Some (strs [ "CERTIFICATION_MASTER"; "OPENNESS_CHAMPION" ]).
Proof.
  eexists. split.
  - apply (rewards_points_and_tier EngineExample.detector _ (VDict []) (VStr "Unknown")
             80 95 [ VInt 1; VInt 2; VInt 3; VInt 4; VInt 5 ]); reflexivity.
  - repeat split.
Defined.

Lemma lower_char_idempotent c : Py.lower_char (Py.lower_char c) = Py.lower_char c.
Proof. destruct c as [[] [] [] [] [] [] [] []]; reflexivity. Qed.

Lemma lower_idempotent s : Py.lower (Py.lower s) = Py.lower s.
Proof.
  induction s as [|c s IH]; [reflexivity|].
  cbn [Py.lower]. rewrite lower_char_idempotent, IH. reflexivity.
Qed.

(** The AutomaticFlagging evaluator reads the claim through its lowercase
    form alone. *)
Lemma flagging_by_lowercase self inputs inputs' context claim claim' name :
  Py.get inputs "claim" (VStr "") = Ok (VStr claim) ->
  Py.get inputs "company_name" (VStr "Unknown") = Ok name ->
  Py.get inputs' "claim" (VStr "") = Ok (VStr claim') ->
  Py.get inputs' "company_name" (VStr "Unknown") = Ok name ->
  Py.lower claim' = Py.lower claim ->
  _automatic_flagging_contract self inputs' context
  = _automatic_flagging_contract self inputs context.
Proof.
  intros Hc Hn Hc' Hn' Hl. unfold _automatic_flagging_contract.
  rewrite Hc, Hn, Hc', Hn'. cbn [res_bind Py.lower_of]. rewrite Hl. reflexivity.
Qed.

(** X17.  On every string claim the AutomaticFlagging evaluator returns,
    and the fields of its result agree: the risk score is 30 per red-flag
    keyword found (of 9), plus 40 for three vague terms, plus 50 for two
    absolute terms, so a multiple of 10 from 0 to 360; there is one flag
    per contribution, so [auto_flagged] holds exactly when the risk score
    is positive; [requires_manual_review] holds exactly from 70 on, that is
    for the priorities HIGH and CRITICAL; and the claim counts through its
    lowercase form alone, so two claims that differ in case get the same
    result. *)
Theorem flagging_fields_agree self inputs context claim name :
  Py.get inputs "claim" (VStr "") = Ok (VStr claim) ->
  Py.get inputs "company_name" (VStr "Unknown") = Ok name ->
  (exists flags risk action priority,
     _automatic_flagging_contract self inputs context
     = Ok (VDict
             [ ("contract_type", VStr "automatic_flagging");
               ("company_name", name);
               ("flags_triggered", strs flags);
               ("risk_score", VInt risk);
               ("recommended_action", VStr action);
               ("priority", VStr priority);
               ("requires_manual_review", VBool (70 <=? risk));
               ("auto_flagged", VBool (0 <? risk)) ]) /\
     0 <= risk <= 360 /\ risk mod 10 = 0 /\
     (List.length flags <= 11)%nat /\
     (0 < risk <-> flags <> []) /\
     (action, priority)
     = if 100 <=? risk then ("IMMEDIATE_SUSPENSION", "CRITICAL")
       else if 70 <=? risk then ("REQUIRE_IMMEDIATE_VERIFICATION", "HIGH")
       else if 40 <=? risk then ("REQUEST_EVIDENCE", "MEDIUM")
       else ("MONITOR", "LOW")) /\
  _automatic_flagging_contract self
    (VDict [ ("claim", VStr (Py.lower claim)); ("company_name", name) ]) context
  = _automatic_flagging_contract self inputs context.
Proof.
  intros Hc Hn. split.
  2:{ apply (flagging_by_lowercase self inputs _ context claim (Py.lower claim) name);
        try assumption; try reflexivity. apply lower_idempotent. }
  unfold _automatic_flagging_contract. rewrite Hc, Hn. cbn [res_bind Py.lower_of].
  set (text := Py.lower claim).
  set (hits := List.filter (fun keyword => Py.contains keyword text) red_flag_keywords).
  assert (Hhits : (List.length hits <= 9)%nat).
  { subst hits. etransitivity; [apply filter_length_le|]. cbn. lia. }
  set (vague := 3 <=? count_in vague_terms text).
  set (absolute := 2 <=? count_in absolute_terms text).
  set (flags0 := List.map (fun keyword => "RED_FLAG_KEYWORD: " ++ keyword) hits).
  assert (Hf0 : List.length flags0 = List.length hits) by apply length_map.
  set (flags1 := if vague then List.app flags0 [ "EXCESSIVE_VAGUE_LANGUAGE" ] else flags0).
  set (flags2 := if absolute then List.app flags1 [ "ABSOLUTE_CLAIMS_WITHOUT_PROOF" ]
                 else flags1).
  set (risk0 := 30 * Z.of_nat (List.length hits)).
  set (risk1 := if vague then risk0 + 40 else risk0).
  set (risk2 := if absolute then risk1 + 50 else risk1).
  assert (Hlen : risk2 = 30 * Z.of_nat (List.length hits)
                         + (if vague then 40 else 0) + (if absolute then 50 else 0) /\
                 List.length flags2
                 = (List.length hits + (if vague then 1 else 0)
                    + (if absolute then 1 else 0))%nat).
  { subst risk2 risk1 risk0 flags2 flags1.
    destruct vague, absolute; rewrite ?length_app, Hf0; cbn [List.length]; split; lia. }
  destruct Hlen as [Hrisk Hflags].
  assert (Hpos : (0 <? Z.of_nat (List.length flags2)) = (0 <? risk2)).
  { rewrite Hrisk, Hflags. destruct vague, absolute;
      repeat match goal with
             | |- context [ 0 <? ?r ] => destruct (Z.ltb_spec 0 r)
             end; try reflexivity; lia. }
  rewrite Hpos.
  exists flags2, risk2,
    (fst (if 100 <=? risk2 then ("IMMEDIATE_SUSPENSION", "CRITICAL")
          else if 70 <=? risk2 then ("REQUIRE_IMMEDIATE_VERIFICATION", "HIGH")
          else if 40 <=? risk2 then ("REQUEST_EVIDENCE", "MEDIUM")
          else ("MONITOR", "LOW"))),
    (snd (if 100 <=? risk2 then ("IMMEDIATE_SUSPENSION", "CRITICAL")
          else if 70 <=? risk2 then ("REQUIRE_IMMEDIATE_VERIFICATION", "HIGH")
          else if 40 <=? risk2 then ("REQUEST_EVIDENCE", "MEDIUM")
          else ("MONITOR", "LOW"))).
  split; [|split; [|split; [|split; [|split]]]].
  - destruct (100 <=? risk2); [reflexivity|].
    destruct (70 <=? risk2); [reflexivity|].
    destruct (40 <=? risk2); reflexivity.
  - rewrite Hrisk. destruct vague, absolute; lia.
  - rewrite Hrisk.
    replace (30 * Z.of_nat (List.length hits) + (if vague then 40 else 0)
             + (if absolute then 50 else 0))
      with ((3 * Z.of_nat (List.length hits) + (if vague then 4 else 0)
             + (if absolute then 5 else 0)) * 10)
      by (destruct vague, absolute; lia).
    apply Z.mod_mul. lia.
  - rewrite Hflags. destruct vague, absolute; lia.
  - rewrite Hrisk. split.
    + intros Hr E. apply (f_equal (@List.length string)) in E. rewrite Hflags in E.
      cbn [List.length] in E. destruct vague, absolute; lia.
    + intros Hne.
      destruct (Nat.eq_dec (List.length flags2) 0%nat) as [E|E];
        [apply List.length_zero_iff_nil in E; congruence|].
      rewrite Hflags in E. destruct vague, absolute; lia.
  - destruct (100 <=? risk2); [reflexivity|].
    destruct (70 <=? risk2); [reflexivity|].
    destruct (40 <=? risk2); reflexivity.
Qed.

Lemma flagging_fields_agree_witness :
  exists d, _automatic_flagging_contract EngineExample.detector
              (VDict [ ("claim", VStr "Our product is 100% Natural and Totally Green") ])
              (VDict []) = Ok (VDict d) /\
            Py.lookup d "risk_score" = Some (VInt 110) /\
            Py.lookup d "priority" = Some (VStr "CRITICAL").
Proof.
  destruct (flagging_fields_agree EngineExample.detector
              (VDict [ ("claim", VStr "Our product is 100% Natural and Totally Green") ])
              (VDict []) "Our product is 100% Natural and Totally Green" (VStr "Unknown")
              eq_refl eq_refl) as [(flags & risk & action & priority & H & _) _].
  eexists. split; [exact H|].
  pose proof H as E. vm_compute in E. inversion E; subst. repeat split.
Defined.


(** X18.  The claim the AutomaticFlagging contract needs: with no [claim]
    among the inputs, the evaluator takes the empty text and reports no
    flag, risk score 0, MONITOR at priority LOW; with a [claim] that is not
    a string, or inputs that are not a dict, [execute] fails with an
    [AttributeError]: the contract becomes [FAILED], nothing is counted and
    the response is the failure dict with gas 50. *)
Theorem flagging_claim_edge_cases c inputs context env :
  contract_type c = AUTOMATIC_FLAGGING ->
  (forall d, inputs = VDict d -> Py.lookup d "claim" = None ->
             dispatch c inputs context env
             = Ok (VDict
                     [ ("contract_type", VStr "automatic_flagging");
                       ("company_name", Fields.get_or d "company_name" (VStr "Unknown"));
                       ("flags_triggered", VList []);
                       ("risk_score", VInt 0);
                       ("recommended_action", VStr "MONITOR");
                       ("priority", VStr "LOW");
                       ("requires_manual_review", VBool false);
                       ("auto_flagged", VBool false) ])) /\
  ((forall d, inputs <> VDict d) \/
   (exists d v, inputs = VDict d /\ Py.lookup d "claim" = Some v /\
                forall s, v <> VStr s) ->
   execute c inputs context env
   = (set_state FAILED c, Failure (contract_id c) AttributeError 50)).
Proof.
  intros Ht. split.
  - intros d -> Hd. unfold dispatch. rewrite Ht.
    unfold _automatic_flagging_contract. rewrite !get_dict.
    unfold Fields.get_or at 1. rewrite Hd. reflexivity.
  - intros H. rewrite execute_cases.
    replace (dispatch c inputs context env) with (@Raise pyval AttributeError);
      [reflexivity|].
    unfold dispatch. rewrite Ht. unfold _automatic_flagging_contract.
    destruct H as [H|(d & v & -> & Hd & Hv)].
    + destruct inputs; try reflexivity. exfalso. eapply H. reflexivity.
    + rewrite get_dict. unfold Fields.get_or. rewrite Hd. cbn [res_bind].
      destruct v; try reflexivity. exfalso. eapply Hv. reflexivity.
Qed.

Lemma flagging_claim_edge_cases_witness :
  state (fst (execute (new_contract "SC_automatic_flagging_1700000000" AUTOMATIC_FLAGGING
                                    "system@greenguard.com" (VDict []) 1700000000.5%float)
                      (VDict [ ("claim", VInt 5) ]) (VDict []) EngineExample.env))
  = FAILED.
Proof.
  destruct (flagging_claim_edge_cases
              (new_contract "SC_automatic_flagging_1700000000" AUTOMATIC_FLAGGING
                            "system@greenguard.com" (VDict []) 1700000000.5%float)
              (VDict [ ("claim", VInt 5) ]) (VDict []) EngineExample.env eq_refl)
    as [_ H].
  rewrite H; [reflexivity|].
  right. exists [ ("claim", VInt 5) ], (VInt 5). repeat split. discriminate.
Defined.

Lemma table_get_values {A : Type} (table : list (string * A)) key default x :
  Py.table_get table key default = Ok x -> In x (default :: List.map snd table).
Proof.
  unfold Py.table_get.
  destruct key as [| | | |s| |]; intros H; try discriminate H;
    injection H as <-; try (left; reflexivity).
  destruct (List.find _ table) as [kv|] eqn:E; [|left; reflexivity].
  right. apply List.find_some in E. destruct E as [E _].
  apply List.in_map. exact E.
Qed.

Lemma bounty_all_within : BountyRules.all_within = true.
Proof. vm_compute. reflexivity. Qed.

Lemma quality_listed q : 0 <= q <= 100 -> In q BountyRules.qualities.
Proof.
  intros Hq. unfold BountyRules.qualities. apply List.in_map_iff. exists (Z.to_nat q).
  split; [lia|]. apply List.in_seq. lia.
Qed.

Lemma all_within_spec :
  BountyRules.all_within = true ->
  forall base speed q,
    In base BountyRules.base_bounties -> In speed BountyRules.speed_bonuses ->
    In q BountyRules.qualities ->
    BountyRules.within 0 150 (BountyRules.bounty_of base q speed) = true.
Proof.
  unfold BountyRules.all_within. intros H base speed q Hb Hs Hq.
  rewrite List.forallb_forall in H. specialize (H base Hb).
  rewrite List.forallb_forall in H. specialize (H speed Hs).
  rewrite List.forallb_forall in H. exact (H q Hq).
Qed.

Lemma bounty_of_within base speed q :
  In base BountyRules.base_bounties -> In speed BountyRules.speed_bonuses ->
  0 <= q <= 100 ->
  exists b, BountyRules.bounty_of base q speed = Ok b /\ 0 <= b <= 150.
Proof.
  intros Hb Hs Hq.
  pose proof (all_within_spec bounty_all_within base speed q Hb Hs (quality_listed q Hq))
    as H.
  unfold BountyRules.within in H.
  destruct (BountyRules.bounty_of base q speed) as [b|]; [|discriminate H].
  exists b. split; [reflexivity|]. lia.
Qed.

(** X19.  The bounty stays within bounds: for an int quality from 0 to 100,
    whenever the VerificationBounty evaluator returns, [bounty_awarded] is
    the level bonus of the verifier (0, 10, 25 or 50 by the thresholds 10,
    50 and 100 on the number of past verifications) plus a quality part
    from 0 to 150, hence at most 200; and with string (or missing)
    complexity and speed and no verifier history it does return. *)
Theorem bounty_is_bounded self inputs context quality :
  Py.get inputs "verification_quality" (VInt 0) = Ok (VInt quality) ->
  0 <= quality <= 100 ->
  (forall result,
      _verification_bounty_contract self inputs context = Ok result ->
      exists d history part,
        result = VDict d /\
        Py.get context "verifier_history" (VList []) = Ok history /\
        0 <= part <= 150 /\
        exists n, Py.len history = Ok n /\
        Py.lookup d "bounty_awarded" = Some (VInt (part + BountyRules.level_bonus n)) /\
        0 <= part + BountyRules.level_bonus n <= 200) /\
  (forall d complexity speed,
      inputs = VDict d ->
      Fields.get_or d "claim_complexity" (VStr "SIMPLE") = VStr complexity ->
      Fields.get_or d "verification_speed" (VStr "NORMAL") = VStr speed ->
      Py.get context "verifier_history" (VList []) = Ok (VList []) ->
      exists result, _verification_bounty_contract self inputs context = Ok result).
Proof.
  intros Hq Hrange.
  assert (Hlevel : forall n, 0 <= BountyRules.level_bonus n <= 50).
  { intros n. unfold BountyRules.level_bonus.
    destruct (100 <=? n); [lia|]. destruct (50 <=? n); [lia|].
    destruct (10 <=? n); lia. }
  split.
  - intros result. unfold _verification_bounty_contract.
    destruct (Py.get inputs "verifier_email" _) as [email|]; [|discriminate].
    cbn [res_bind]. rewrite Hq. cbn [res_bind].
    destruct (Py.get inputs "claim_complexity" _) as [complexity|]; [|discriminate].
    cbn [res_bind].
    destruct (Py.get inputs "verification_speed" _) as [speed|]; [|discriminate].
    cbn [res_bind].
    destruct (Py.table_get _ complexity 10) as [base|] eqn:Eb; [|discriminate].
    cbn [res_bind].
    destruct (Py.truediv_int (VInt quality) 100) as [qm|] eqn:Eq; [|discriminate].
    cbn [res_bind].
    destruct (Py.table_get _ speed 1.0%float) as [bonus|] eqn:Es; [|discriminate].
    cbn [res_bind].
    apply table_get_values in Eb, Es.
    assert (Hb : In base BountyRules.base_bounties).
    { cbn in Eb |- *. intuition. }
    assert (Hs : In bonus BountyRules.speed_bonuses).
    { cbn in Es |- *. intuition. }
    destruct (bounty_of_within base bonus quality Hb Hs Hrange) as (part & Hpart & Hp).
    unfold BountyRules.bounty_of in Hpart. rewrite Eq in Hpart. cbn [res_bind] in Hpart.
    unfold BountyRules.scaled in Hpart.
    destruct (Py.num_mul (Py.NInt base) (Py.NFloat qm)) as [w1|]; [|discriminate Hpart].
    cbn [res_bind] in Hpart |- *.
    destruct (Py.num_mul w1 (Py.NFloat bonus)) as [w2|]; [|discriminate Hpart].
    cbn [res_bind] in Hpart |- *.
    destruct (Py.to_float w2) as [w3|]; [|discriminate Hpart].
    cbn [res_bind] in Hpart |- *. rewrite Hpart. cbn [res_bind].
    destruct (Py.get context "verifier_history" _) as [history|]; [|discriminate].
    cbn [res_bind].
    destruct (Py.len history) as [n|] eqn:En; [|discriminate]. cbn [res_bind].
    pose proof (Hlevel n) as Hn. unfold BountyRules.level_bonus in Hn.
    destruct (100 <=? n) eqn:E100;
      [|destruct (50 <=? n) eqn:E50; [|destruct (10 <=? n) eqn:E10]];
      cbv beta iota;
      (destruct (Py.iter history) as [entries|]; [|discriminate]); cbn [res_bind];
      (destruct (Py.sum_from _ _ entries) as [earned|]; [|discriminate]); cbn [res_bind];
      (destruct (Py.add earned _) as [total|]; [|discriminate]); cbn [res_bind];
      intros H; injection H as <-;
      (eexists _, history, part; split; [reflexivity|]; split; [reflexivity|];
       split; [exact Hp|]; exists n; split; [exact En|];
       unfold BountyRules.level_bonus; rewrite ?E100, ?E50, ?E10;
       split; [reflexivity|lia]).
  - intros d complexity speed -> Hc Hs Hh. unfold _verification_bounty_contract.
    rewrite !get_dict, Hh. rewrite get_dict in Hq. injection Hq as Hq.
    rewrite Hq, Hc, Hs. cbn [res_bind Py.table_get].
    set (base := match List.find _ _ with Some kv => snd kv | None => 10 end).
    set (bonus := match List.find _ _ with Some kv => snd kv | None => 1.0%float end).
    assert (Hb : In base BountyRules.base_bounties).
    { pose proof (table_get_values
                    [ ("SIMPLE", 10); ("MODERATE", 25); ("COMPLEX", 50); ("EXPERT", 100) ]
                    (VStr complexity) 10 base eq_refl) as H. cbn in H |- *. intuition. }
    assert (Hs' : In bonus BountyRules.speed_bonuses).
    { pose proof (table_get_values
                    [ ("INSTANT", 1.5%float); ("FAST", 1.2%float);
                      ("NORMAL", 1.0%float); ("SLOW", 0.8%float) ]
                    (VStr speed) 1.0%float bonus eq_refl) as H. cbn in H |- *. intuition. }
    destruct (bounty_of_within base bonus quality Hb Hs' Hrange) as (part & Hpart & Hp).
    unfold BountyRules.bounty_of in Hpart.
    destruct (Py.truediv_int (VInt quality) 100) as [qm|]; [|discriminate Hpart].
    cbn [res_bind] in Hpart |- *. unfold BountyRules.scaled in Hpart.
    destruct (Py.num_mul (Py.NInt base) (Py.NFloat qm)) as [w1|]; [|discriminate Hpart].
    cbn [res_bind] in Hpart |- *.
    destruct (Py.num_mul w1 (Py.NFloat bonus)) as [w2|]; [|discriminate Hpart].
    cbn [res_bind] in Hpart |- *.
    destruct (Py.to_float w2) as [w3|]; [|discriminate Hpart].
    cbn [res_bind] in Hpart |- *. rewrite Hpart.
    cbn. eexists. reflexivity.
Qed.


Lemma bounty_is_bounded_witness :
  exists d, _verification_bounty_contract EngineExample.detector
              (VDict [ ("verification_quality", VInt 85);
                       ("claim_complexity", VStr "MODERATE");
                       ("verification_speed", VStr "FAST") ])
              (VDict [ ("verifier_history", VList []) ]) = Ok (VDict d) /\
            Py.lookup d "bounty_awarded" = Some (VInt 25).
Proof.
  destruct (bounty_is_bounded EngineExample.detector
              (VDict [ ("verification_quality", VInt 85);
                       ("claim_complexity", VStr "MODERATE");
                       ("verification_speed", VStr "FAST") ])
              (VDict [ ("verifier_history", VList []) ]) 85 eq_refl) as [_ Hreturns];
    [lia|].
  destruct (Hreturns _ "MODERATE" "FAST" eq_refl eq_refl eq_refl eq_refl) as [result Hr].
  pose proof Hr as E. vm_compute in E. injection E as <-.
  eexists. split; [exact Hr|]. reflexivity.
Defined.


(** X20.  Whatever the inputs, when the TransparencyTracker evaluator
    returns, the recognition level and the recommended improvements agree:
    the recommendations are the first [k] of the five fixed ones, in their
    order, with [k = 0] for TRANSPARENCY_CHAMPION, 1 for
    TRANSPARENCY_LEADER, 2 for TRANSPARENCY_PRACTITIONER, 3 for
    TRANSPARENCY_BEGINNER, and 4 or 5 for TRANSPARENCY_NEEDED (none at all
    when the score is not a number, which also reads
    TRANSPARENCY_NEEDED). *)
Theorem recognition_matches_recommendations self inputs context result :
  _transparency_tracker_contract self inputs context = Ok result ->
  exists d level k,
    result = VDict d /\
    Py.lookup d "recognition_level" = Some (VStr level) /\
    Py.lookup d "recommended_improvements"
    = Some (strs (List.firstn k TransparencyRules.all_recommendations)) /\
    In (level, k)
       [ ("TRANSPARENCY_CHAMPION", 0%nat);
         ("TRANSPARENCY_LEADER", 1%nat);
         ("TRANSPARENCY_PRACTITIONER", 2%nat);
         ("TRANSPARENCY_BEGINNER", 3%nat);
         ("TRANSPARENCY_NEEDED", 4%nat);
         ("TRANSPARENCY_NEEDED", 5%nat);
         ("TRANSPARENCY_NEEDED", 0%nat) ].
Proof.
  unfold _transparency_tracker_contract.
  destruct (Py.get inputs "company_name" _) as [name|]; [|discriminate]. cbn [res_bind].
  destruct (Py.get inputs "disclosed_data" _) as [disclosed|]; [|discriminate].
  cbn [res_bind].
  destruct (Py.get inputs "response_time_hours" _) as [hours|]; [|discriminate].
  cbn [res_bind].
  destruct (Py.get inputs "data_completeness" _) as [completeness|]; [|discriminate].
  cbn [res_bind].
  destruct (Py.len disclosed) as [n|]; [|discriminate]. cbn [res_bind].
  destruct (Py.rsub_int 100 hours) as [remaining|]; [|discriminate]. cbn [res_bind].
  destruct (Py.num_add _ _) as [partial|]; [|discriminate]. cbn [res_bind].
  destruct (Py.add _ completeness) as [total|]; [|discriminate]. cbn [res_bind].
  destruct (Py.truediv_int total 3) as [score|]; [|discriminate]. cbn [res_bind].
  destruct (Py.get context "transparency_history" _) as [history|]; [|discriminate].
  cbn [res_bind].
  destruct (Py.len history) as [m|]; [|discriminate]. cbn [res_bind].
  match goal with
  | |- context [ res_bind ?x _ ] => destruct x as [improvement|]; [|discriminate]
  end.
  cbn [res_bind].
  destruct (Py.keys disclosed) as [areas|]; [|discriminate]. cbn [res_bind].
  destruct (Py.lt_int hours 24) as [lt24|]; [|discriminate]. cbn [res_bind].
  destruct (Py.lt_int hours 72) as [lt72|]; [|discriminate]. cbn [res_bind].
  destruct (Py.lt_int hours 168) as [lt168|]; [|discriminate]. cbn [res_bind].
  intros H. injection H as <-.
  unfold _get_transparency_recommendations.
  settle_thresholds (Py.NFloat score); try lia;
    (eexists _, _; first
       [ exists 0%nat; split; [reflexivity|]; do 2 (split; [reflexivity|]);
         cbn [In]; tauto
       | exists 1%nat; split; [reflexivity|]; do 2 (split; [reflexivity|]);
         cbn [In]; tauto
       | exists 2%nat; split; [reflexivity|]; do 2 (split; [reflexivity|]);
         cbn [In]; tauto
       | exists 3%nat; split; [reflexivity|]; do 2 (split; [reflexivity|]);
         cbn [In]; tauto
       | exists 4%nat; split; [reflexivity|]; do 2 (split; [reflexivity|]);
         cbn [In]; tauto
       | exists 5%nat; split; [reflexivity|]; do 2 (split; [reflexivity|]);
         cbn [In]; tauto ]).
Qed.

Lemma recognition_matches_recommendations_witness :
  exists d, _transparency_tracker_contract EngineExample.detector
              (VDict [ ("disclosed_data",
                        VDict [ ("sustainability_report", VBool true);
                                ("certifications", VList []) ]);
                       ("response_time_hours", VInt 24);
                       ("data_completeness", VInt 70) ])
              (VDict [ ("transparency_history", VList []) ]) = Ok (VDict d) /\
            Py.lookup d "recognition_level" = Some (VStr "TRANSPARENCY_BEGINNER") /\
            Py.lookup d "recommended_improvements"
            = Some (strs (List.firstn 3 TransparencyRules.all_recommendations)).
Proof.
  destruct (recognition_matches_recommendations EngineExample.detector
              (VDict [ ("disclosed_data",
                        VDict [ ("sustainability_report", VBool true);
                                ("certifications", VList []) ]);
                       ("response_time_hours", VInt 24);
                       ("data_completeness", VInt 70) ])
              (VDict [ ("transparency_history", VList []) ]) _ eq_refl)
    as (d & level & k & Hd & _).
  injection Hd as Hd. exists d. rewrite <- Hd. repeat split.
Defined.

End EvaluatorFacts.

(** ** The verification history of a company *)
Section HistoryFacts.
Import Ledger Api Fields.

Lemma ltb_asymmetric s1 s2 : String.ltb s1 s2 = true -> String.ltb s2 s1 = false.
Proof.
  unfold String.ltb. rewrite (String.compare_antisym s1 s2).
  destruct (String.compare s2 s1); cbn; congruence.
Qed.

Lemma insert_entry_permutation key e l : insert_entry key e l ≡ₚ e :: l.
Proof.
  induction l as [|e' l IH]; cbn [insert_entry]; [reflexivity|].
  destruct (String.ltb (key e') (key e)); [reflexivity|].
  rewrite IH. apply Permutation_swap.
Qed.

Lemma sort_descending_permutation key l : sort_descending key l ≡ₚ l.
Proof.
  unfold sort_descending.
  assert (H : forall acc, List.fold_left (fun acc e => insert_entry key e acc) l acc
                          ≡ₚ (acc ++ l)%list).
  { induction l as [|e l IH]; intros acc; cbn [List.fold_left].
    - rewrite app_nil_r. reflexivity.
    - rewrite IH, insert_entry_permutation. apply Permutation_middle. }
  apply (H []).
Qed.

Lemma insert_entry_sorted key e l :
  Sorted (fun e1 e2 => String.ltb (key e1) (key e2) = false) l ->
  Sorted (fun e1 e2 => String.ltb (key e1) (key e2) = false) (insert_entry key e l).
Proof.
  induction 1 as [|e' l Hs IH Hhd]; cbn [insert_entry].
  - constructor; constructor.
  - destruct (String.ltb (key e') (key e)) eqn:E.
    + constructor; [constructor; assumption|]. constructor. apply ltb_asymmetric, E.
    + constructor; [exact IH|].
      destruct l as [|e'' l]; cbn [insert_entry].
      * constructor. exact E.
      * destruct (String.ltb (key e'') (key e)); constructor; [exact E|].
        inversion Hhd; assumption.
Qed.

Lemma sort_descending_sorted key l :
  Sorted (fun e1 e2 => String.ltb (key e1) (key e2) = false) (sort_descending key l).
Proof.
  unfold sort_descending.
  assert (H : forall acc,
             Sorted (fun e1 e2 => String.ltb (key e1) (key e2) = false) acc ->
             Sorted (fun e1 e2 => String.ltb (key e1) (key e2) = false)
                    (List.fold_left (fun acc e => insert_entry key e acc) l acc)).
  { induction l as [|e l IH]; intros acc Hacc; cbn [List.fold_left]; [exact Hacc|].
    apply IH, insert_entry_sorted, Hacc. }
  apply H. constructor.
Qed.

Lemma recorded_ledger_readable chain :
  recorded_ledger chain -> List.Forall readable chain.
Proof.
  intros (g & rest & n & u & -> & -> & Hrest). constructor.
  - eexists. split; [reflexivity|]. intros H. discriminate H.
  - eapply List.Forall_impl; [|exact Hrest].
    intros b (p & Hp & [(Ht & Hts & Hc)|Ht]); exists p; (split; [exact Hp|]).
    + intros _. split; assumption.
    + unfold kind_is, get_or. rewrite Hp, Ht. intros H. discriminate H.
Qed.

Lemma text_company_dict b p :
  data b = VDict p ->
  text_company b
  = if Builtins.eq_str (get_or p "type" VNone) "verification"
    then match get_or p "company_name" (VStr "") with VStr _ => true | _ => false end
    else true.
Proof.
  intros Hp. unfold text_company, get_or. rewrite Hp.
  destruct (Py.lookup p "type") as [t|]; [|reflexivity].
  destruct (Builtins.eq_str t "verification"); [|reflexivity].
  destruct (Py.lookup p "company_name") as [[| | | | | |]|]; reflexivity.
Qed.

Lemma company_is_dict company b p :
  data b = VDict p ->
  company_is company b
  = Builtins.eq_str (get_or p "type" VNone) "verification"
    && match get_or p "company_name" (VStr "") with
       | VStr s => String.eqb (Py.lower s) (Py.lower company)
       | _ => false
       end.
Proof. intros Hp. unfold company_is, kind_is. rewrite Hp. reflexivity. Qed.

(** The loop keeps the verifications of the company when every company
    name is a string, and raises otherwise. *)
Lemma company_blocks_cases chain company :
  List.Forall readable chain ->
  if List.forallb text_company chain then
    company_blocks chain company
    = Ok (List.map entry_of (List.filter (company_is company) chain))
  else company_blocks chain company = Raise AttributeError.
Proof.
  induction 1 as [|b chain (p & Hp & Hv) _ IH]; [reflexivity|].
  cbn [company_blocks List.forallb List.filter].
  rewrite (text_company_dict b p Hp), (company_is_dict company b p Hp).
  rewrite Hp, get_dict. cbn [res_bind].
  unfold kind_is in Hv. rewrite Hp in Hv.
  destruct (Builtins.eq_str (get_or p "type" VNone) "verification");
    cbn [res_bind andb].
  2:{ destruct (List.forallb text_company chain); rewrite IH; reflexivity. }
  destruct (Hv eq_refl) as (_ & Hc).
  rewrite !get_dict. cbn [res_bind].
  destruct (get_or p "company_name" (VStr "")) as [| | | |name| |];
    cbn [Py.lower_of res_bind andb]; try reflexivity.
  destruct (String.eqb (Py.lower name) (Py.lower company)); cbn [res_bind].
  - destruct (slice_first_ok 100 _ Hc) as (c & Ec & _).
    rewrite Ec. cbn [res_bind].
    assert (He : entry_of b
                 = mkHistoryEntry (get_or p "timestamp" VNone)
                                  (get_or p "verification_score" VNone)
                                  (get_or p "status" VNone) (get_or p "risk_level" VNone) c
                                  (index b) (String.substring 0 16 (hash b) ++ "...")
                                  (get_or p "automated_actions" (VList [])))
      by (unfold entry_of; rewrite Hp, Ec; reflexivity).
    cbn [List.map]. rewrite He.
    destruct (List.forallb text_company chain); rewrite IH; reflexivity.
  - destruct (List.forallb text_company chain); rewrite IH; reflexivity.
Qed.

Lemma entries_have_text chain company :
  List.Forall readable chain ->
  List.forallb has_text_timestamp
               (List.map entry_of (List.filter (company_is company) chain)) = true.
Proof.
  induction 1 as [|b chain (p & Hp & Hv) _ IH]; [reflexivity|].
  cbn [List.filter]. destruct (company_is company b) eqn:E; [|exact IH].
  cbn [List.map List.forallb]. rewrite IH, andb_true_r.
  unfold company_is in E. apply andb_prop in E. destruct E as [Ek _].
  destruct (Hv Ek) as ([ts Hts] & _).
  unfold has_text_timestamp, entry_of. rewrite Hp. cbn [entry_timestamp].
  unfold get_or. rewrite Hts. reflexivity.
Qed.

(** X22.  On a ledger built through the public functions,
    [get_company_verification_history(name)] (with Python's [sorted]
    behaving as the language specifies on string keys) returns one entry
    per verification block whose company name equals [name] up to case, and
    nothing else: the entries are those blocks' fields, the claim cut to
    its first 100 items and the hash to its first 16 characters followed by
    [...], ordered by decreasing timestamp text.  If one recorded
    verification carries a company name that is not a string, the history
    of every company is the empty list. *)
Theorem company_history_is_filtered sorted chain company now utcnow :
  sorts_text_timestamps sorted ->
  api_reachable chain ->
  let chain1 := _initialize_simple_blockchain chain now utcnow in
  let entries := List.map entry_of (List.filter (company_is company) chain1) in
  let answer := get_company_verification_history sorted chain company now utcnow in
  fst answer = chain1 /\
  if List.forallb text_company chain1 then
    snd answer ≡ₚ entries /\
    newest_first (snd answer) /\
    List.Forall (fun e => (size_of (entry_claim e) <= 100)%nat /\
                          exists b, In b chain1 /\ company_is company b = true /\
                                    e = entry_of b)
                (snd answer)
  else snd answer = [].
Proof.
  intros Hsorted Hr chain1 entries answer.
  pose proof (recorded_ledger_initialize _ now utcnow (api_reachable_recorded _ Hr)) as Hinv.
  fold chain1 in Hinv. apply recorded_ledger_readable in Hinv.
  pose proof (company_blocks_cases chain1 company Hinv) as Hcb.
  subst answer. unfold get_company_verification_history. fold chain1.
  destruct (List.forallb text_company chain1).
  - rewrite Hcb. cbn [res_bind]. fold entries.
    rewrite (Hsorted entries) by apply (entries_have_text chain1 company Hinv).
    cbn [fst snd]. split; [reflexivity|].
    split; [apply sort_descending_permutation|].
    split; [apply sort_descending_sorted|].
    apply List.Forall_forall. intros e He.
    apply (Permutation_in _ (sort_descending_permutation timestamp_text entries)) in He.
    subst entries. apply List.in_map_iff in He. destruct He as (b & <- & Hb).
    apply List.filter_In in Hb. destruct Hb as [Hb Hc]. split; [|eauto].
    unfold entry_of. cbn [entry_claim].
    destruct (Builtins.slice_first 100 _) as [c|] eqn:Ec; [|cbn; lia].
    apply (slice_first_sliceable _ _ _ Ec).
  - rewrite Hcb. cbn [res_bind fst snd]. split; reflexivity.
Qed.

Lemma company_history_is_filtered_witness :
  exists e, snd (get_company_verification_history sorted_texts ApiExample.chain' "TESTCORP"
                   LedgerExample.t2 ApiExample.utc2) ≡ₚ [ e ] /\
            entry_block_index e = 1 /\
            entry_block_hash e = "0022860ab780a139...".
Proof.
  destruct (company_history_is_filtered sorted_texts ApiExample.chain' "TESTCORP"
              LedgerExample.t2 ApiExample.utc2) as [_ H].
  - intros l _. reflexivity.
  - apply (api_next ApiExample.chain); [apply api_reachable_example|].
    eapply (api_add_claim_analysis 16 ApiExample.chain ApiExample.claim_data ApiExample.utc2
                                   LedgerExample.env2 LedgerExample.t2).
    vm_compute. reflexivity.
  - change (List.forallb text_company
              (_initialize_simple_blockchain ApiExample.chain' LedgerExample.t2 ApiExample.utc2))
      with true in H.
    destruct H as (Hp & _). eexists. split; [exact Hp|]. split; vm_compute; reflexivity.
Defined.

End HistoryFacts.

(** ** Resetting the module *)
Section ResetFacts.
Import Engine Registry Trace Api.

Lemma new_blockchain_untouched clock cid c :
  contracts (new_blockchain clock) !! cid = Some c -> untouched c.
Proof.
  unfold new_blockchain, _deploy_default_contracts, default_contracts, deploy_contract.
  cbn [List.fold_left fst snd contracts].
  repeat (rewrite lookup_insert_Some;
          intros [[_ <-]|[_ H]]; [repeat split|revert H]).
  rewrite lookup_empty. discriminate.
Qed.

Lemma new_blockchain_statistics clock :
  exists stats,
    get_contract_statistics (new_blockchain clock) = Ok stats /\
    total_contracts stats = 6 /\ total_executions stats = 0 /\
    stat_total_gas_used stats = 0 /\ active_contracts stats = 0 /\
    average_gas_per_execution stats = VInt 0.
Proof.
  assert (Hc : sum_over executed_count (contracts (new_blockchain clock)) = 0).
  { rewrite (sum_over_ext executed_count (fun _ => 0)).
    - generalize (contracts (new_blockchain clock)). intros m.
      induction m as [|cid c m Hfresh IH] using map_ind; [reflexivity|].
      rewrite sum_over_insert_fresh by exact Hfresh. lia.
    - intros cid c H. apply (new_blockchain_untouched clock cid c H). }
  assert (Hg : sum_over total_gas_used (contracts (new_blockchain clock)) = 0).
  { rewrite (sum_over_ext total_gas_used (fun _ => 0)).
    - generalize (contracts (new_blockchain clock)). intros m.
      induction m as [|cid c m Hfresh IH] using map_ind; [reflexivity|].
      rewrite sum_over_insert_fresh by exact Hfresh. lia.
    - intros cid c H. apply (new_blockchain_untouched clock cid c H). }
  assert (Ha : sum_over is_active (contracts (new_blockchain clock)) = 0).
  { rewrite (sum_over_ext is_active (fun _ => 0)).
    - generalize (contracts (new_blockchain clock)). intros m.
      induction m as [|cid c m Hfresh IH] using map_ind; [reflexivity|].
      rewrite sum_over_insert_fresh by exact Hfresh. lia.
    - intros cid c H. destruct (new_blockchain_untouched clock cid c H) as [Hs _].
      unfold is_active. rewrite Hs. reflexivity. }
  destruct (new_blockchain_contents clock) as [H6 _]. cbv zeta in H6.
  unfold get_contract_statistics. rewrite Hc, Hg, Ha, H6. cbn [Z.ltb Z.compare res_bind].
  eexists. split; [reflexivity|]. repeat split.
Qed.

(** X23.  A reset discards the contracts with the ledger: right after
    [reset_blockchain_for_testing()], the ledger is the genesis block
    alone, [get_total_smart_contract_executions()] is 0, and the next
    [get_blockchain_statistics()] reports one block, no verification, no
    company, a valid chain, and a registry built anew: six contracts, no
    execution, no gas; the total of executions is still 0 after it. *)
Theorem reset_discards_executions now utcnow now' utcnow' clock :
  let g := reset_blockchain_for_testing now utcnow in
  let after := get_blockchain_statistics g now' utcnow' clock in
  _simple_blockchain_data g = [ Ledger.genesis_block now utcnow ] /\
  get_total_smart_contract_executions g = 0 /\
  _simple_blockchain_data (fst after) = _simple_blockchain_data g /\
  get_total_smart_contract_executions (fst after) = 0 /\
  exists s cs,
    snd after = Operational s /\
    total_blocks s = 1 /\ verification_blocks s = 0 /\ claim_analysis_blocks s = 0 /\
    companies_on_blockchain s = 0 /\ chain_integrity_valid s = true /\
    smart_contracts s = Some cs /\
    total_contracts cs = 6 /\ total_executions cs = 0 /\ stat_total_gas_used cs = 0.
Proof.
  intros g after.
  destruct (new_blockchain_statistics clock) as (cs & Hcs & H6 & He & Hg & _).
  subst after g.
  unfold get_blockchain_statistics, reset_blockchain_for_testing,
    Ledger.reset_blockchain_for_testing, get_total_smart_contract_executions.
  cbn [_simple_blockchain_data _smart_contract_blockchain
       Ledger._initialize_simple_blockchain].
  change (blocks_of_type "verification" [ Ledger.genesis_block now utcnow ]) with (@Ok (list Block) []).
  change (blocks_of_type "claim_analysis" [ Ledger.genesis_block now utcnow ])
    with (@Ok (list Block) []).
  cbn [res_bind companies_of fst snd _simple_blockchain_data _smart_contract_blockchain].
  rewrite Hcs.
  split; [reflexivity|]. split; [reflexivity|]. split; [reflexivity|].
  split; [exact He|].
  eexists _, cs. split; [reflexivity|].
  cbn [total_blocks verification_blocks claim_analysis_blocks companies_on_blockchain
       chain_integrity_valid smart_contracts List.length].
  rewrite size_empty. repeat split; assumption.
Qed.

End ResetFacts.

(** ** The callers in [app.py] *)
Section AppFacts.
Import Engine Registry Trace App.

Lemma execute_into_runs cid key inputs context env registry results c :
  contracts registry !! cid = Some c ->
  execute_into cid key inputs context env (registry, results)
  = ((mkRegistry (<[cid := fst (execute c inputs context env)]> (contracts registry))
                 (contract_registry registry),
      List.app results [ (key, snd (execute c inputs context env)) ]), Ok tt).
Proof.
  intros Hc. unfold execute_into. cbn [fst snd].
  destruct (execute_contract_cases registry cid inputs context env)
    as [[Hn _]|(c' & Hc' & ->)]; [congruence|].
  rewrite Hc in Hc'. injection Hc' as <-. reflexivity.
Qed.

Lemma holds_after_execute app registry cid c inputs context env :
  contracts registry !! cid = Some c ->
  holds app registry ->
  holds app (mkRegistry (<[cid := fst (execute c inputs context env)]> (contracts registry))
                        (contract_registry registry)).
Proof.
  intros Hc H name t params Hin.
  destruct (H name t params Hin) as (cid' & c' & He & Hc' & Ht).
  cbn [contracts]. destruct (decide (cid' = cid)) as [->|Hne].
  - eexists cid, _. rewrite lookup_insert_eq. split; [exact He|]. split; [reflexivity|].
    destruct (execute_step c inputs context env) as (_ & Et & _).
    rewrite Et. congruence.
  - exists cid', c'. rewrite lookup_insert_ne by congruence. auto.
Qed.

(** One [if name in essential_contracts] block whose arguments are built:
    the contract runs and its response is stored under the key. *)
Lemma when_essential_runs app name t params key inputs context env registry results :
  In (name, t, params) essential_deployments ->
  holds app registry ->
  exists registry' response,
    when_essential app name key (Ok (inputs, context)) env (registry, results)
    = ((registry', List.app results [ (key, response) ]), Ok tt) /\
    holds app registry' /\ response_of t response.
Proof.
  intros Hin H. destruct (H name t params Hin) as (cid & c & He & Hc & Ht).
  unfold when_essential. rewrite He. unfold a_bind, a_lift. cbn [fst snd].
  rewrite (execute_into_runs cid key inputs context env registry results c Hc).
  eexists _, _. split; [reflexivity|].
  split; [apply holds_after_execute; assumption|].
  exists c, inputs, context, env. split; [exact Ht|reflexivity].
Qed.


Lemma in_essential_deployments :
  exists p1 p2 p3 p4 p5 p6,
    In ("greenwashing_detector", GREENWASHING_DETECTOR, p1) essential_deployments /\
    In ("automatic_flagging", AUTOMATIC_FLAGGING, p2) essential_deployments /\
    In ("sustainability_rewards", SUSTAINABILITY_REWARDS, p3) essential_deployments /\
    In ("penalty_system", PENALTY_SYSTEM, p4) essential_deployments /\
    In ("verification_bounty", VERIFICATION_BOUNTY, p5) essential_deployments /\
    In ("transparency_tracker", TRANSPARENCY_TRACKER, p6) essential_deployments.
Proof.
  unfold essential_deployments. do 6 eexists.
  repeat split; cbn [In]; repeat (first [left; reflexivity | right]).
Qed.

(** No evaluator accepts inputs that are not a dict. *)
Lemma dispatch_needs_dict c inputs context env :
  (forall d, inputs <> VDict d) ->
  dispatch c inputs context env = Raise AttributeError.
Proof.
  intros H. unfold dispatch.
  destruct inputs as [| | | | | |d]; [..|exfalso; apply (H d); reflexivity];
    destruct (contract_type c); reflexivity.
Qed.

Lemma response_needs_dict t response inputs :
  (forall d, inputs <> VDict d) ->
  (exists c context env,
      contract_type c = t /\ response = snd (execute c inputs context env)) ->
  exists cid, response = Failure cid AttributeError 50.
Proof.
  intros H (c & context & env & _ & ->).
  rewrite execute_cases, (dispatch_needs_dict c inputs context env H).
  eexists. reflexivity.
Qed.

Lemma score_defaults d a :
  Py.as_num (Fields.get_or d "verification_score" (VInt 100)) = Some a ->
  exists a', Py.as_num (Fields.get_or d "verification_score" (VInt 0)) = Some a'.
Proof.
  unfold Fields.get_or. destruct (Py.lookup d "verification_score"); eauto.
Qed.

Ltac another_id :=
  let E := fresh in intros E; apply contract_id_type in E; discriminate E.

Lemma size_insert_bounds (m : gmap string GreenGuardSmartContract) cid c :
  (size m <= size (<[cid := c]> m) <= S (size m))%nat.
Proof. rewrite map_size_insert. destruct (m !! cid); cbn; lia. Qed.

Ltac bound_inserts m :=
  lazymatch m with
  | <[?k := ?v]> ?m' => pose proof (size_insert_bounds m' k v); bound_inserts m'
  | _ => idtac
  end.

(** What the start-up leaves: each essential name stands for the id of its
    deployment, under which a new contract of its type is stored and
    registered. *)
Lemma startup_contents defaults clock :
  let app := startup defaults clock in
  (6 <= size (contracts (smart_blockchain app)) <= 12)%nat /\
  forall name t parameters,
    In (name, t, parameters) essential_deployments ->
    let cid := contract_id_of t (fst (clock t)) in
    essential app name = Some cid /\
    contract_registry (smart_blockchain app) !! t = Some cid /\
    contracts (smart_blockchain app) !! cid
    = Some (new_contract cid t "system@greenguard.com" parameters (snd (clock t))).
Proof.
  unfold startup, essential_deployments, deploy_contract.
  cbn [List.fold_left fst snd smart_blockchain essential_contracts List.app
       contracts contract_registry].
  split.
  - destruct (new_blockchain_contents defaults) as [H6 _]. cbv zeta in H6.
    match goal with
    | |- (_ <= size ?m <= _)%nat => bound_inserts m
    end.
    lia.
  - intros name t params Hin. cbv zeta. cbn [In] in Hin.
    repeat (destruct Hin as [Hin|Hin]; [injection Hin as <- <- <-|]); [..|contradiction];
      (split; [reflexivity|]);
      (split; [repeat (rewrite lookup_insert_ne by discriminate); apply lookup_insert_eq|]);
      repeat (rewrite lookup_insert_ne by another_id); apply lookup_insert_eq.
Qed.

Lemma startup_deployed defaults clock : deployed (startup defaults clock).
Proof.
  intros name t params Hin.
  destruct (startup_contents defaults clock) as [_ H]. cbv zeta in H.
  destruct (H name t params Hin) as (He & _ & Hc).
  eexists _, _. split; [exact He|]. split; [exact Hc|reflexivity].
Qed.

(** X25.  The start-up of [app.py] always leaves its six essential
    contracts in place, whatever the clock does: each essential name stands
    for the id [SC_<type>_<int(time)>] of its deployment; under this id the
    registry stores a new, still [PENDING] contract of that type with the
    parameters of [app.py], which replaces the default contract of the type
    when both were deployed within one second; the type is registered to
    it; and the registry holds between 6 and 12 contracts. *)
Theorem startup_deploys_essentials defaults clock :
  let app := startup defaults clock in
  deployed app /\
  (6 <= size (contracts (smart_blockchain app)) <= 12)%nat /\
  forall name t parameters,
    In (name, t, parameters) essential_deployments ->
    let cid := contract_id_of t (fst (clock t)) in
    essential app name = Some cid /\
    contract_registry (smart_blockchain app) !! t = Some cid /\
    contracts (smart_blockchain app) !! cid
    = Some (new_contract cid t "system@greenguard.com" parameters (snd (clock t))).
Proof.
  intros app. split; [apply startup_deployed|]. apply startup_contents.
Qed.

Lemma keeps_bind {X Y : Type} app (m : A X) (k : X -> A Y) :
  keeps app m -> (forall x, keeps app (k x)) -> keeps app (a_bind m k).
Proof.
  intros Hm Hk st Hst. unfold a_bind. specialize (Hm st Hst).
  destruct (m st) as [st' [x|e]]; cbn [fst] in Hm |- *; [apply Hk, Hm|exact Hm].
Qed.

Lemma keeps_lift {X : Type} app (r : res X) : keeps app (a_lift r).
Proof. intros st Hst. exact Hst. Qed.

Lemma keeps_ret {X : Type} app (x : X) : keeps app (a_ret x).
Proof. intros st Hst. exact Hst. Qed.

Lemma keeps_when_essential app name t params key arguments env :
  In (name, t, params) essential_deployments ->
  type_of_key key = Some t ->
  keeps app (when_essential app name key arguments env).
Proof.
  intros Hin Hkey [registry results] [Hh Hr]. cbn [fst snd] in Hh, Hr.
  destruct arguments as [[inputs context]|e].
  - destruct (when_essential_runs app name t params key inputs context env registry results
                Hin Hh) as (registry' & response & -> & Hh' & Hresp).
    split; [exact Hh'|]. cbn [fst snd]. apply Forall_app. split; [exact Hr|].
    constructor; [|constructor]. exists t. split; assumption.
  - unfold when_essential. destruct (essential app name); split; assumption.
Qed.

Lemma body_keeps app contract_input user_email env :
  keeps app (execute_all_body app contract_input user_email env).
Proof.
  destruct in_essential_deployments as (p1 & p2 & p3 & p4 & p5 & p6 & I1 & I2 & I3 & I4 & I5 & I6).
  unfold execute_all_body.
  repeat first
    [ apply keeps_bind; [|intros ?]
    | apply keeps_lift
    | apply keeps_ret
    | eapply keeps_when_essential; [eassumption|reflexivity]
    | match goal with |- keeps _ (if ?b then _ else _) => destruct b end ].
Qed.

(** The three blocks that open the body, before what follows them. *)
Lemma first_three_run {X : Type} app contract_input user_email env :
  deployed app ->
  exists registry r1 r2 r3,
    holds app registry /\
    (exists c context e, contract_type c = GREENWASHING_DETECTOR /\
                         r1 = snd (execute c contract_input context e)) /\
    (exists c context e, contract_type c = AUTOMATIC_FLAGGING /\
                         r2 = snd (execute c contract_input context e)) /\
    (exists c context e, contract_type c = SUSTAINABILITY_REWARDS /\
                         r3 = snd (execute c contract_input context e)) /\
    forall k : A X,
      (when_essential app "greenwashing_detector" "greenwashing_detection"
         (Ok (contract_input,
              VDict [ ("user_email", user_email);
                      ("timestamp", VFloat (context_time env));
                      ("company_history", VList []) ]))
         (env_detector env) ;;;
       when_essential app "automatic_flagging" "automatic_flagging"
         (Ok (contract_input, VDict [])) (env_flagging env) ;;;
       when_essential app "sustainability_rewards" "sustainability_rewards"
         (Ok (contract_input, VDict [])) (env_rewards env) ;;;
       k)
        (smart_blockchain app, [])
      = k (registry, [ ("greenwashing_detection", r1); ("automatic_flagging", r2);
                       ("sustainability_rewards", r3) ]).
Proof.
  intros H0.
  destruct in_essential_deployments as (p1 & p2 & p3 & _ & _ & _ & I1 & I2 & I3 & _).
  destruct (H0 _ _ _ I1) as (cid1 & c1 & He1 & Hc1 & Ht1).
  pose proof (holds_after_execute app _ cid1 c1 contract_input
                (VDict [ ("user_email", user_email);
                         ("timestamp", VFloat (context_time env));
                         ("company_history", VList []) ]) (env_detector env) Hc1 H0) as H1.
  destruct (H1 _ _ _ I2) as (cid2 & c2 & He2 & Hc2 & Ht2).
  pose proof (holds_after_execute app _ cid2 c2 contract_input (VDict [])
                (env_flagging env) Hc2 H1) as H2.
  destruct (H2 _ _ _ I3) as (cid3 & c3 & He3 & Hc3 & Ht3).
  pose proof (holds_after_execute app _ cid3 c3 contract_input (VDict [])
                (env_rewards env) Hc3 H2) as H3.
  eexists _, _, _, _. split; [exact H3|].
  split; [|split; [|split]];
    [eexists _, _, _; (split; [|reflexivity]); eassumption ..|].
  intros k. unfold a_bind.
  unfold when_essential at 1. rewrite He1. unfold a_bind, a_lift. cbn [fst snd].
  rewrite (execute_into_runs cid1 _ _ _ _ _ _ c1 Hc1).
  unfold when_essential at 1. rewrite He2. unfold a_bind, a_lift. cbn [fst snd].
  rewrite (execute_into_runs cid2 _ _ _ _ _ _ c2 Hc2).
  unfold when_essential at 1. rewrite He3. unfold a_bind, a_lift. cbn [fst snd].
  rewrite (execute_into_runs cid3 _ _ _ _ _ _ c3 Hc3).
  reflexivity.
Qed.

Lemma bounty_input_built d user_email a n :
  Py.as_num (Fields.get_or d "verification_score" (VInt 100)) = Some a ->
  Py.len (Fields.get_or d "claim" (VStr "")) = Ok n ->
  exists inputs, bounty_input (VDict d) user_email = Ok inputs.
Proof.
  intros Ha Hn. destruct (score_defaults d a Ha) as [a' Ha'].
  unfold bounty_input, min_100. rewrite !get_dict. cbn [res_bind].
  rewrite (lt_int_num _ _ _ Ha'). cbn [res_bind]. rewrite Hn. cbn [res_bind].
  eexists. reflexivity.
Qed.

Lemma body_results app contract_input user_email env :
  deployed app ->
  engine_results
    (snd (execute_all_verification_contracts app contract_input user_email env)).
Proof.
  intros H0.
  assert (Hkept : kept app (fst (execute_all_body app contract_input user_email env
                                   (smart_blockchain app, [])))).
  { apply body_keeps. split; [exact H0|constructor]. }
  unfold execute_all_verification_contracts.
  destruct (execute_all_body app contract_input user_email env (smart_blockchain app, []))
    as [[registry results] outcome].
  apply Hkept.
Qed.

Ltac run_block E I H reg' r' E' H' :=
  match type of E with
  | context [ when_essential ?app ?name ?key (Ok (?i, ?c)) ?env (?reg, ?res) ] =>
      destruct (when_essential_runs app name _ _ key i c env reg res I H)
        as (reg' & r' & E' & H' & _);
      rewrite E' in E; cbv beta iota in E
  end.

(** X24.  What one verification runs: with the six essential contracts
    deployed, a dict input with a numeric (or missing) [verification_score]
    and a [claim] that has a length, [execute_all_verification_contracts]
    returns the responses of the greenwashing detector, the automatic
    flagging and the sustainability rewards, then that of the penalty
    system exactly when the score is below 40 (a missing score counts as
    100), then those of the verification bounty and of the transparency
    tracker, in this order.  With an input that is not a dict it returns
    three failure dicts, each with an [AttributeError] and gas 50, and
    nothing else.  In every case the contracts stay deployed and each
    response returned is that of a contract of the type its key names. *)
Theorem essential_contracts_run app contract_input user_email env :
  deployed app ->
  let after := execute_all_verification_contracts app contract_input user_email env in
  deployed (fst after) /\
  engine_results (snd after) /\
  (forall d a n,
      contract_input = VDict d ->
      Py.as_num (Fields.get_or d "verification_score" (VInt 100)) = Some a ->
      Py.len (Fields.get_or d "claim" (VStr "")) = Ok n ->
      List.map fst (snd after) = standard_keys (Py.num_lt_int a 40)) /\
  ((forall d, contract_input <> VDict d) ->
   exists cid1 cid2 cid3,
     snd after = [ ("greenwashing_detection", Failure cid1 AttributeError 50);
                   ("automatic_flagging", Failure cid2 AttributeError 50);
                   ("sustainability_rewards", Failure cid3 AttributeError 50) ]).
Proof.
  intros H0 after.
  assert (Hkept : kept app (fst (execute_all_body app contract_input user_email env
                                   (smart_blockchain app, [])))).
  { apply body_keeps. split; [exact H0|constructor]. }
  subst after. unfold execute_all_verification_contracts.
  destruct (execute_all_body app contract_input user_email env (smart_blockchain app, []))
    as [[registry results] outcome] eqn:Ebody.
  cbn [fst snd] in Hkept |- *. destruct Hkept as [Hh Hr].
  split; [exact Hh|]. split; [exact Hr|].
  destruct in_essential_deployments as (p1 & p2 & p3 & p4 & p5 & p6 & _ & _ & _ & I4 & I5 & I6).
  destruct (first_three_run (X := unit) app contract_input user_email env H0)
    as (reg3 & r1 & r2 & r3 & H3 & R1 & R2 & R3 & Hthree).
  unfold execute_all_body in Ebody. rewrite Hthree in Ebody. clear Hthree.
  split.
  - intros d a n -> Ha Hn. unfold a_bind at 1 in Ebody. unfold a_lift at 1 in Ebody.
    rewrite get_dict in Ebody. cbv beta iota in Ebody.
    unfold a_bind at 1 in Ebody. unfold a_lift at 1 in Ebody.
    rewrite (lt_int_num _ _ _ Ha) in Ebody. cbv beta iota in Ebody.
    destruct (bounty_input_built d user_email a n Ha Hn) as [bi Hbi].
    rewrite Hbi in Ebody. cbn [res_bind] in Ebody.
    change (transparency_input (VDict d))
      with (Ok (VDict [ ("company_name", Fields.get_or d "company_name" VNone);
                        ("disclosed_data",
                         VDict [ ("sustainability_report", VBool true);
                                 ("certifications",
                                  Fields.get_or d "certifications" (VList [])) ]);
                        ("response_time_hours", VInt 24);
                        ("data_completeness",
                         Fields.get_or d "transparency_level" (VInt 70)) ])) in Ebody.
    cbn [res_bind] in Ebody.
    unfold standard_keys.
    destruct (Py.num_lt_int a 40).
    + unfold a_bind at 1 in Ebody.
      run_block Ebody I4 H3 reg4 r4 E4 H4.
      unfold a_bind at 1 in Ebody.
      run_block Ebody I5 H4 reg5 r5 E5 H5.
      run_block Ebody I6 H5 reg6 r6 E6 H6.
      injection Ebody as _ <- _. reflexivity.
    + unfold a_bind at 1 in Ebody. unfold a_ret at 1 in Ebody. cbv beta iota in Ebody.
      unfold a_bind at 1 in Ebody.
      run_block Ebody I5 H3 reg5 r5 E5 H5.
      run_block Ebody I6 H5 reg6 r6 E6 H6.
      injection Ebody as _ <- _. reflexivity.
  - intros Hnd.
    assert (Hget : Py.get contract_input "verification_score" (VInt 100)
                   = Raise AttributeError).
    { destruct contract_input; try reflexivity. exfalso. eapply Hnd. reflexivity. }
    unfold a_bind at 1 in Ebody. unfold a_lift at 1 in Ebody.
    rewrite Hget in Ebody. injection Ebody as _ <- _.
    destruct (response_needs_dict _ r1 contract_input Hnd R1) as [cid1 ->].
    destruct (response_needs_dict _ r2 contract_input Hnd R2) as [cid2 ->].
    destruct (response_needs_dict _ r3 contract_input Hnd R3) as [cid3 ->].
    exists cid1, cid2, cid3. reflexivity.
Qed.


Lemma essential_contracts_run_witness :
  List.map fst
    (snd (execute_all_verification_contracts
            (startup RegistryExample.clock RegistryExample.clock)
            EngineExample.critical_inputs (VStr "user@example.com") AppExample.env))
  = [ "greenwashing_detection"; "automatic_flagging"; "sustainability_rewards";
      "penalty_system"; "verification_bounty"; "transparency_tracker" ].
Proof.
  destruct (essential_contracts_run (startup RegistryExample.clock RegistryExample.clock)
              EngineExample.critical_inputs (VStr "user@example.com") AppExample.env
              (startup_deployed _ _)) as (_ & _ & Hkeys & _).
  rewrite (Hkeys _ (Py.NInt 15) 0 eq_refl eq_refl eq_refl). reflexivity.
Defined.


(** Peels the steps of an evaluator that returned. *)
Ltac peel :=
  repeat match goal with
         | |- res_bind ?x _ = Ok _ -> _ =>
             let v := fresh "v" in
             destruct x as [v|]; cbn [res_bind]; [|discriminate]
         | |- (let '(_, _) := ?p in _) = Ok _ -> _ => destruct p
         end.

Lemma detector_shape self inputs context result :
  _greenwashing_detector_contract self inputs context = Ok result ->
  exists actions, Py.get result "actions_triggered" (VList []) = Ok (strs actions).
Proof.
  unfold _greenwashing_detector_contract. peel.
  intros H. injection H as <-. eexists. reflexivity.
Qed.

Lemma flagging_shape self inputs context result :
  _automatic_flagging_contract self inputs context = Ok result ->
  exists flags, Py.get result "flags_triggered" (VList []) = Ok (strs flags).
Proof.
  unfold _automatic_flagging_contract. peel.
  intros H. injection H as <-. eexists. reflexivity.
Qed.

Lemma penalty_shape self inputs context review result :
  _penalty_system_contract self inputs context review = Ok result ->
  exists consequences, Py.get result "consequences" (VList []) = Ok (strs consequences).
Proof.
  unfold _penalty_system_contract. peel.
  intros H. injection H as <-. eexists. reflexivity.
Qed.

Lemma bounty_shape self inputs context result :
  _verification_bounty_contract self inputs context = Ok result ->
  exists bounty, Py.get result "bounty_awarded" (VInt 0) = Ok (VInt bounty).
Proof.
  unfold _verification_bounty_contract. peel.
  intros H. cbv zeta in H.
  repeat match type of H with
         | context [ if ?b then _ else _ ] => destruct b
         end;
    cbv beta iota in H; revert H; peel; intros H; injection H as <-;
    eexists; reflexivity.
Qed.


Lemma rewards_shape self inputs context result :
  _sustainability_rewards_contract self inputs context = Ok result ->
  exists badge, Py.get result "badge_earned" (VStr "NO_BADGE") = Ok (VStr badge).
Proof.
  unfold _sustainability_rewards_contract. peel.
  intros H. injection H as <-. eexists. reflexivity.
Qed.

(** What [str] wrote holds no int beyond the limit. *)
Lemma str_fits v text : Py.str v = Ok text -> Py.fits v = true.
Proof.
  destruct v; try reflexivity; unfold Py.str, Py.repr;
    (destruct (Py.fits _); [reflexivity|discriminate]).
Qed.

Lemma fits_get d k default v :
  Py.fits (VDict d) = true -> Py.fits default = true ->
  Py.get (VDict d) k default = Ok v -> Py.fits v = true.
Proof.
  cbn [Py.fits Py.get]. unfold Py.lookup. intros Hd Hdef H. injection H as <-.
  destruct (List.find _ d) as [kv|] eqn:Ef; [|exact Hdef].
  apply List.find_some in Ef. destruct Ef as [Hin _].
  rewrite List.forallb_forall in Hd. exact (Hd kv Hin).
Qed.

(** A response that succeeded carries what the evaluator of its contract
    returned, which [str] could write. *)
Lemma succeeded_engine results key result t :
  engine_results results ->
  succeeded results key = Some result ->
  type_of_key key = Some t ->
  exists c inputs context env,
    contract_type c = t /\ dispatch c inputs context env = Ok result /\
    Py.fits result = true.
Proof.
  intros Hr Hs Ht. unfold succeeded in Hs.
  destruct (List.find _ results) as [[k response]|] eqn:Ef; [|discriminate Hs].
  apply List.find_some in Ef. destruct Ef as [Hin Hk]. cbn [fst] in Hk.
  apply String.eqb_eq in Hk. subst k.
  unfold engine_results in Hr. rewrite List.Forall_forall in Hr.
  destruct (Hr _ Hin) as (t' & Ht' & c & inputs & context & env & Hc & Hresp).
  cbn [fst snd] in Ht', Hresp. rewrite Ht in Ht'. injection Ht' as <-.
  exists c, inputs, context, env. split; [exact Hc|].
  rewrite execute_cases in Hresp. cbv zeta in Hresp.
  destruct (dispatch c inputs context env) as [r|e].
  - destruct (_calculate_gas_usage c r _) as [gas|e] eqn:Eg; cbn [snd] in Hresp;
      subst response.
    + injection Hs as <-. split; [reflexivity|].
      rewrite gas_usage_cases in Eg.
      destruct (Py.str r) as [text|e] eqn:Et; [|discriminate Eg].
      exact (str_fits _ _ Et).
    + discriminate Hs.
  - cbn [snd] in Hresp. subst response. discriminate Hs.
Qed.

(** The labels of a list of strings. *)
Lemma labels_of_strings (label : string) l :
  Py.map_res (fun v => let* text := Py.str v in Ok (VStr (label ++ text))) (List.map VStr l)
  = Ok (List.map (fun s => VStr (label ++ s)) l).
Proof.
  induction l as [|x l IH]; [reflexivity|].
  cbn [List.map Py.map_res Py.str res_bind]. rewrite IH. reflexivity.
Qed.

Lemma texts_of_prefixed (label : string) l :
  List.forallb is_text (List.map (fun s => VStr (label ++ s)) l) = true.
Proof. induction l as [|x l IH]; [reflexivity|exact IH]. Qed.

Lemma texts_of_strings l : List.forallb is_text (List.map VStr l) = true.
Proof. induction l as [|x l IH]; [reflexivity|exact IH]. Qed.

Lemma texts_of_labels (label : pyval -> string) l :
  List.forallb is_text (List.map (fun v => VStr (label v)) l) = true.
Proof. induction l as [|x l IH]; [reflexivity|exact IH]. Qed.

(** X26.  [extract_automated_actions] never raises on what the engine
    returned: for every results dict in which each response is that of a
    contract of the type its key names (the dicts
    [execute_all_verification_contracts] returns are such), it returns a
    list, and every action of the list is a string. *)
Theorem extraction_never_raises results :
  engine_results results ->
  exists actions,
    extract_automated_actions results = Ok actions /\
    List.forallb is_text actions = true.
Proof.
  intros Hr. unfold extract_automated_actions.
  assert (H1 : exists a1,
             match succeeded results "greenwashing_detection" with
             | Some result =>
                 let* contract_actions := Py.get result "actions_triggered" (VList []) in
                 let* items := Py.iter contract_actions in
                 Ok (List.app [] items)
             | None => Ok []
             end = Ok a1 /\ List.forallb is_text a1 = true).
  { destruct (succeeded results "greenwashing_detection") as [result|] eqn:Es;
      [|exists []; split; reflexivity].
    destruct (succeeded_engine _ _ _ GREENWASHING_DETECTOR Hr Es eq_refl)
      as (c & inputs & context & env & Hc & Hd & _).
    unfold dispatch in Hd. rewrite Hc in Hd.
    destruct (detector_shape _ _ _ _ Hd) as [actions ->]. cbn [res_bind Py.iter strs].
    eexists. split; [reflexivity|]. apply texts_of_strings. }
  destruct H1 as (a1 & -> & T1). cbn [res_bind].
  assert (H2 : exists a2,
             match succeeded results "automatic_flagging" with
             | Some result =>
                 let* flags := Py.get result "flags_triggered" (VList []) in
                 let* items := Py.iter flags in
                 let* labels :=
                   Py.map_res
                     (fun flag => let* text := Py.str flag in Ok (VStr ("FLAG: " ++ text)))
                     items in
                 Ok (List.app a1 labels)
             | None => Ok a1
             end = Ok a2 /\ List.forallb is_text a2 = true).
  { destruct (succeeded results "automatic_flagging") as [result|] eqn:Es;
      [|exists a1; split; [reflexivity|exact T1]].
    destruct (succeeded_engine _ _ _ AUTOMATIC_FLAGGING Hr Es eq_refl)
      as (c & inputs & context & env & Hc & Hd & _).
    unfold dispatch in Hd. rewrite Hc in Hd.
    destruct (flagging_shape _ _ _ _ Hd) as [flags ->]. cbn [res_bind Py.iter strs].
    rewrite labels_of_strings. cbn [res_bind].
    eexists. split; [reflexivity|].
    rewrite List.forallb_app, T1. apply texts_of_prefixed. }
  destruct H2 as (a2 & -> & T2). cbn [res_bind].
  assert (H3 : exists a3,
             match succeeded results "penalty_system" with
             | Some result =>
                 let* consequences := Py.get result "consequences" (VList []) in
                 let* items := Py.iter consequences in
                 let* labels :=
                   Py.map_res
                     (fun consequence =>
                        let* text := Py.str consequence in Ok (VStr ("PENALTY: " ++ text)))
                     items in
                 Ok (List.app a2 labels)
             | None => Ok a2
             end = Ok a3 /\ List.forallb is_text a3 = true).
  { destruct (succeeded results "penalty_system") as [result|] eqn:Es;
      [|exists a2; split; [reflexivity|exact T2]].
    destruct (succeeded_engine _ _ _ PENALTY_SYSTEM Hr Es eq_refl)
      as (c & inputs & context & env & Hc & Hd & _).
    unfold dispatch in Hd. rewrite Hc in Hd.
    destruct (penalty_shape _ _ _ _ _ Hd) as [consequences ->].
    cbn [res_bind Py.iter strs].
    rewrite labels_of_strings. cbn [res_bind].
    eexists. split; [reflexivity|].
    rewrite List.forallb_app, T2. apply texts_of_prefixed. }
  destruct H3 as (a3 & -> & T3). cbn [res_bind].
  assert (H4 : exists a4,
             match succeeded results "sustainability_rewards" with
             | Some result =>
                 let* badge := Py.get result "badge_earned" (VStr "NO_BADGE") in
                 if negb (Builtins.eq_str badge "NO_BADGE")
                 then
                   let* text := Py.str badge in
                   Ok (List.app a3 [ VStr ("REWARD: " ++ text) ])
                 else Ok a3
             | None => Ok a3
             end = Ok a4 /\ List.forallb is_text a4 = true).
  { destruct (succeeded results "sustainability_rewards") as [result|] eqn:Es;
      [|exists a3; split; [reflexivity|exact T3]].
    destruct (succeeded_engine _ _ _ SUSTAINABILITY_REWARDS Hr Es eq_refl)
      as (c & inputs & context & env & Hc & Hd & _).
    unfold dispatch in Hd. rewrite Hc in Hd.
    destruct (rewards_shape _ _ _ _ Hd) as [badge ->]. cbn [res_bind Py.str].
    destruct (negb _); eexists; (split; [reflexivity|]); [|exact T3].
    rewrite List.forallb_app, T3. reflexivity. }
  destruct H4 as (a4 & -> & T4). cbn [res_bind].
  assert (H5 : exists a5,
             match succeeded results "verification_bounty" with
             | Some result =>
                 let* bounty := Py.get result "bounty_awarded" (VInt 0) in
                 let* positive := Py.gt_int bounty 0 in
                 if positive
                 then
                   let* text := Py.str bounty in
                   Ok (List.app a4 [ VStr ("BOUNTY: " ++ text ++ " points awarded") ])
                 else Ok a4
             | None => Ok a4
             end = Ok a5 /\ List.forallb is_text a5 = true).
  { destruct (succeeded results "verification_bounty") as [result|] eqn:Es;
      [|exists a4; split; [reflexivity|exact T4]].
    destruct (succeeded_engine _ _ _ VERIFICATION_BOUNTY Hr Es eq_refl)
      as (c & inputs & context & env & Hc & Hd & Hfit).
    unfold dispatch in Hd. rewrite Hc in Hd.
    destruct (bounty_shape _ _ _ _ Hd) as [bounty Hb].
    assert (Hw : Py.str (VInt bounty) = Ok (Py.repr_text (VInt bounty))).
    { destruct result as [| | | | | |d]; try discriminate Hb.
      assert (H0 : Py.fits (VInt 0) = true) by reflexivity.
      pose proof (fits_get d _ _ _ Hfit H0 Hb) as Hf.
      unfold Py.str, Py.repr. rewrite Hf. reflexivity. }
    rewrite Hb. cbn [res_bind Py.gt_int Py.as_num].
    destruct (Py.num_gt_int _ 0); [rewrite Hw; cbn [res_bind]|];
      eexists; (split; [reflexivity|]); [|exact T4].
    rewrite List.forallb_app, T4. reflexivity. }
  destruct H5 as (a5 & -> & T5). cbn [res_bind].
  exists a5. split; [reflexivity|exact T5].
Qed.

Lemma extraction_never_raises_witness :
  extract_automated_actions
    (snd (execute_all_verification_contracts
            (startup RegistryExample.clock RegistryExample.clock)
            EngineExample.critical_inputs (VStr "user@example.com") AppExample.env))
  = Ok (List.map VStr
          [ "IMMEDIATE_FLAG"; "COMMUNITY_ALERT"; "REGULATORY_NOTIFICATION";
            "BOUNTY: 4 points awarded" ]).
Proof.
  destruct (extraction_never_raises
              (snd (execute_all_verification_contracts
                      (startup RegistryExample.clock RegistryExample.clock)
                      EngineExample.critical_inputs (VStr "user@example.com")
                      AppExample.env))) as (actions & Ha & _).
  - apply body_results. apply startup_deployed.
  - rewrite Ha. vm_compute in Ha. injection Ha as <-. reflexivity.
Defined.

End AppFacts.

